(** * SEA-Bridge document translation service: a shallow embedding

    The first part embeds [translation-service/app]: [util.py] and the
    built-ins it relies on (module [Py]), the UTF-8 codec behind
    [bytes.decode] and [str.encode] (module [Utf8]), [parsers.py]
    (module [Parsers]), [translator.py] (module [Translator]) and the
    request handler of [main.py] (module [Main]), followed by sample
    surroundings and requests (module [Samples]). The second part states
    and proves the properties of the pipeline, module by module.

    Python values are represented as follows: an [int] is a [Z]; a [str] is
    the list of its code points ([list N]); a [bytes] object is a
    [list byte]; [None] is [None] of an [option]; an exception is the left
    injection of a sum, or the [Raised] case of an [outcome]. *)

From Stdlib Require Import ZArith NArith List String Ascii Lia Bool.
From Stdlib.Strings Require Import Byte.
From Stdlib Require Import Permutation DecimalString.
From stdpp Require Import base option list.
Import ListNotations.

Abbreviation str := (list N) (only parsing).
Abbreviation bytes := (list byte) (only parsing).

(** ** Python built-ins used by the service *)
Module Py.

(** A string literal of the source: one code point per character. *)
Definition lit (s : string) : str :=
  map Byte.to_N (list_byte_of_string s).

(** A bytes literal of the source. *)
Definition blit (s : string) : bytes := list_byte_of_string s.

(** [len(x)] *)
Definition len {A} (l : list A) : Z := Z.of_nat (length l).

(** [a == b] on strings. *)
Fixpoint str_eqb (a b : str) : bool :=
  match a, b with
  | [], [] => true
  | x :: a', y :: b' => (x =? y)%N && str_eqb a' b'
  | _, _ => false
  end.

(** [x in xs] for a collection of strings. *)
Definition str_in (x : str) (xs : list str) : bool := existsb (str_eqb x) xs.

(** Truth value of an [Optional[str]]: [None] and the empty string are
    false. *)
Definition truthy (o : option str) : bool :=
  match o with
  | Some (_ :: _) => true
  | _ => false
  end.

(** Truth value of an optional object whose class defines neither
    [__bool__] nor [__len__]: only [None] is false. *)
Definition not_none {A} (o : option A) : bool :=
  match o with
  | Some _ => true
  | None => false
  end.

(** Truth value of an [Optional[int]]: [None] and [0] are false. *)
Definition truthy_int (o : option Z) : bool :=
  match o with
  | Some z => negb (z =? 0)%Z
  | None => false
  end.

(** [s.rfind(c)] for a one-character needle: the highest index holding
    [c], or [-1]. *)
Fixpoint rfind_from (c : N) (s : str) (i last : Z) : Z :=
  match s with
  | [] => last
  | x :: s' => rfind_from c s' (i + 1)%Z (if (x =? c)%N then i else last)
  end.

Definition rfind (s : str) (c : N) : Z := rfind_from c s 0%Z (-1)%Z.

(** [s[i:]] for [0 <= i]. *)
Definition slice_from {A} (s : list A) (i : Z) : list A := drop (Z.to_nat i) s.

(** [s.isascii()] *)
Definition isascii (s : str) : bool := forallb (fun c => (c <? 128)%N) s.

(** [s.lower()] as it acts on ASCII text: the code points [A]-[Z] move to
    [a]-[z], every other code point is kept. On a string for which
    [isascii] holds this is [str.lower]. Python also lowers the cased
    letters beyond ASCII, some of them to more than one code point, and
    there the two differ: what is proved of the value of [lower] is
    stated for ASCII strings. The tests of the service against ASCII
    constants ([.pdf], [.docx], the allow-list, a hexadecimal digest) come
    out the same on every string, as no letter beyond ASCII lowers to a
    string made of ASCII characters other than [k]. *)
Definition lower_cp (c : N) : N :=
  if ((65 <=? c) && (c <=? 90))%N then (c + 32)%N else c.

Definition lower (s : str) : str := map lower_cp s.

(** [s.startswith(p)] *)
Fixpoint startswith (s p : str) : bool :=
  match p, s with
  | [], _ => true
  | y :: p', x :: s' => (x =? y)%N && startswith s' p'
  | _ :: _, [] => false
  end.

(** [s.split(sep)] for a one-character separator. *)
Fixpoint split_acc (sep : N) (s cur : str) : list str :=
  match s with
  | [] => [rev cur]
  | x :: s' =>
      if (x =? sep)%N then rev cur :: split_acc sep s' []
      else split_acc sep s' (x :: cur)
  end.

Definition split (s : str) (sep : N) : list str := split_acc sep s [].

(** [s.split(sep, 1)]: cut at the first separator only. *)
Fixpoint split1_acc (sep : N) (s cur : str) : list str :=
  match s with
  | [] => [rev cur]
  | x :: s' =>
      if (x =? sep)%N then [rev cur; s']
      else split1_acc sep s' (x :: cur)
  end.

Definition split1 (s : str) (sep : N) : list str := split1_acc sep s [].

(** [sep.join(parts)] *)
Fixpoint join (sep : str) (parts : list str) : str :=
  match parts with
  | [] => []
  | [p] => p
  | p :: ps => p ++ sep ++ join sep ps
  end.

(** [str(n)] for an [int]. *)
Definition str_of_Z (z : Z) : str :=
  lit (NilZero.string_of_int (Z.to_int z)).

Definition dot : N := 46.
Definition slash : N := 47.
Definition space : N := 32.
Definition newline : N := 10.

End Py.

(** [util.py], and the same function as repeated in [main.py] and nested in
    [parsers.py]. *)
Definition ext_from_name (name : str) : str :=
  let dot := Py.rfind name Py.dot in
  if (dot =? -1)%Z then [] else Py.lower (Py.slice_from name dot).

(** ** The UTF-8 codec

    [bytes.decode("utf-8", errors)] as CPython performs it: the decoder
    reads one sequence at a time; an ill-formed sequence is reported with
    the range of bytes at fault (the lead byte alone for an invalid start
    byte, the well-formed prefix read so far for an invalid continuation
    byte, everything that is left for a sequence cut by the end of the
    data), and the error handler decides what happens with that range. *)
Module Utf8.

Inductive errors :=
| Strict   (* raise UnicodeDecodeError *)
| Ignore   (* drop the offending bytes and go on *)
| Replace. (* put U+FFFD in their place and go on *)

Inductive UnicodeError := UnicodeDecodeError | UnicodeEncodeError.

Definition replacement_character : N := 0xFFFD.

Definition is_continuation (b : N) : bool := ((0x80 <=? b) && (b <=? 0xBF))%N.

(** The handler at an offending range, [k] being the decoding of what
    follows that range. *)
Definition on_error (h : errors) (k : UnicodeError + str) : UnicodeError + str :=
  match h with
  | Strict => inl UnicodeDecodeError
  | Ignore => k
  | Replace =>
      match k with
      | inl e => inl e
      | inr s => inr (replacement_character :: s)
      end
  end.

Definition emit (cp : N) (k : UnicodeError + str) : UnicodeError + str :=
  match k with
  | inl e => inl e
  | inr s => inr (cp :: s)
  end.

(** The code point of a sequence: the payload bits of its bytes, six per
    continuation byte. *)
Definition cp2 (b0 b1 : N) : N := ((b0 - 0xC0) * 64 + (b1 - 0x80))%N.
Definition cp3 (b0 b1 b2 : N) : N :=
  (((b0 - 0xE0) * 64 + (b1 - 0x80)) * 64 + (b2 - 0x80))%N.
Definition cp4 (b0 b1 b2 b3 : N) : N :=
  ((((b0 - 0xF0) * 64 + (b1 - 0x80)) * 64 + (b2 - 0x80)) * 64 + (b3 - 0x80))%N.

(** Second byte of a three-byte sequence: a continuation byte that makes
    the sequence neither overlong (lead [E0]) nor a surrogate (lead [ED]). *)
Definition second_of_3 (b0 b1 : N) : bool :=
  (is_continuation b1
   && negb ((b0 =? 0xE0) && (b1 <? 0xA0))
   && negb ((b0 =? 0xED) && (0xA0 <=? b1)))%N.

(** Second byte of a four-byte sequence: a continuation byte that makes
    the sequence neither overlong (lead [F0]) nor beyond U+10FFFF (lead
    [F4]). *)
Definition second_of_4 (b0 b1 : N) : bool :=
  (is_continuation b1
   && negb ((b0 =? 0xF0) && (b1 <? 0x90))
   && negb ((b0 =? 0xF4) && (0x90 <=? b1)))%N.

Fixpoint decode (h : errors) (data : bytes) : UnicodeError + str :=
  match data with
  | [] => inr []
  | c0 :: rest =>
      let b0 := Byte.to_N c0 in
      if (b0 <? 0x80)%N then emit b0 (decode h rest)
      else if (b0 <? 0xC2)%N then on_error h (decode h rest)
      else if (b0 <? 0xE0)%N then
        match rest with
        | [] => on_error h (inr [])
        | c1 :: r1 =>
            let b1 := Byte.to_N c1 in
            if is_continuation b1 then emit (cp2 b0 b1) (decode h r1)
            else on_error h (decode h rest)
        end
      else if (b0 <? 0xF0)%N then
        match rest with
        | [] => on_error h (inr [])
        | c1 :: r1 =>
            let b1 := Byte.to_N c1 in
            if second_of_3 b0 b1 then
              match r1 with
              | [] => on_error h (inr [])
              | c2 :: r2 =>
                  let b2 := Byte.to_N c2 in
                  if is_continuation b2 then emit (cp3 b0 b1 b2) (decode h r2)
                  else on_error h (decode h r1)
              end
            else on_error h (decode h rest)
        end
      else if (b0 <? 0xF5)%N then
        match rest with
        | [] => on_error h (inr [])
        | c1 :: r1 =>
            let b1 := Byte.to_N c1 in
            if second_of_4 b0 b1 then
              match r1 with
              | [] => on_error h (inr [])
              | c2 :: r2 =>
                  let b2 := Byte.to_N c2 in
                  if is_continuation b2 then
                    match r2 with
                    | [] => on_error h (inr [])
                    | c3 :: r3 =>
                        let b3 := Byte.to_N c3 in
                        if is_continuation b3
                        then emit (cp4 b0 b1 b2 b3) (decode h r3)
                        else on_error h (decode h r2)
                    end
                  else on_error h (decode h r1)
              end
            else on_error h (decode h rest)
        end
      else on_error h (decode h rest)
  end.

(** One round of [decode], told apart from the loop: the code point read
    and the number of bytes it took, or the number of bytes of the
    offending range, or a sequence cut by the end of the data. *)
Inductive round :=
| Done
| Char (cp : N) (n : nat)
| Bad (n : nat)
| Cut.

Definition step (data : bytes) : round :=
  match data with
  | [] => Done
  | c0 :: rest =>
      let b0 := Byte.to_N c0 in
      if (b0 <? 0x80)%N then Char b0 1
      else if (b0 <? 0xC2)%N then Bad 1
      else if (b0 <? 0xE0)%N then
        match rest with
        | [] => Cut
        | c1 :: _ =>
            if is_continuation (Byte.to_N c1)
            then Char (cp2 b0 (Byte.to_N c1)) 2 else Bad 1
        end
      else if (b0 <? 0xF0)%N then
        match rest with
        | [] => Cut
        | c1 :: r1 =>
            if second_of_3 b0 (Byte.to_N c1) then
              match r1 with
              | [] => Cut
              | c2 :: _ =>
                  if is_continuation (Byte.to_N c2)
                  then Char (cp3 b0 (Byte.to_N c1) (Byte.to_N c2)) 3
                  else Bad 2
              end
            else Bad 1
        end
      else if (b0 <? 0xF5)%N then
        match rest with
        | [] => Cut
        | c1 :: r1 =>
            if second_of_4 b0 (Byte.to_N c1) then
              match r1 with
              | [] => Cut
              | c2 :: r2 =>
                  if is_continuation (Byte.to_N c2) then
                    match r2 with
                    | [] => Cut
                    | c3 :: _ =>
                        if is_continuation (Byte.to_N c3)
                        then Char (cp4 b0 (Byte.to_N c1) (Byte.to_N c2)
                                     (Byte.to_N c3)) 4
                        else Bad 3
                    end
                  else Bad 2
              end
            else Bad 1
        end
      else Bad 1
  end.

Definition byte_of_N (n : N) : byte :=
  match Byte.of_N n with
  | Some b => b
  | None => x00
  end.

Definition is_surrogate (cp : N) : bool := ((0xD800 <=? cp) && (cp <=? 0xDFFF))%N.

(** The bytes of one code point; a lone surrogate has no encoding. *)
Definition encode_cp (cp : N) : option bytes :=
  if (cp <? 0x80)%N then Some [byte_of_N cp]
  else if (cp <? 0x800)%N then
    Some [byte_of_N (0xC0 + cp / 64); byte_of_N (0x80 + cp mod 64)]
  else if (cp <? 0x10000)%N then
    if is_surrogate cp then None
    else Some [byte_of_N (0xE0 + cp / 4096);
               byte_of_N (0x80 + (cp / 64) mod 64);
               byte_of_N (0x80 + cp mod 64)]
  else if (cp <? 0x110000)%N then
    Some [byte_of_N (0xF0 + cp / 262144);
          byte_of_N (0x80 + (cp / 4096) mod 64);
          byte_of_N (0x80 + (cp / 64) mod 64);
          byte_of_N (0x80 + cp mod 64)]
  else None.

(** [s.encode("utf-8")] *)
Fixpoint encode (s : str) : UnicodeError + bytes :=
  match s with
  | [] => inr []
  | cp :: s' =>
      match encode_cp cp, encode s' with
      | Some bs, inr out => inr (bs ++ out)
      | _, _ => inl UnicodeEncodeError
      end
  end.

End Utf8.

(** ** Exceptions and results *)

Inductive exn :=
| HTTPException (status_code : Z) (detail : str)
| UnicodeError (e : Utf8.UnicodeError)
| RuntimeError (msg : str)
| ForeignError (msg : str).
    (* an exception raised inside a library: PyMuPDF, python-docx, boto3,
       or a built-in such as int() *)

(** A call into a library: its value, or the message of the exception it
    raised. *)
Definition foreign {A} (r : str + A) : exn + A :=
  match r with
  | inl msg => inl (ForeignError msg)
  | inr a => inr a
  end.

(** A call into a codec: its value, or the error of the codec. *)
Definition codec {A} (r : Utf8.UnicodeError + A) : exn + A :=
  match r with
  | inl e => inl (UnicodeError e)
  | inr a => inr a
  end.

(** What awaiting a coroutine yields: a value, an exception, or nothing at
    all when the coroutine never completes. *)
Inductive outcome (A : Type) :=
| Returned (a : A)
| Raised (e : exn)
| Pending.
Arguments Returned {A} a.
Arguments Raised {A} e.
Arguments Pending {A}.

Definition status_of {A} (o : outcome A) : option Z :=
  match o with
  | Raised (HTTPException c _) => Some c
  | _ => None
  end.

(** ** [parsers.py] *)
Module Parsers.

(** The two optional imports at the head of the module: [None] when the
    import failed, otherwise what the library extracts from a document (the
    text of each page for PyMuPDF, the text of each paragraph for
    python-docx) or an exception of its own. *)
Record Libs := {
  fitz : option (bytes -> str + list str);
  docx : option (bytes -> str + list str)
}.

Definition pdf : str := Py.lit ".pdf".
Definition docx_ext : str := Py.lit ".docx".

(** The last two lines of [extract_text_from_bytes]: strict decoding, and
    on [UnicodeDecodeError] decoding again with [errors="ignore"]. *)
Definition decode_text (data : bytes) : exn + str :=
  match Utf8.decode Utf8.Strict data with
  | inr s => inr s
  | inl _ =>
      match Utf8.decode Utf8.Ignore data with
      | inr s => inr s
      | inl e => inl (UnicodeError e)
      end
  end.

Definition extract_text_from_bytes (libs : Libs) (data : bytes) (filename_hint : str)
  : exn + (str * str) :=
  let ext := ext_from_name filename_hint in
  match (if Py.str_eqb ext pdf then fitz libs else None) with
  | Some open_pdf =>
      match foreign (open_pdf data) with
      | inl e => inl e
      | inr text_chunks =>
          inr (Py.join [Py.newline; Py.newline] text_chunks, ext)
      end
  | None =>
      match (if Py.str_eqb ext docx_ext then docx libs else None) with
      | Some open_docx =>
          match foreign (open_docx data) with
          | inl e => inl e
          | inr paragraphs =>
              inr (Py.join [Py.newline]
                     (List.filter (fun p => Py.truthy (Some p)) paragraphs), ext)
          end
      | None =>
          match decode_text data with
          | inl e => inl e
          | inr s => inr (s, ext)
          end
      end
  end.

Definition choose_output_ext_and_mime (preserve_format : str) : str * str :=
  if Py.str_eqb preserve_format (Py.lit "markdown")
  then (Py.lit ".md", Py.lit "text/markdown")
  else (Py.lit ".txt", Py.lit "text/plain").

End Parsers.

(** ** [translator.py] *)
Module Translator.

(** [text[a:b]]: a negative index counts from the end, and both indices
    are clipped to the length. *)
Definition slice_index (n x : Z) : Z :=
  if (x <? 0)%Z then Z.max 0 (x + n) else Z.min x n.

Definition slice {A} (s : list A) (a b : Z) : list A :=
  let lo := slice_index (Py.len s) a in
  let hi := slice_index (Py.len s) b in
  take (Z.to_nat (hi - lo)) (drop (Z.to_nat lo) s).

(** [int(n * 0.05)]. The product is a double and [int] truncates it toward
    zero; the double nearest to 0.05 is [0.05 * (1 + 2^-54)], so for
    [|n| < 2^50] the rounded product lies on the same side of every integer
    as [n / 20] and the truncation is the integer quotient. *)
Definition overlap_of (n : Z) : Z := Z.quot n 20.

(** The [while] loop of [_chunks]; [None] when the fuel is spent before
    the loop condition fails. *)
Fixpoint chunks_loop {A} (fuel : nat) (n overlap : Z) (text : list A)
    (i : Z) (chunks : list (list A)) : option (list (list A)) :=
  match fuel with
  | O => None
  | S fuel' =>
      if (i <? Py.len text)%Z
      then chunks_loop fuel' n overlap text (i + (n - overlap))%Z
             (chunks ++ [slice text i (i + n)])
      else Some chunks
  end.

(** [BedrockSeaLionTranslator._chunks], [n] being [self.chunk_chars]. The
    loop is given one more round than the text has characters; it takes
    more only when the offset does not advance, that is when it runs for
    ever, and the result is then [None]. *)
Definition _chunks {A} (n : Z) (text : list A) : option (list (list A)) :=
  if (Py.len text <=? n)%Z then Some [text]
  else chunks_loop (S (length text)) n (overlap_of n) text 0%Z [].

(** The distance between the start offsets of consecutive windows, and
    the [k]-th window [text[i:i + n]], [i] being [k] strides. *)
Definition stride (n : Z) : Z := (n - overlap_of n)%Z.

Definition window {A} (n : Z) (text : list A) (k : nat) : list A :=
  slice text (Z.of_nat k * stride n) (Z.of_nat k * stride n + n).

(** [asyncio.gather] over the tasks. Each task ends with a value or an exception;
    [order] lists the tasks in the order in which they complete. A value is
    stored in the slot of its task, the first exception to occur is
    propagated, and once every slot is filled the values are returned in
    the order of the slots. While a slot is empty the gathering is
    pending. *)
Fixpoint gather_run {T} (tasks : list (exn + T)) (order : list nat)
    (slots : list (option T)) : exn + list (option T) :=
  match order with
  | [] => inr slots
  | i :: order' =>
      match tasks !! i with
      | Some (inl e) => inl e
      | Some (inr v) => gather_run tasks order' (<[i := Some v]> slots)
      | None => gather_run tasks order' slots
      end
  end.

Fixpoint collect {T} (slots : list (option T)) : option (list T) :=
  match slots with
  | [] => Some []
  | Some v :: slots' =>
      match collect slots' with
      | Some vs => Some (v :: vs)
      | None => None
      end
  | None :: _ => None
  end.

Definition gather {T} (tasks : list (exn + T)) (order : list nat)
  : outcome (list T) :=
  match gather_run tasks order (replicate (length tasks) None) with
  | inl e => Raised e
  | inr slots =>
      match collect slots with
      | Some vs => Returned vs
      | None => Pending
      end
  end.

(** [enumerate(xs, start)] *)
Fixpoint enumerate {T} (start : Z) (xs : list T) : list (Z * T) :=
  match xs with
  | [] => []
  | x :: xs' => (start, x) :: enumerate (start + 1)%Z xs'
  end.

(** The reply of the model as [_invoke] reads it, [payload] being the
    JSON object in the body of the reply: [completion] is the value under
    the key [completion] when the object has that key, and [printed] is
    [str(payload)], the whole object as Python prints it. *)
Record Payload := {
  completion : option str;
  printed : str
}.

(** The state of a [BedrockSeaLionTranslator]. [invoke_model] stands for
    [self.client.invoke_model] followed by [json.loads] of the body of the
    reply: from the prompt to the payload when the body is a JSON object
    whose completion, if any, is a text, or else the exception raised on
    the way, by the client, by [json.loads], or by what follows on a
    payload of another kind. *)
Record Bedrock := {
  region : str;
  model_id : str;
  invoke_model : str -> str + Payload;
  chunk_chars : Z
}.

(** [payload.get("completion", str(payload))] *)
Definition completion_or_printed (payload : Payload) : str :=
  match completion payload with
  | Some text => text
  | None => printed payload
  end.

Definition _invoke (self : Bedrock) (prompt : str) : exn + str :=
  match foreign (invoke_model self prompt) with
  | inl e => inl e
  | inr payload => inr (completion_or_printed payload)
  end.

(** [_ainvoke] runs [_invoke] in the executor of the event loop. *)
Definition _ainvoke (self : Bedrock) (prompt : str) : exn + str :=
  _invoke self prompt.

Definition system_base : str :=
  Py.lit "You are a professional translator specializing in Southeast Asian languages. "
  ++ Py.lit "Translate the following document into the requested target language. "
  ++ Py.lit "CRITICAL: Preserve ALL formatting, structure, and special characters. "
  ++ Py.lit "Maintain names, dates, times, and monetary amounts exactly as they appear. "
  ++ Py.lit "If the input is Markdown, keep all Markdown formatting intact. "
  ++ Py.lit "Do not add any explanations or commentary - only provide the translation.".

Definition system_of (source_lang : option str) : str :=
  match source_lang with
  | Some (c :: l) =>
      system_base ++ Py.lit " The source language is " ++ (c :: l) ++ Py.lit "."
  | _ => system_base
  end.

Definition prompt_of (system target_lang preserve_format : str)
    (idx : Z) (chunk : str) : str :=
  Py.lit "System: " ++ system ++ [Py.newline; Py.newline]
  ++ Py.lit "Target language: " ++ target_lang ++ [Py.newline]
  ++ Py.lit "Return format: "
  ++ (if Py.str_eqb preserve_format (Py.lit "markdown")
      then Py.lit "Markdown" else Py.lit "Plain text")
  ++ [Py.newline; Py.newline]
  ++ Py.lit "Text chunk " ++ Py.str_of_Z idx ++ Py.lit " to translate:"
  ++ [Py.newline] ++ chunk ++ [Py.newline; Py.newline]
  ++ Py.lit "Translation:".

(** The coroutines handed to [asyncio.gather], one per chunk. *)
Definition tasks_of (self : Bedrock) (chunks : list str)
    (target_lang : str) (source_lang : option str) (preserve_format : str)
  : list (exn + str) :=
  map (fun '(idx, chunk) =>
         _ainvoke self
           (prompt_of (system_of source_lang) target_lang preserve_format idx chunk))
      (enumerate 1 chunks).

(** [BedrockSeaLionTranslator.translate]; [order] is the order in which
    the model invocations complete. *)
Definition bedrock_translate (self : Bedrock) (order : list nat)
    (text target_lang : str) (source_lang : option str) (preserve_format : str)
  : outcome str :=
  match _chunks (chunk_chars self) text with
  | None => Pending
  | Some chunks =>
      match gather (tasks_of self chunks target_lang source_lang preserve_format)
                   order with
      | Returned translated_chunks =>
          Returned (Py.join [Py.newline] translated_chunks)
      | Raised e => Raised e
      | Pending => Pending
      end
  end.

(** [PassThroughTranslator.translate] *)
Definition passthrough_translate
    (text target_lang : str) (source_lang : option str) (preserve_format : str)
  : outcome str :=
  Returned text.

(** The subclasses of [TranslatorBase]. *)
Inductive TranslatorBase :=
| PassThroughTranslator
| BedrockSeaLionTranslator (self : Bedrock).

(** Dynamic dispatch of [translator.translate(...)]. *)
Definition translate (t : TranslatorBase) (order : list nat)
    (text target_lang : str) (source_lang : option str) (preserve_format : str)
  : outcome str :=
  match t with
  | PassThroughTranslator =>
      passthrough_translate text target_lang source_lang preserve_format
  | BedrockSeaLionTranslator self =>
      bedrock_translate self order text target_lang source_lang preserve_format
  end.

(** What [get_translator] reads from the process: the environment
    variables, whether [boto3] was imported, and what [boto3.client]
    answers for a region. [CHUNK_CHARS] is [None] when [int()] rejects the
    text of the variable. *)
Record Env := {
  USE_BEDROCK : str;
  boto3 : option (str -> str + (str -> str + Payload));
  AWS_REGION : str;
  BEDROCK_MODEL_ID : str;
  CHUNK_CHARS : option Z
}.

(** [BedrockSeaLionTranslator.__init__] *)
Definition bedrock_init (env : Env) : exn + Bedrock :=
  match boto3 env with
  | None => inl (RuntimeError (Py.lit "boto3 is required for Bedrock translator"))
  | Some make_client =>
      match AWS_REGION env with
      | [] => inl (RuntimeError (Py.lit "AWS_REGION is required for Bedrock translator"))
      | _ :: _ =>
          match foreign (make_client (AWS_REGION env)), CHUNK_CHARS env with
          | inl e, _ => inl e
          | inr client, None => inl (ForeignError (Py.lit "int"))
          | inr client, Some n =>
              inr {| region := AWS_REGION env;
                     model_id := BEDROCK_MODEL_ID env;
                     invoke_model := client;
                     chunk_chars := n |}
          end
      end
  end.

Definition get_translator (env : Env) : TranslatorBase :=
  if Py.str_in (Py.lower (USE_BEDROCK env))
       [Py.lit "1"; Py.lit "true"; Py.lit "yes"]
  then match bedrock_init env with
       | inr t => BedrockSeaLionTranslator t
       | inl _ => PassThroughTranslator
       end
  else PassThroughTranslator.

End Translator.

(** ** [main.py] *)
Module Main.

(** *** Effects

    The handler talks to the network, to the uploaded file and to the event
    loop. A computation yields the events it caused, in order, and its
    outcome. *)
#[warnings="-register-all"]
Inductive event :=
| Head (url : str)                               (* sess.head(url) *)
| Get (url : str)                                (* sess.get(url) *)
| ReadChunk (chunk : bytes)                      (* one round of iter_chunked *)
| ReadBody (body : bytes)                        (* resp.text(): the whole body *)
| Put (url : str) (data : bytes) (content_type : str)  (* sess.put(...) *)
| ReadUpload                                     (* file.read() *)
| CreateTask (task : list event * outcome (bytes * str * str)).
    (* asyncio.create_task(do_work()): the events and the outcome of the
       task, which runs after the response has been sent *)

Definition M (A : Type) : Type := list event * outcome A.

Definition ret {A} (a : A) : M A := ([], Returned a).

Definition bind {A B} (m : M A) (k : A -> M B) : M B :=
  match m with
  | (t, Returned a) => let '(t', r) := k a in (t ++ t', r)
  | (t, Raised e) => (t, Raised e)
  | (t, Pending) => (t, Pending)
  end.

Definition raise {A} (e : exn) : M A := ([], Raised e).
Definition perform (ev : event) : M unit := ([ev], Returned tt).
Definition await {A} (o : outcome A) : M A := ([], o).
Definition of_sum {A} (r : exn + A) : M A :=
  match r with
  | inl e => raise e
  | inr a => ret a
  end.

Notation "x <- m ;; k" := (bind m (fun x => k))
  (at level 100, m at next level, right associativity).
Notation "m ;;; k" := (bind m (fun _ => k))
  (at level 100, right associativity).

Definition trace {A} (m : M A) : list event := fst m.
Definition result {A} (m : M A) : outcome A := snd m.

(** What the handler can raise once [validate] has passed: over HTTP a
    400 or a 413, and never the message of the missing source. *)
Definition later (e : exn) : Prop :=
  match e with
  | HTTPException c d =>
      (c = 400 \/ c = 413)%Z
      /\ d <> Py.lit "Provide file_url or multipart file"
  | _ => True
  end.

(** Kinds of events. *)
Definition is_read_chunk (ev : event) : Prop := exists c, ev = ReadChunk c.
Definition is_read_body (ev : event) : Prop := exists b, ev = ReadBody b.
Definition is_put (ev : event) : Prop := exists u d c, ev = Put u d c.
Definition is_task (ev : event) : Prop := exists t, ev = CreateTask t.

(** The URLs that an event hands to the HTTP client; for a created task,
    those that the task goes on to hand to it. Where the client is
    redirected from there ([aiohttp] follows redirects on GET and PUT) is
    not part of an event. *)
Fixpoint requested (ev : event) : list str :=
  match ev with
  | Head url | Get url | Put url _ _ => [url]
  | ReadChunk _ | ReadBody _ | ReadUpload => []
  | CreateTask (events, _) => flat_map requested events
  end.

(** *** Configuration and surroundings *)

Definition ALLOWED_EXTS : list str :=
  [Py.lit ".pdf"; Py.lit ".txt"; Py.lit ".md"; Py.lit ".rtf";
   Py.lit ".html"; Py.lit ".htm"; Py.lit ".docx"].

(** The module-level constants read from the environment. *)
Record Config := {
  API_KEY : str;
  MAX_BYTES : Z;
  ALLOWED_URL_HOSTS : list str
}.

Definition default_config : Config := {|
  API_KEY := Py.lit "devkey";
  MAX_BYTES := 50 * 1024 * 1024;
  ALLOWED_URL_HOSTS :=
    [Py.lit "s3.amazonaws.com"; Py.lit "*.s3.amazonaws.com";
     Py.lit "s3.*.amazonaws.com"; Py.lit "*.s3.*.amazonaws.com"]
|}.

(** The [Content-Length] header as [head_info] sees it through
    [int(size) if size else None]: absent or empty, an integer, or a text
    that [int] rejects. *)
Inductive content_length :=
| NoLength
| Length (z : Z)
| BadLength.

Record HeadResponse := {
  head_status : Z;
  head_content_length : content_length;
  head_etag : option str;
  head_content_type : option str
}.

(** The answer to a GET, after the redirects that the client has
    followed: the status, the body in the chunks in which [iter_chunked]
    yields it, and what [resp.text()] makes of the whole body under the
    charset of the answer, a text or the error of the decoding. *)
Record GetResponse := {
  get_status : Z;
  get_chunks : list bytes;
  get_text : Utf8.UnicodeError + str
}.

(** The answer to a PUT, likewise: the status, the body, and the body as
    [resp.text()] decodes it. *)
Record PutResponse := {
  put_status : Z;
  put_body : bytes;
  put_text : Utf8.UnicodeError + str
}.

(** Everything outside the process: the servers behind the URLs, each
    exchange being taken up to its final answer, the library functions the
    handler calls ([urllib.parse.urlparse], [fnmatch.fnmatch],
    [hashlib.sha256]), the clock, and the order in which concurrent model
    invocations complete. *)
Record World := {
  head : str -> HeadResponse;
  get : str -> GetResponse;
  put : str -> bytes -> str -> PutResponse;
  url_hostname : str -> option str;
  url_path : str -> str;
  fnmatch : str -> str -> bool;
  sha256_hexdigest : bytes -> str;
  time_ms : Z;
  completion_order : list nat
}.

Record UploadFile := {
  filename : option str;
  content : bytes
}.

(** The header and the form fields of a request as the client sends
    them. A field that the request leaves out is [None]. [target_lang] is
    declared [Form(...)]: FastAPI calls the handler only when the field is
    there and not empty, and answers by itself otherwise. *)
Record Request := {
  authorization : option str;
  file_url : option str;
  output_url : option str;
  file : option UploadFile;
  target_lang : str;
  source_lang : option str;
  preserve_format : option str;
  return_mode : option str;
  integrity_sha256 : option str
}.

Inductive Response :=
| JSONResponse (content : list (str * str))
| StreamingResponse (body : bytes) (media_type : str) (headers : list (str * str)).

Section Handler.

Variable cfg : Config.
Variable w : World.
Variable libs : Parsers.Libs.
Variable env : Translator.Env.

Definition ensure_auth (auth_header : option str) : M unit :=
  match auth_header with
  | Some h =>
      if Py.truthy (Some h) && Py.startswith h (Py.lit "Bearer ")
      then
        match Py.split1 h Py.space !! 1%nat with
        | Some token =>
            if Py.str_eqb token (API_KEY cfg) then ret tt
            else raise (HTTPException 403 (Py.lit "Invalid token"))
        | None => raise (ForeignError (Py.lit "IndexError"))
        end
      else raise (HTTPException 401 (Py.lit "Missing bearer token"))
  | None => raise (HTTPException 401 (Py.lit "Missing bearer token"))
  end.

Definition host_allowed (url : str) : bool :=
  let host := default [] (url_hostname w url) in
  existsb (fun pat => fnmatch w host pat) (ALLOWED_URL_HOSTS cfg).

Definition head_info (url : str) : M (option Z * option str * option str) :=
  perform (Head url) ;;;
  let resp := head w url in
  if (head_status resp >=? 400)%Z then ret (None, None, None)
  else
    match head_content_length resp with
    | NoLength => ret (None, head_etag resp, head_content_type resp)
    | Length z => ret (Some z, head_etag resp, head_content_type resp)
    | BadLength => raise (ForeignError (Py.lit "int"))
    end.

(** The [async for] loop of [fetch_bytes]. *)
Fixpoint read_chunks (max_bytes read : Z) (chunks : list bytes)
    (stream : list bytes) : M (list bytes) :=
  match stream with
  | [] => ret chunks
  | chunk :: stream' =>
      perform (ReadChunk chunk) ;;;
      let read := (read + Py.len chunk)%Z in
      if (read >? max_bytes)%Z
      then raise (HTTPException 413 (Py.lit "File too large"))
      else read_chunks max_bytes read (chunks ++ [chunk]) stream'
  end.

Definition fetch_bytes (url : str) (max_bytes : Z) : M bytes :=
  if negb (host_allowed url)
  then raise (HTTPException 400 (Py.lit "URL host not allowed"))
  else
    perform (Get url) ;;;
    let resp := get w url in
    if negb (get_status resp =? 200)%Z
    then
      perform (ReadBody (concat (get_chunks resp))) ;;;
      text <- of_sum (codec (get_text resp)) ;;
      raise (HTTPException 400
               (Py.lit "Failed to fetch file: " ++ Py.str_of_Z (get_status resp)
                ++ Py.lit " " ++ text))
    else
      chunks <- read_chunks max_bytes 0 [] (get_chunks resp) ;;
      ret (concat chunks).

Definition put_bytes (url : str) (data : bytes) (content_type : str) : M unit :=
  if negb (host_allowed url)
  then raise (HTTPException 400 (Py.lit "Output URL host not allowed"))
  else
    perform (Put url data content_type) ;;;
    let resp := put w url data content_type in
    if (put_status resp =? 200)%Z || (put_status resp =? 201)%Z
       || (put_status resp =? 204)%Z
    then ret tt
    else
      perform (ReadBody (put_body resp)) ;;;
      text <- of_sum (codec (put_text resp)) ;;
      raise (HTTPException 400
               (Py.lit "Failed to upload to output_url: "
                ++ Py.str_of_Z (put_status resp) ++ Py.lit " " ++ text)).

(** The conditional expression that names the document. *)
Definition resolve_filename (file : option UploadFile) (file_url : option str) : str :=
  match file with
  | Some f =>
      if Py.truthy (filename f) then default [] (filename f)
      else if Py.truthy file_url
           then List.last (Py.split (url_path w (default [] file_url)) Py.slash) []
           else Py.lit "file"
  | None =>
      if Py.truthy file_url
      then List.last (Py.split (url_path w (default [] file_url)) Py.slash) []
      else Py.lit "file"
  end.

(** The block [if file_url:] of [translate_file]: the host check and the
    probe of the declared size. *)
Definition check_url (req : Request) : M unit :=
  if Py.truthy (file_url req)
  then
    let url := default [] (file_url req) in
    if negb (host_allowed url)
    then raise (HTTPException 400 (Py.lit "URL host not allowed"))
    else
      info <- head_info url ;;
      let size := fst (fst info) in
      if Py.truthy_int size && (default 0 size >? MAX_BYTES cfg)%Z
      then raise (HTTPException 413 (Py.lit "File too large"))
      else ret tt
  else ret tt.

(** The block [if file: ... else: ...]: the bytes of the document. *)
Definition read_source (req : Request) : M bytes :=
  match file req with
  | Some f =>
      perform ReadUpload ;;;
      let raw := content f in
      if (Py.len raw >? MAX_BYTES cfg)%Z
      then raise (HTTPException 413 (Py.lit "File too large"))
      else ret raw
  | None => fetch_bytes (default [] (file_url req)) (MAX_BYTES cfg)
  end.

(** The head of [translate_file]: the bearer token, the presence of a
    source, the name of the document and its extension. No I/O happens
    here. *)
Definition validate (req : Request) : M str :=
  ensure_auth (authorization req) ;;;
  if negb (Py.truthy (file_url req)) && negb (Py.not_none (file req))
  then raise (HTTPException 400 (Py.lit "Provide file_url or multipart file"))
  else
    let filename := resolve_filename (file req) (file_url req) in
    let ext := ext_from_name filename in
    if Py.truthy (Some ext) && negb (Py.str_in ext ALLOWED_EXTS)
    then raise (HTTPException 415 (Py.lit "Unsupported file type: " ++ ext))
    else ret filename.

(** [translate_file] up to the integrity check: the name and the bytes of
    the document to translate. *)
Definition sourced (req : Request) : M (str * bytes) :=
  filename <- validate req ;;
  check_url req ;;;
  raw <- read_source req ;;
  if Py.truthy (integrity_sha256 req)
     && negb (Py.str_eqb (sha256_hexdigest w raw)
                (Py.lower (default [] (integrity_sha256 req))))
  then raise (HTTPException 400 (Py.lit "Integrity hash mismatch"))
  else ret (filename, raw).

(** A form field declared [Form(dflt)] as the handler receives it: FastAPI
    hands over the default when the request leaves the field out, and also
    when it sends the field empty. *)
Definition field (o : option str) (dflt : string) : str :=
  match o with
  | Some (c :: s) => c :: s
  | _ => Py.lit dflt
  end.

(** The nested coroutine [do_work]. *)
Definition do_work (req : Request) (translator : Translator.TranslatorBase)
    (filename : str) (raw : bytes) : M (bytes * str * str) :=
  let preserve_format := field (preserve_format req) "markdown" in
  extracted <- of_sum (Parsers.extract_text_from_bytes libs raw filename) ;;
  let text := fst extracted in
  let '(out_ext, out_mime) := Parsers.choose_output_ext_and_mime preserve_format in
  translated_text <-
    await (Translator.translate translator (completion_order w)
             text (target_lang req) (source_lang req) preserve_format) ;;
  let out_name := filename ++ Py.lit ".translated" ++ out_ext in
  out_bytes <- of_sum (match Utf8.encode translated_text with
                       | inl e => inl (UnicodeError e)
                       | inr b => inr b
                       end) ;;
  (if Py.truthy (output_url req)
   then put_bytes (default [] (output_url req)) out_bytes out_mime
   else ret tt) ;;;
  ret (out_bytes, out_mime, out_name).

Definition quote : N := 34.

(** [s.encode("latin-1")] succeeds on the code points up to 255. *)
Definition latin1 (s : str) : bool := forallb (fun c => (c <=? 255)%N) s.

(** [StreamingResponse(io.BytesIO(body), media_type=..., headers=...)]:
    Starlette encodes the media type and the headers as latin-1 when the
    response is built, and the constructor raises [UnicodeEncodeError] on a
    character beyond. *)
Definition streaming_response (body : bytes) (media_type : str)
    (headers : list (str * str)) : M Response :=
  if latin1 media_type
     && forallb (fun '(key, value) => latin1 key && latin1 value) headers
  then ret (StreamingResponse body media_type headers)
  else raise (UnicodeError Utf8.UnicodeEncodeError).

(** The rest of [translate_file], from [get_translator] on. *)
Definition respond (req : Request) (filename : str) (raw : bytes) : M Response :=
  let translator := Translator.get_translator env in
  if Py.str_eqb (field (return_mode req) "async") (Py.lit "async")
  then
    let job_id := Py.str_of_Z (time_ms w) in
    perform (CreateTask (do_work req translator filename raw)) ;;;
    ret (JSONResponse [(Py.lit "job_id", job_id); (Py.lit "status", Py.lit "queued")])
  else
    work <- do_work req translator filename raw ;;
    let '(out_bytes, out_mime, out_name) := work in
    if Py.truthy (output_url req)
    then ret (JSONResponse [(Py.lit "status", Py.lit "succeeded");
                            (Py.lit "output_url", default [] (output_url req));
                            (Py.lit "filename", out_name);
                            (Py.lit "mime", out_mime)])
    else streaming_response out_bytes out_mime
           [(Py.lit "Content-Disposition",
             Py.lit "attachment; filename=" ++ [quote] ++ out_name ++ [quote])].

Definition translate_file (req : Request) : M Response :=
  source <- sourced req ;;
  respond req (fst source) (snd source).

End Handler.

End Main.

(** ** Sample surroundings and requests *)
Module Samples.
Import Main.

Definition no_libs : Parsers.Libs :=
  {| Parsers.fitz := None; Parsers.docx := None |}.

(** A process started without any of the optional settings: the
    pass-through backend is selected. *)
Definition dev_env : Translator.Env := {|
  Translator.USE_BEDROCK := Py.lit "false";
  Translator.boto3 := None;
  Translator.AWS_REGION := Py.lit "ap-southeast-1";
  Translator.BEDROCK_MODEL_ID := Py.lit "anthropic.claude-v2";
  Translator.CHUNK_CHARS := Some 12000%Z
|}.

(** A network on which every request fails and no host is allowed. *)
Definition quiet_world : World := {|
  head := fun _ => {| head_status := 404; head_content_length := NoLength;
                      head_etag := None; head_content_type := None |};
  get := fun _ => {| get_status := 404; get_chunks := [];
                     get_text := inr [] |};
  put := fun _ _ _ => {| put_status := 500; put_body := [];
                         put_text := inr [] |};
  url_hostname := fun _ => None;
  url_path := fun u => u;
  fnmatch := fun _ _ => false;
  sha256_hexdigest := fun _ => [];
  time_ms := 0;
  completion_order := []
|}.

(** The upload of the end-to-end scenario, with the [preserve_format]
    field as given. *)
Definition hello_request (preserve_format : option str) : Request := {|
  authorization := Some (Py.lit "Bearer devkey");
  file_url := None;
  output_url := None;
  file := Some {| filename := Some (Py.lit "hello.txt");
                  content := Py.blit "Hello world" |};
  target_lang := Py.lit "vi";
  source_lang := None;
  preserve_format := preserve_format;
  return_mode := Some (Py.lit "sync");
  integrity_sha256 := None
|}.

(** A network with one bucket: its host matches the one pattern
    [*.s3.amazonaws.com], a probe answers 200 with the given
    [Content-Length], a GET answers 200 with the given chunks, a body in
    UTF-8, and a PUT answers 200. The path of a URL is what follows its
    host. *)
Definition bucket_world (declared : content_length) (body : list bytes) : World := {|
  head := fun _ => {| head_status := 200; head_content_length := declared;
                      head_etag := None; head_content_type := None |};
  get := fun _ => {| get_status := 200; get_chunks := body;
                     get_text := Utf8.decode Utf8.Strict (concat body) |};
  put := fun _ _ _ => {| put_status := 200; put_body := [];
                         put_text := inr [] |};
  url_hostname := fun u => Py.split u Py.slash !! 2;
  url_path := fun u => Py.slash :: Py.join [Py.slash] (drop 3 (Py.split u Py.slash));
  fnmatch := fun host pat =>
    Py.str_eqb pat (Py.lit "*.s3.amazonaws.com")
    && Py.str_eqb host (Py.lit "bucket.s3.amazonaws.com");
  sha256_hexdigest := fun _ => [];
  time_ms := 1700000000000;
  completion_order := []
|}.

Definition doc_url : str := Py.lit "https://bucket.s3.amazonaws.com/in/doc.txt".

(** A request that names the remote document and uploads nothing. *)
Definition url_request : Request := {|
  authorization := Some (Py.lit "Bearer devkey");
  file_url := Some doc_url;
  output_url := None;
  file := None;
  target_lang := Py.lit "vi";
  source_lang := None;
  preserve_format := None;
  return_mode := Some (Py.lit "sync");
  integrity_sha256 := None
|}.

(** A request that supplies both the upload of the scenario and the URL of
    the remote document. *)
Definition both_request : Request := {|
  authorization := Some (Py.lit "Bearer devkey");
  file_url := Some doc_url;
  output_url := None;
  file := Some {| filename := Some (Py.lit "hello.txt");
                  content := Py.blit "Hello world" |};
  target_lang := Py.lit "vi";
  source_lang := None;
  preserve_format := None;
  return_mode := Some (Py.lit "sync");
  integrity_sha256 := None
|}.

(** The same with a file part that carries no name and no content, as a
    form sends it when its file input is left empty. *)
Definition unnamed_upload_request : Request := {|
  authorization := Some (Py.lit "Bearer devkey");
  file_url := Some doc_url;
  output_url := None;
  file := Some {| filename := Some []; content := [] |};
  target_lang := Py.lit "vi";
  source_lang := None;
  preserve_format := None;
  return_mode := Some (Py.lit "sync");
  integrity_sha256 := None
|}.

(** A request that uploads a document whose name has no extension. *)
Definition readme_request : Request := {|
  authorization := Some (Py.lit "Bearer devkey");
  file_url := None;
  output_url := None;
  file := Some {| filename := Some (Py.lit "README");
                  content := Py.blit "Hello world" |};
  target_lang := Py.lit "vi";
  source_lang := None;
  preserve_format := None;
  return_mode := Some (Py.lit "sync");
  integrity_sha256 := None
|}.

(** A request without any source. *)
Definition empty_request : Request := {|
  authorization := Some (Py.lit "Bearer devkey");
  file_url := None;
  output_url := None;
  file := None;
  target_lang := Py.lit "vi";
  source_lang := None;
  preserve_format := None;
  return_mode := Some (Py.lit "sync");
  integrity_sha256 := None
|}.

(** A request that uploads a program. *)
Definition exe_request : Request := {|
  authorization := Some (Py.lit "Bearer devkey");
  file_url := None;
  output_url := None;
  file := Some {| filename := Some (Py.lit "setup.exe");
                  content := Py.blit "MZ" |};
  target_lang := Py.lit "vi";
  source_lang := None;
  preserve_format := None;
  return_mode := Some (Py.lit "sync");
  integrity_sha256 := None
|}.

Definition three_chunks : list bytes :=
  [Py.blit "abc"; Py.blit "def"; Py.blit "ghi"].

(** The bucket when the probe declares sixty million bytes, and when it
    declares eleven. *)
Definition large_world : World := bucket_world (Length 60000000) three_chunks.
Definition small_world : World := bucket_world (Length 11) three_chunks.

(** The bucket when the probe is refused: it answers 403 and yet declares
    sixty million bytes. *)
Definition denied_probe_world : World := {|
  head := fun _ => {| head_status := 403;
                      head_content_length := Length 60000000;
                      head_etag := None; head_content_type := None |};
  get := get small_world;
  put := put small_world;
  url_hostname := url_hostname small_world;
  url_path := url_path small_world;
  fnmatch := fnmatch small_world;
  sha256_hexdigest := sha256_hexdigest small_world;
  time_ms := time_ms small_world;
  completion_order := completion_order small_world
|}.

(** The bucket when it declares three bytes and sends nine, and when it
    declares none and sends none. *)
Definition lying_world : World := bucket_world (Length 3) three_chunks.
Definition empty_world : World := bucket_world (Length 0) [].

(** The bucket when it fails: the probe declares no length and a GET
    answers 500 with a body of nine bytes. *)
Definition failing_world : World := {|
  head := head (bucket_world NoLength three_chunks);
  get := fun _ => {| get_status := 500; get_chunks := three_chunks;
                     get_text := inr (Py.lit "abcdefghi") |};
  put := put small_world;
  url_hostname := url_hostname small_world;
  url_path := url_path small_world;
  fnmatch := fnmatch small_world;
  sha256_hexdigest := sha256_hexdigest small_world;
  time_ms := time_ms small_world;
  completion_order := completion_order small_world
|}.

(** The default configuration with a ceiling of four bytes, and with a
    ceiling below zero. *)
Definition tiny_config : Config := {|
  API_KEY := API_KEY default_config;
  MAX_BYTES := 4;
  ALLOWED_URL_HOSTS := ALLOWED_URL_HOSTS default_config
|}.

Definition closed_config : Config := {|
  API_KEY := API_KEY default_config;
  MAX_BYTES := -1;
  ALLOWED_URL_HOSTS := ALLOWED_URL_HOSTS default_config
|}.

Definition hello_upload : UploadFile :=
  {| filename := Some (Py.lit "hello.txt"); content := Py.blit "Hello world" |}.

Definition content_disposition (name : string) : str * str :=
  (Py.lit "Content-Disposition",
   Py.lit "attachment; filename=" ++ [quote] ++ Py.lit name ++ [quote]).

(** A backend with a budget of four characters whose model answers a
    prompt with the four characters that precede the closing marker, in
    reverse. *)
Definition mirror_bedrock : Translator.Bedrock := {|
  Translator.region := Py.lit "ap-southeast-1";
  Translator.model_id := Py.lit "anthropic.claude-v2";
  Translator.invoke_model := fun prompt =>
    let answer := take 4 (drop 14 (rev prompt)) in
    inr {| Translator.completion := Some answer;
           Translator.printed :=
             Py.lit "{'completion': '" ++ answer ++ Py.lit "'}" |};
  Translator.chunk_chars := 4
|}.

(** The same backend behind a model whose replies hold no completion, only
    a message. *)
Definition throttled_bedrock : Translator.Bedrock := {|
  Translator.region := Py.lit "ap-southeast-1";
  Translator.model_id := Py.lit "anthropic.claude-v2";
  Translator.invoke_model := fun _ =>
    inr {| Translator.completion := None;
           Translator.printed := Py.lit "{'message': 'Too many requests'}" |};
  Translator.chunk_chars := 4
|}.

(** A request without an [Authorization] header. *)
Definition anonymous_request : Request := {|
  authorization := None;
  file_url := Some doc_url;
  output_url := None;
  file := Some hello_upload;
  target_lang := Py.lit "vi";
  source_lang := None;
  preserve_format := None;
  return_mode := Some (Py.lit "sync");
  integrity_sha256 := None
|}.

(** The bucket when the document is gone: a GET answers 404. *)
Definition gone_world : World := {|
  head := head small_world;
  get := fun _ => {| get_status := 404; get_chunks := [Py.blit "Not Found"];
                     get_text := inr (Py.lit "Not Found") |};
  put := put small_world;
  url_hostname := url_hostname small_world;
  url_path := url_path small_world;
  fnmatch := fnmatch small_world;
  sha256_hexdigest := sha256_hexdigest small_world;
  time_ms := time_ms small_world;
  completion_order := completion_order small_world
|}.

(** The bucket with a digest function that answers [ab12] for every
    document, and an upload that declares that digest in upper case. *)
Definition digest_world : World := {|
  head := head small_world;
  get := get small_world;
  put := put small_world;
  url_hostname := url_hostname small_world;
  url_path := url_path small_world;
  fnmatch := fnmatch small_world;
  sha256_hexdigest := fun _ => Py.lit "ab12";
  time_ms := time_ms small_world;
  completion_order := completion_order small_world
|}.

Definition digest_request : Request := {|
  authorization := Some (Py.lit "Bearer devkey");
  file_url := None;
  output_url := None;
  file := Some hello_upload;
  target_lang := Py.lit "vi";
  source_lang := None;
  preserve_format := None;
  return_mode := Some (Py.lit "sync");
  integrity_sha256 := Some (Py.lit "AB12")
|}.

(** The upload of the scenario with the [return_mode] field left out. *)
Definition queued_request : Request := {|
  authorization := Some (Py.lit "Bearer devkey");
  file_url := None;
  output_url := None;
  file := Some hello_upload;
  target_lang := Py.lit "vi";
  source_lang := None;
  preserve_format := None;
  return_mode := None;
  integrity_sha256 := None
|}.



(** The upload of the scenario under a Vietnamese name, whose third
    letter, U+01B0, lies beyond latin-1. *)
Definition thu_name : str := Py.lit "th" ++ [0x1B0%N] ++ Py.lit ".txt".

Definition thu_request : Request := {|
  authorization := Some (Py.lit "Bearer devkey");
  file_url := None;
  output_url := None;
  file := Some {| filename := Some thu_name; content := Py.blit "Hello world" |};
  target_lang := Py.lit "vi";
  source_lang := None;
  preserve_format := None;
  return_mode := Some (Py.lit "sync");
  integrity_sha256 := None
|}.

End Samples.

(** * Properties *)

(** ** Evaluation on small inputs *)
Module Examples.

Example ext_hello : ext_from_name (Py.lit "hello.txt") = Py.lit ".txt".
Proof. reflexivity. Qed.

Example ext_upper : ext_from_name (Py.lit "Report.final.PDF") = Py.lit ".pdf".
Proof. reflexivity. Qed.

Example ext_none : ext_from_name (Py.lit "README") = [].
Proof. reflexivity. Qed.

Example ext_trailing_dot : ext_from_name (Py.lit "notes.") = Py.lit ".".
Proof. reflexivity. Qed.

Example split_path :
  Py.split (Py.lit "/bucket/dir/doc.pdf") Py.slash
  = [[]; Py.lit "bucket"; Py.lit "dir"; Py.lit "doc.pdf"].
Proof. reflexivity. Qed.

Example bearer_token :
  Py.split1 (Py.lit "Bearer dev key") Py.space = [Py.lit "Bearer"; Py.lit "dev key"].
Proof. reflexivity. Qed.

(** Two, three and four bytes: U+00E9, U+4E2D, U+1F600. *)
Example decode_multibyte :
  Utf8.decode Utf8.Strict [xc3; xa9; xe4; xb8; xad; xf0; x9f; x98; x80]
  = inr [0xE9; 0x4E2D; 0x1F600]%N.
Proof. reflexivity. Qed.

Example encode_multibyte :
  Utf8.encode [0xE9; 0x4E2D; 0x1F600]%N
  = inr [xc3; xa9; xe4; xb8; xad; xf0; x9f; x98; x80].
Proof. reflexivity. Qed.

(** An overlong form, a surrogate and a sequence cut short are rejected. *)
Example decode_overlong :
  Utf8.decode Utf8.Strict [xc0; x80] = inl Utf8.UnicodeDecodeError.
Proof. reflexivity. Qed.

Example decode_surrogate :
  Utf8.decode Utf8.Strict [xed; xa0; x80] = inl Utf8.UnicodeDecodeError.
Proof. reflexivity. Qed.

Example decode_cut_ignored : Utf8.decode Utf8.Ignore [x41; xe4; xb8] = inr [65%N].
Proof. reflexivity. Qed.

Example decode_cut_replaced :
  Utf8.decode Utf8.Replace [x41; xe4; xb8] = inr [65; 0xFFFD]%N.
Proof. reflexivity. Qed.

(** A budget of 20 gives a stride of 19. *)
Example chunks_21 :
  Translator._chunks 20 (seq 0 21) = Some [seq 0 20; seq 19 2].
Proof. reflexivity. Qed.

Example chunks_whole : Translator._chunks 20 (seq 0 20) = Some [seq 0 20].
Proof. reflexivity. Qed.

(** A budget of zero never advances. *)
Example chunks_stuck : Translator._chunks 0 (seq 0 3) = None.
Proof. reflexivity. Qed.

Example gather_out_of_order :
  Translator.gather [inr 10; inr 11; inr 12] [2; 0; 1] = Returned [10; 11; 12].
Proof. reflexivity. Qed.

Example gather_waiting :
  Translator.gather [inr 10; inr 11; inr 12] [2; 0] = Pending.
Proof. reflexivity. Qed.

End Examples.

(** ** The codec *)
Module Utf8Facts.
Import Utf8.

(** [decode] is the iteration of [step]. *)
Lemma decode_step (h : errors) (data : bytes) :
  decode h data =
  match step data with
  | Done => inr []
  | Char cp n => emit cp (decode h (drop n data))
  | Bad n => on_error h (decode h (drop n data))
  | Cut => on_error h (inr [])
  end.
Proof.
  destruct data as [|c0 rest]; [reflexivity|].
  cbn [decode step].
  repeat match goal with
         | |- context [if ?b then _ else _] => destruct b
         | |- context [match ?l with [] => _ | _ :: _ => _ end] =>
             is_var l; destruct l
         end; reflexivity.
Qed.

Lemma byte_of_to_N (b : byte) : byte_of_N (Byte.to_N b) = b.
Proof. unfold byte_of_N. now rewrite Byte.of_to_N. Qed.

Ltac byte_cases :=
  repeat match goal with
         | H : context [if ?b then _ else _] |- _ => destruct b eqn:?
         | H : context [match ?l with [] => _ | _ :: _ => _ end] |- _ =>
             is_var l; destruct l
         end.

(** A round consumes at least one byte and no more than there are. *)
Lemma step_consumes (data : bytes) :
  match step data with
  | Char _ n | Bad n => 0 < n <= length data
  | _ => True
  end.
Proof.
  destruct (step data) eqn:E; [exact I| | |exact I];
    destruct data as [|c0 rest]; cbn [step] in E; try discriminate;
    byte_cases; inversion E; subst; cbn [length]; lia.
Qed.

Ltac bounds :=
  unfold second_of_3, second_of_4, is_continuation, is_surrogate in *;
  repeat match goal with
         | H : (_ && _)%bool = true |- _ => apply andb_true_iff in H; destruct H
         | H : negb _ = true |- _ => apply negb_true_iff in H
         | H : (_ && _)%bool = false |- _ => apply andb_false_iff in H; destruct H
         | H : negb _ = false |- _ => apply negb_false_iff in H
         | H : (_ <? _)%N = true |- _ => apply N.ltb_lt in H
         | H : (_ <? _)%N = false |- _ => apply N.ltb_ge in H
         | H : (_ <=? _)%N = true |- _ => apply N.leb_le in H
         | H : (_ <=? _)%N = false |- _ => apply N.leb_gt in H
         | H : (_ =? _)%N = true |- _ => apply N.eqb_eq in H
         | H : (_ =? _)%N = false |- _ => apply N.eqb_neq in H
         end.

Lemma ltb_true (a b : N) : (a < b)%N -> (a <? b)%N = true.
Proof. apply N.ltb_lt. Qed.

Lemma ltb_false (a b : N) : (b <= a)%N -> (a <? b)%N = false.
Proof. apply N.ltb_ge. Qed.

Lemma div64 (q r : N) : (r < 64)%N -> ((q * 64 + r) / 64 = q)%N.
Proof.
  intros Hr. symmetry. apply (N.div_unique _ 64 q r); [exact Hr | lia].
Qed.

Lemma mod64 (q r : N) : (r < 64)%N -> ((q * 64 + r) mod 64 = r)%N.
Proof.
  intros Hr. symmetry. apply (N.mod_unique _ 64 q r); [exact Hr | lia].
Qed.

Lemma div4096 (a : N) : (a / 4096 = a / 64 / 64)%N.
Proof. now rewrite N.Div0.div_div. Qed.

Lemma div262144 (a : N) : (a / 262144 = a / 64 / 64 / 64)%N.
Proof. now rewrite !N.Div0.div_div. Qed.

Lemma encode_cp2 (c0 c1 : byte) :
  (0xC2 <= Byte.to_N c0 < 0xE0)%N -> is_continuation (Byte.to_N c1) = true ->
  encode_cp (cp2 (Byte.to_N c0) (Byte.to_N c1)) = Some [c0; c1].
Proof.
  intros H0 H1. bounds. unfold encode_cp, cp2.
  rewrite ltb_false, ltb_true by lia.
  rewrite div64, mod64 by lia.
  replace (0xC0 + _)%N with (Byte.to_N c0) by lia.
  replace (0x80 + _)%N with (Byte.to_N c1) by lia.
  now rewrite !byte_of_to_N.
Qed.

Lemma is_continuation_spec (b : N) :
  is_continuation b = true -> (0x80 <= b <= 0xBF)%N.
Proof. intros H. bounds. lia. Qed.

Lemma second_of_3_spec (b0 b1 : N) :
  second_of_3 b0 b1 = true ->
  (0x80 <= b1 <= 0xBF)%N /\ (b0 = 0xE0 -> 0xA0 <= b1)%N
  /\ (b0 = 0xED -> b1 < 0xA0)%N.
Proof. intros H. bounds; lia. Qed.

Lemma second_of_4_spec (b0 b1 : N) :
  second_of_4 b0 b1 = true ->
  (0x80 <= b1 <= 0xBF)%N /\ (b0 = 0xF0 -> 0x90 <= b1)%N
  /\ (b0 = 0xF4 -> b1 < 0x90)%N.
Proof. intros H. bounds; lia. Qed.

Lemma cp3_range (b0 b1 b2 : N) :
  (0xE0 <= b0 < 0xF0)%N -> second_of_3 b0 b1 = true ->
  is_continuation b2 = true ->
  (0x800 <= cp3 b0 b1 b2 < 0x10000)%N /\ is_surrogate (cp3 b0 b1 b2) = false.
Proof.
  intros H0 H1 H2.
  apply second_of_3_spec in H1. apply is_continuation_spec in H2.
  unfold is_surrogate, cp3.
  destruct (N.eq_dec b0 0xE0%N), (N.eq_dec b0 0xED%N),
    (N.lt_ge_cases b0 0xED%N); (split; [lia|]).
  all: apply andb_false_iff;
    first [left; apply N.leb_gt; lia | right; apply N.leb_gt; lia].
Qed.

Lemma cp4_range (b0 b1 b2 b3 : N) :
  (0xF0 <= b0 < 0xF5)%N -> second_of_4 b0 b1 = true ->
  is_continuation b2 = true -> is_continuation b3 = true ->
  (0x10000 <= cp4 b0 b1 b2 b3 < 0x110000)%N.
Proof.
  intros H0 H1 H2 H3.
  apply second_of_4_spec in H1.
  apply is_continuation_spec in H2. apply is_continuation_spec in H3.
  unfold cp4.
  destruct (N.eq_dec b0 0xF0%N), (N.eq_dec b0 0xF4%N); lia.
Qed.

Lemma encode_cp3 (c0 c1 c2 : byte) :
  (0xE0 <= Byte.to_N c0 < 0xF0)%N ->
  second_of_3 (Byte.to_N c0) (Byte.to_N c1) = true ->
  is_continuation (Byte.to_N c2) = true ->
  encode_cp (cp3 (Byte.to_N c0) (Byte.to_N c1) (Byte.to_N c2)) = Some [c0; c1; c2].
Proof.
  intros H0 H1 H2.
  destruct (cp3_range _ _ _ H0 H1 H2) as [Hr Hs].
  apply second_of_3_spec in H1. apply is_continuation_spec in H2.
  unfold encode_cp. rewrite Hs, !ltb_false, ltb_true by lia.
  unfold cp3. rewrite div4096, !div64, !mod64 by lia.
  replace (0xE0 + _)%N with (Byte.to_N c0) by lia.
  replace (0x80 + (Byte.to_N c1 - _))%N with (Byte.to_N c1) by lia.
  replace (0x80 + _)%N with (Byte.to_N c2) by lia.
  now rewrite !byte_of_to_N.
Qed.

Lemma encode_cp4 (c0 c1 c2 c3 : byte) :
  (0xF0 <= Byte.to_N c0 < 0xF5)%N ->
  second_of_4 (Byte.to_N c0) (Byte.to_N c1) = true ->
  is_continuation (Byte.to_N c2) = true ->
  is_continuation (Byte.to_N c3) = true ->
  encode_cp (cp4 (Byte.to_N c0) (Byte.to_N c1) (Byte.to_N c2) (Byte.to_N c3))
  = Some [c0; c1; c2; c3].
Proof.
  intros H0 H1 H2 H3.
  pose proof (cp4_range _ _ _ _ H0 H1 H2 H3) as Hr.
  apply second_of_4_spec in H1.
  apply is_continuation_spec in H2. apply is_continuation_spec in H3.
  unfold encode_cp. rewrite !ltb_false, ltb_true by lia.
  unfold cp4. rewrite div262144, div4096, !div64, !mod64 by lia.
  replace (0xF0 + _)%N with (Byte.to_N c0) by lia.
  replace (0x80 + (Byte.to_N c1 - _))%N with (Byte.to_N c1) by lia.
  replace (0x80 + (Byte.to_N c2 - _))%N with (Byte.to_N c2) by lia.
  replace (0x80 + _)%N with (Byte.to_N c3) by lia.
  now rewrite !byte_of_to_N.
Qed.

(** A code point read by the decoder encodes back to the bytes it was
    read from. *)
Lemma step_char (data : bytes) (cp : N) (n : nat) :
  step data = Char cp n -> encode_cp cp = Some (take n data).
Proof.
  intros E. destruct data as [|c0 rest]; cbn [step] in E; [discriminate|].
  byte_cases; inversion E; subst; cbn [take];
    repeat match goal with
           | H : (_ <? _)%N = true |- _ => apply N.ltb_lt in H
           | H : (_ <? _)%N = false |- _ => apply N.ltb_ge in H
           end.
  - unfold encode_cp. rewrite ltb_true by assumption.
    now rewrite byte_of_to_N.
  - apply encode_cp2; [lia | assumption].
  - apply encode_cp3; [lia | assumption | assumption].
  - apply encode_cp4; [lia | assumption | assumption | assumption].
Qed.

Lemma step_done (data : bytes) : step data = Done -> data = [].
Proof.
  destruct data as [|c0 rest]; [reflexivity|].
  cbn [step]. intros E. byte_cases; discriminate.
Qed.

(** Induction on byte strings along the rounds of the decoder. *)
Lemma round_ind (P : bytes -> Prop) :
  (forall data,
      (forall n, 0 < n <= length data -> P (drop n data)) -> P data) ->
  forall data, P data.
Proof.
  intros Hstep data.
  remember (length data) as m eqn:Hm.
  revert data Hm. induction m as [m IH] using lt_wf_ind.
  intros data ->. apply Hstep. intros n Hn.
  apply (IH (length (drop n data))); [rewrite length_drop; lia | reflexivity].
Qed.

(** With [errors="ignore"] the decoder never raises. *)
Lemma decode_ignore_total (data : bytes) :
  exists s, decode Ignore data = inr s.
Proof.
  induction data as [data IH] using round_ind.
  rewrite decode_step. pose proof (step_consumes data) as Hc.
  destruct (step data) as [|cp n|n|]; cbn [on_error]; eauto.
  destruct (IH n Hc) as [s ->]. cbn. eauto.
Qed.

(** What strict decoding accepts encodes back to the very same bytes. *)
Lemma decode_strict_encode (data : bytes) (s : str) :
  decode Strict data = inr s -> encode s = inr data.
Proof.
  revert s. induction data as [data IH] using round_ind. intros s.
  rewrite decode_step. pose proof (step_consumes data) as Hc.
  destruct (step data) as [|cp n|n|] eqn:E; cbn [on_error]; try discriminate.
  - intros [= <-]. now rewrite (step_done _ E).
  - destruct (decode Strict (drop n data)) as [e|s'] eqn:D; [discriminate|].
    intros [= <-]. cbn [encode].
    rewrite (step_char _ _ _ E), (IH n Hc s' D).
    now rewrite take_drop.
Qed.

(** With [errors="ignore"] nothing is put in the place of the bytes that
    are dropped: the text encodes back to a subsequence of the data. *)
Lemma decode_ignore_sublist (data : bytes) (s : str) :
  decode Ignore data = inr s ->
  exists kept, encode s = inr kept /\ sublist kept data.
Proof.
  revert s. induction data as [data IH] using round_ind. intros s.
  rewrite decode_step. pose proof (step_consumes data) as Hc.
  destruct (step data) as [|cp n|n|] eqn:E; cbn [on_error].
  - intros [= <-]. exists []. split; [reflexivity | apply sublist_nil_l].
  - destruct (decode Ignore (drop n data)) as [e|s'] eqn:D; [discriminate|].
    intros [= <-]. destruct (IH n Hc s' D) as (kept & Hk & Hsub).
    exists (take n data ++ kept). split.
    + cbn [encode]. now rewrite (step_char _ _ _ E), Hk.
    + rewrite <- (take_drop n data) at 2. now apply sublist_app.
  - intros D. destruct (IH n Hc s D) as (kept & Hk & Hsub).
    exists kept. split; [assumption|].
    etrans; [exact Hsub | apply sublist_drop].
  - intros [= <-]. exists []. split; [reflexivity | apply sublist_nil_l].
Qed.

(** Strict decoding and decoding with [errors="ignore"] agree wherever the
    former succeeds. *)
Lemma decode_strict_ignore (data : bytes) (s : str) :
  decode Strict data = inr s -> decode Ignore data = inr s.
Proof.
  revert s. induction data as [data IH] using round_ind. intros s.
  rewrite !(decode_step _ data). pose proof (step_consumes data) as Hc.
  destruct (step data) as [|cp n|n|] eqn:E; cbn [on_error]; try discriminate.
  - trivial.
  - destruct (decode Strict (drop n data)) as [e|s'] eqn:D; [discriminate|].
    intros [= <-]. now rewrite (IH n Hc s' D).
Qed.

End Utf8Facts.

(** ** The built-ins *)
Module PyFacts.

Lemma str_eqb_eq (a b : str) : Py.str_eqb a b = true <-> a = b.
Proof.
  revert b. induction a as [|x a IH]; intros [|y b]; cbn; try easy.
  rewrite andb_true_iff, N.eqb_eq, IH. split.
  - now intros [-> ->].
  - now intros [= -> ->].
Qed.

Lemma str_eqb_neq (a b : str) : Py.str_eqb a b = false <-> a <> b.
Proof.
  rewrite <- str_eqb_eq. destruct (Py.str_eqb a b); split; congruence.
Qed.

(** [rfind] answers [-1] or an index of the string. *)
Lemma rfind_from_range (c : N) (s : str) (i last : Z) :
  (-1 <= last < i)%Z ->
  (-1 <= Py.rfind_from c s i last < i + Py.len s)%Z.
Proof.
  unfold Py.len. revert i last. induction s as [|x s IH]; intros i last H; cbn [Py.rfind_from length].
  - lia.
  - specialize (IH (i + 1)%Z (if (x =? c)%N then i else last)).
    destruct (x =? c)%N; lia.
Qed.

(** [rfind] answers [-1] exactly on the strings that do not hold the
    needle. *)
Lemma rfind_from_none (c : N) (s : str) (i last : Z) :
  (-1 <= last < i)%Z ->
  Py.rfind_from c s i last = (-1)%Z <-> last = (-1)%Z /\ ~ In c s.
Proof.
  revert i last. induction s as [|x s IH]; intros i last H; cbn [Py.rfind_from In].
  - tauto.
  - rewrite IH by (destruct (x =? c)%N; lia).
    destruct (N.eqb_spec x c) as [->|Hne]; [|intuition congruence].
    split; [lia | tauto].
Qed.

Lemma rfind_none (s : str) (c : N) : Py.rfind s c = (-1)%Z <-> ~ In c s.
Proof.
  unfold Py.rfind. rewrite rfind_from_none by lia. tauto.
Qed.

End PyFacts.

(** [ext_from_name] is empty exactly on the names without a dot. *)
Lemma ext_from_name_empty (name : str) :
  ext_from_name name = [] <-> ~ In Py.dot name.
Proof.
  unfold ext_from_name. rewrite <- PyFacts.rfind_none.
  destruct (Z.eqb_spec (Py.rfind name Py.dot) (-1)) as [E|NE]; [tauto|].
  split; [|contradiction]. intros H. exfalso.
  pose proof (PyFacts.rfind_from_range Py.dot name 0 (-1) ltac:(lia)) as R.
  fold (Py.rfind name Py.dot) in R.
  unfold Py.lower, Py.slice_from in H. apply map_eq_nil in H.
  apply (f_equal (@length N)) in H. rewrite length_drop in H.
  unfold Py.len in R. cbn in H. lia.
Qed.

(** ** [parsers.py] *)
Module ParsersFacts.
Import Parsers.

Lemma decode_text_total (data : bytes) : exists s, decode_text data = inr s.
Proof.
  unfold decode_text. destruct (Utf8.decode Utf8.Strict data); eauto.
  destruct (Utf8Facts.decode_ignore_total data) as [s ->]. eauto.
Qed.

(** The text handed on is the strict decoding where there is one, and the
    decoding with the offending bytes dropped otherwise; either way it
    encodes back to a subsequence of the data. *)
Lemma decode_text_kept (data : bytes) (text : str) :
  decode_text data = inr text ->
  (forall s, Utf8.decode Utf8.Strict data = inr s -> text = s)
  /\ ((exists e, Utf8.decode Utf8.Strict data = inl e) ->
      Utf8.decode Utf8.Ignore data = inr text)
  /\ exists kept, Utf8.encode text = inr kept /\ sublist kept data.
Proof.
  unfold decode_text.
  destruct (Utf8.decode Utf8.Strict data) as [e|s] eqn:S.
  - destruct (Utf8.decode Utf8.Ignore data) as [e'|s] eqn:I; [discriminate|].
    intros [= <-]. split; [discriminate|]. split; [reflexivity|].
    now apply Utf8Facts.decode_ignore_sublist.
  - intros [= <-]. split; [|split].
    + now intros s' [= <-].
    + intros [e He]. discriminate.
    + exists data.
      split; [now apply Utf8Facts.decode_strict_encode | reflexivity].
Qed.

(** Outside the two guarded branches the extraction is [decode_text]. *)
Lemma extract_falls_through (libs : Libs) (data : bytes) (name : str) :
  (if Py.str_eqb (ext_from_name name) pdf then fitz libs else None) = None ->
  (if Py.str_eqb (ext_from_name name) docx_ext then docx libs else None) = None ->
  exists text,
    extract_text_from_bytes libs data name = inr (text, ext_from_name name)
    /\ decode_text data = inr text.
Proof.
  intros Hp Hd. unfold extract_text_from_bytes. cbv zeta. rewrite Hp, Hd.
  destruct (decode_text_total data) as [text ->]. eauto.
Qed.

(** Whatever the extraction raises was raised inside a parsing library. *)
Lemma extract_raised (libs : Libs) (data : bytes) (name : str) (e : exn) :
  extract_text_from_bytes libs data name = inl e -> exists msg, e = ForeignError msg.
Proof.
  unfold extract_text_from_bytes. cbv zeta.
  destruct (if Py.str_eqb _ pdf then _ else _) as [open_pdf|].
  - unfold foreign. destruct (open_pdf data); [|discriminate].
    intros [= <-]. eauto.
  - destruct (if Py.str_eqb _ docx_ext then _ else _) as [open_docx|].
    + unfold foreign. destruct (open_docx data); [|discriminate].
      intros [= <-]. eauto.
    + destruct (decode_text_total data) as [s ->]. discriminate.
Qed.

(** C2 fails at a PDF name without PyMuPDF: the bytes are decoded as
    UTF-8 text and returned, nothing is reported as unsupported. *)
Lemma extract_pdf_without_fitz_decodes :
  extract_text_from_bytes Samples.no_libs (Py.blit "%PDF-1.7") (Py.lit "scan.PDF")
  = inr (Py.lit "%PDF-1.7", Py.lit ".pdf").
Proof. reflexivity. Qed.

(** C2, amended: for a name ending in [.pdf] (in any case) while PyMuPDF is
    missing, and for one ending in [.docx] while python-docx is missing,
    the extraction does not fail: it returns, together with the
    extension, the strict UTF-8 decoding of the bytes when there is one,
    and otherwise the decoding that drops the invalid bytes, so that in
    both cases the text encodes back to a subsequence of the bytes. *)
Theorem extract_without_parser_falls_back
    (libs : Libs) (data : bytes) (name : str) :
  (ext_from_name name = pdf /\ fitz libs = None)
  \/ (ext_from_name name = docx_ext /\ docx libs = None) ->
  exists text kept,
    extract_text_from_bytes libs data name = inr (text, ext_from_name name)
    /\ (forall s, Utf8.decode Utf8.Strict data = inr s -> text = s)
    /\ ((exists e, Utf8.decode Utf8.Strict data = inl e) ->
        Utf8.decode Utf8.Ignore data = inr text)
    /\ Utf8.encode text = inr kept /\ sublist kept data.
Proof.
  intros H.
  destruct (extract_falls_through libs data name) as (text & He & Ht).
  - destruct H as [[He Hl]|[He Hl]]; rewrite He, ?Hl;
      try reflexivity; now destruct (Py.str_eqb _ _).
  - destruct H as [[He Hl]|[He Hl]]; rewrite He, ?Hl;
      try reflexivity; now destruct (Py.str_eqb _ _).
  - destruct (decode_text_kept data text Ht) as (Hs & Hi & kept & Hk & Hsub).
    exists text, kept. auto.
Qed.

Lemma extract_without_parser_falls_back_witness :
  ((ext_from_name (Py.lit "scan.PDF") = pdf /\ fitz Samples.no_libs = None)
   \/ (ext_from_name (Py.lit "scan.PDF") = docx_ext
       /\ docx Samples.no_libs = None))
  /\ exists text kept,
      extract_text_from_bytes Samples.no_libs [x25; x50; x44; x46; xff]
        (Py.lit "scan.PDF")
      = inr (text, ext_from_name (Py.lit "scan.PDF"))
      /\ (forall s,
            Utf8.decode Utf8.Strict [x25; x50; x44; x46; xff] = inr s ->
            text = s)
      /\ ((exists e,
              Utf8.decode Utf8.Strict [x25; x50; x44; x46; xff] = inl e) ->
          Utf8.decode Utf8.Ignore [x25; x50; x44; x46; xff] = inr text)
      /\ Utf8.encode text = inr kept
      /\ sublist kept [x25; x50; x44; x46; xff].
Proof.
  assert (H : (ext_from_name (Py.lit "scan.PDF") = pdf
               /\ fitz Samples.no_libs = None)
              \/ (ext_from_name (Py.lit "scan.PDF") = docx_ext
                  /\ docx Samples.no_libs = None))
    by (left; split; reflexivity).
  split; [exact H|].
  exact (extract_without_parser_falls_back Samples.no_libs
           [x25; x50; x44; x46; xff] (Py.lit "scan.PDF") H).
Defined.

(** C7 fails at the bytes [61 FF 62] under the name [a.txt]: the
    extraction returns the two characters [ab], the invalid byte being
    dropped, where replacing it would have given U+FFFD between them. *)
Lemma extract_drops_invalid_byte :
  extract_text_from_bytes Samples.no_libs [x61; xff; x62] (Py.lit "a.txt")
  = inr (Py.lit "ab", Py.lit ".txt")
  /\ Utf8.decode Utf8.Replace [x61; xff; x62]
     = inr (Py.lit "a" ++ [Utf8.replacement_character] ++ Py.lit "b").
Proof. split; reflexivity. Qed.

(** C7, amended: for a name that indicates neither PDF nor DOCX the
    extraction never fails; it returns the strict UTF-8 decoding of the
    bytes when there is one, and otherwise the decoding that drops the
    invalid bytes, so that in both cases the text encodes back to a
    subsequence of the bytes. *)
Theorem extract_text_decodes_or_drops
    (libs : Libs) (data : bytes) (name : str) :
  ext_from_name name <> pdf -> ext_from_name name <> docx_ext ->
  exists text kept,
    extract_text_from_bytes libs data name = inr (text, ext_from_name name)
    /\ (forall s, Utf8.decode Utf8.Strict data = inr s -> text = s)
    /\ ((exists e, Utf8.decode Utf8.Strict data = inl e) ->
        Utf8.decode Utf8.Ignore data = inr text)
    /\ Utf8.encode text = inr kept /\ sublist kept data.
Proof.
  intros Hp Hd.
  apply (proj2 (PyFacts.str_eqb_neq _ _)) in Hp.
  apply (proj2 (PyFacts.str_eqb_neq _ _)) in Hd.
  destruct (extract_falls_through libs data name) as (text & He & Ht);
    [now rewrite Hp | now rewrite Hd |].
  destruct (decode_text_kept data text Ht) as (Hs & Hi & kept & Hk & Hsub).
  exists text, kept. auto.
Qed.

Lemma extract_text_decodes_or_drops_witness :
  ext_from_name (Py.lit "a.txt") <> pdf
  /\ ext_from_name (Py.lit "a.txt") <> docx_ext
  /\ exists text kept,
      extract_text_from_bytes Samples.no_libs [x61; xff; x62] (Py.lit "a.txt")
      = inr (text, ext_from_name (Py.lit "a.txt"))
      /\ (forall s, Utf8.decode Utf8.Strict [x61; xff; x62] = inr s -> text = s)
      /\ ((exists e, Utf8.decode Utf8.Strict [x61; xff; x62] = inl e) ->
          Utf8.decode Utf8.Ignore [x61; xff; x62] = inr text)
      /\ Utf8.encode text = inr kept /\ sublist kept [x61; xff; x62].
Proof.
  assert (Hp : ext_from_name (Py.lit "a.txt") <> pdf)
    by (vm_compute; discriminate).
  assert (Hd : ext_from_name (Py.lit "a.txt") <> docx_ext)
    by (vm_compute; discriminate).
  split; [exact Hp|]. split; [exact Hd|].
  exact (extract_text_decodes_or_drops Samples.no_libs [x61; xff; x62]
           (Py.lit "a.txt") Hp Hd).
Defined.

End ParsersFacts.

(** ** [translator.py] *)
Module TranslatorFacts.
Import Translator.

(** C8: the pass-through backend returns its text argument unchanged,
    whatever the target language, the source language and the format flag
    are. *)
Theorem passthrough_translate_returns_text
    (order : list nat) (text target_lang : str) (source_lang : option str)
    (preserve_format : str) :
  translate PassThroughTranslator order text target_lang source_lang
    preserve_format = Returned text.
Proof. reflexivity. Qed.

Section Chunker.

Context {A : Type}.
Implicit Types (text : list A) (n i : Z) (k m : nat).

(** A slice that starts inside the text. *)
Lemma slice_inside text i n :
  (0 <= i <= Py.len text)%Z -> (0 <= n)%Z ->
  slice text i (i + n) = take (Z.to_nat n) (drop (Z.to_nat i) text).
Proof.
  intros Hi Hn. unfold slice, slice_index, Py.len in *.
  rewrite (proj2 (Z.ltb_ge i 0)), (proj2 (Z.ltb_ge (i + n) 0)) by lia.
  rewrite (Z.min_l i) by lia.
  destruct (Z.le_gt_cases (i + n) (Z.of_nat (length text))) as [Hle|Hgt].
  - rewrite Z.min_l by lia. f_equal. lia.
  - rewrite Z.min_r by lia.
    rewrite !take_ge; [reflexivity | rewrite length_drop; lia..].
Qed.

Lemma stride_pos n : (0 < n)%Z -> (0 < stride n <= n)%Z /\ (n <= 2 * stride n)%Z.
Proof.
  intros Hn. unfold stride, overlap_of.
  rewrite Z.quot_div_nonneg by lia.
  pose proof (Z.div_pos n 20 ltac:(lia) ltac:(lia)).
  assert (n / 20 * 20 <= n)%Z by (rewrite Z.mul_comm; apply Z.mul_div_le; lia).
  lia.
Qed.

Lemma overlap_floor n : (0 <= n)%Z -> overlap_of n = (n / 20)%Z.
Proof. intros Hn. unfold overlap_of. apply Z.quot_div_nonneg; lia. Qed.

Lemma window_inside text n k :
  (0 < n)%Z -> (Z.of_nat k * stride n <= Py.len text)%Z ->
  window n text k = take (Z.to_nat n) (drop (k * Z.to_nat (stride n)) text).
Proof.
  intros Hn Hk. pose proof (stride_pos n Hn). unfold window.
  rewrite slice_inside by lia. do 2 f_equal. nia.
Qed.

(** The loop, started at the [k]-th offset, appends the windows from the
    [k]-th on up to the first offset that is not below the length. *)
Lemma chunks_loop_windows text n fuel : forall k acc,
  (0 < n)%Z ->
  ((Z.of_nat k - 1) * stride n < Py.len text)%Z ->
  (Z.max 0 (Py.len text - Z.of_nat k * stride n) < Z.of_nat fuel)%Z ->
  exists m,
    k <= m
    /\ chunks_loop fuel n (overlap_of n) text (Z.of_nat k * stride n) acc
       = Some (acc ++ map (window n text) (seq k (m - k)))
    /\ ((Z.of_nat m - 1) * stride n < Py.len text <= Z.of_nat m * stride n)%Z.
Proof.
  induction fuel as [|fuel IH]; intros k acc Hn Hinv Hfuel; [lia|].
  pose proof (stride_pos n Hn) as Hs. cbn [chunks_loop].
  destruct (Z.ltb_spec (Z.of_nat k * stride n) (Py.len text)) as [Hlt|Hge].
  - destruct (IH (S k) (acc ++ [window n text k]) Hn) as (m & Hm & Hrun & Hb);
      [lia | lia |].
    exists m. split; [lia|]. split; [|exact Hb].
    replace (Z.of_nat k * stride n + (n - overlap_of n))%Z
      with (Z.of_nat (S k) * stride n)%Z by (unfold stride; lia).
    fold (window n text k). rewrite Hrun, <- app_assoc. do 2 f_equal.
    replace (m - k) with (S (m - S k)) by lia. reflexivity.
  - exists k. split; [lia|]. split; [|lia].
    rewrite Nat.sub_diag. cbn. now rewrite app_nil_r.
Qed.

Lemma chunks_short text n : (Py.len text <= n)%Z -> _chunks n text = Some [text].
Proof.
  intros H. unfold _chunks. now rewrite (proj2 (Z.leb_le _ _) H).
Qed.

Lemma chunks_long text n :
  (0 < n < Py.len text)%Z ->
  exists m,
    _chunks n text = Some (map (window n text) (seq 0 m))
    /\ ((Z.of_nat m - 1) * stride n < Py.len text <= Z.of_nat m * stride n)%Z.
Proof.
  intros [Hn Hlen]. pose proof (stride_pos n Hn) as Hs.
  unfold _chunks. rewrite (proj2 (Z.leb_gt _ _) Hlen).
  destruct (chunks_loop_windows text n (S (length text)) 0 [] Hn)
    as (m & _ & Hrun & Hb); [unfold Py.len in *; lia..|].
  exists m. rewrite Nat.sub_0_r in Hrun. auto.
Qed.

(** Length of a window that starts below the end of the text. *)
Lemma window_length text n k :
  (0 < n)%Z -> (Z.of_nat k * stride n < Py.len text)%Z ->
  Py.len (window n text k) = Z.min n (Py.len text - Z.of_nat k * stride n).
Proof.
  intros Hn Hk. pose proof (stride_pos n Hn) as Hs.
  rewrite window_inside by lia. unfold Py.len in *.
  rewrite length_take, length_drop. nia.
Qed.

(** Every character of the text lies in the window whose number is the
    quotient of its position by the stride. *)
Lemma window_covers text n (p : nat) (x : A) :
  (0 < n)%Z -> text !! p = Some x ->
  let k := p / Z.to_nat (stride n) in
  (Z.of_nat k * stride n <= Z.of_nat p < Z.of_nat k * stride n + n)%Z
  /\ window n text k !! (p - k * Z.to_nat (stride n)) = Some x.
Proof.
  intros Hn Hp k. pose proof (stride_pos n Hn) as Hs.
  apply lookup_lt_Some in Hp as Hlt.
  assert (Hk : k * Z.to_nat (stride n) <= p
               /\ p < k * Z.to_nat (stride n) + Z.to_nat (stride n)).
  { subst k. pose proof (Nat.div_mod_eq p (Z.to_nat (stride n))) as E.
    pose proof (Nat.mod_upper_bound p (Z.to_nat (stride n)) ltac:(lia)).
    lia. }
  split; [nia|].
  rewrite window_inside by (unfold Py.len; nia).
  rewrite lookup_take_lt by lia. rewrite lookup_drop.
  rewrite <- Hp. f_equal. lia.
Qed.

(** The part of a window beyond the stride is the head of the next one. *)
Lemma window_overlap text n k :
  (0 < n)%Z -> (Z.of_nat (S k) * stride n <= Py.len text)%Z ->
  drop (Z.to_nat (stride n)) (window n text k)
  = take (Z.to_nat (overlap_of n)) (window n text (S k)).
Proof.
  intros Hn Hk. pose proof (stride_pos n Hn) as Hs.
  assert (Ho : Z.to_nat n = Z.to_nat (stride n) + Z.to_nat (overlap_of n))
    by (unfold stride in *; lia).
  rewrite !window_inside by lia.
  apply list_eq. intros i.
  rewrite lookup_drop, !lookup_take, !lookup_drop.
  repeat case_decide; try lia; try reflexivity.
  f_equal. lia.
Qed.

(** C3, amended: for a positive budget [n], a text of at most [n]
    characters gives the one chunk [[text]]; a longer text gives, in order,
    the windows [text[i:i+n]] at the offsets [i = 0, s, 2s, ...] below the
    length of the text, with [s = n - floor(n/20)]. Every character lies in
    one of the windows, every window is non-empty and has at most [n]
    characters, all windows but the last two have exactly [n], the part of
    a window beyond the stride is the head of the next window, and for a
    window of [n] characters that part has [floor(n/20)] characters. *)
Theorem chunks_strided_windows text n :
  (0 < n)%Z ->
  overlap_of n = (n / 20)%Z
  /\ ((Py.len text <= n)%Z -> _chunks n text = Some [text])
  /\ ((n < Py.len text)%Z ->
      exists m,
        _chunks n text = Some (map (window n text) (seq 0 m))
        /\ ((Z.of_nat m - 1) * stride n < Py.len text <= Z.of_nat m * stride n)%Z
        /\ (forall p x, text !! p = Some x ->
              exists k, k < m
                /\ window n text k !! (p - k * Z.to_nat (stride n)) = Some x)
        /\ (forall k, k < m -> (0 < Py.len (window n text k) <= n)%Z)
        /\ (forall k, k + 2 < m -> Py.len (window n text k) = n)
        /\ (forall k, S k < m ->
              drop (Z.to_nat (stride n)) (window n text k)
              = take (Z.to_nat (overlap_of n)) (window n text (S k)))
        /\ (forall k, S k < m -> Py.len (window n text k) = n ->
              Py.len (drop (Z.to_nat (stride n)) (window n text k))
              = overlap_of n)).
Proof.
  intros Hn. pose proof (stride_pos n Hn) as Hs.
  split; [apply overlap_floor; lia|].
  split; [apply chunks_short|].
  intros Hlen. destruct (chunks_long text n) as (m & Hrun & Hb); [lia|].
  exists m. split; [exact Hrun|]. split; [exact Hb|].
  assert (Hbelow : forall k, k < m -> (Z.of_nat k * stride n < Py.len text)%Z)
    by (intros k Hk; nia).
  split; [|split; [|split; [|split]]].
  - intros p x Hp. exists (p / Z.to_nat (stride n)).
    destruct (window_covers text n p x Hn Hp) as [Hk Hw].
    split; [|exact Hw].
    apply lookup_lt_Some in Hp. unfold Py.len in *. nia.
  - intros k Hk. specialize (Hbelow k Hk).
    rewrite window_length by assumption. lia.
  - intros k Hk.
    rewrite window_length by first [exact Hn | apply Hbelow; lia].
    assert (Z.of_nat (k + 2) * stride n < Py.len text)%Z
      by (apply Hbelow; lia).
    lia.
  - intros k Hk. apply window_overlap; [exact Hn|].
    specialize (Hbelow (S k) Hk). lia.
  - intros k Hk Hfull. unfold Py.len in *. rewrite length_drop.
    unfold stride in *. lia.
Qed.

End Chunker.

(** C3 fails at 77 characters with a budget of 40: the offsets are 0, 38
    and 76, and the second of the three windows, not the last one, has 39
    characters; it shares one character with its successor, not two. *)
Lemma chunks_short_window_before_last :
  _chunks 40 (seq 0 77) = Some [seq 0 40; seq 38 39; seq 76 1]
  /\ Py.len (seq 38 39) = 39%Z
  /\ overlap_of 40 = 2%Z.
Proof. repeat split. Qed.

Ltac cons_elem :=
  repeat match goal with
         | H : context [_ ∈ _ :: _] |- _ => rewrite elem_of_cons in H
         end;
  rewrite ?elem_of_cons.

Section Gather.

Context {T : Type}.
Implicit Types (vals : list T) (order : list nat) (slots : list (option T)).

Lemma collect_Some vals : collect (map Some vals) = Some vals.
Proof. induction vals as [|v vals IH]; cbn; [reflexivity | now rewrite IH]. Qed.

(** When no task raises, the slots of the tasks that have completed hold
    their values and the other slots are as they were. *)
Lemma gather_run_slots vals order : forall slots,
  length slots = length vals ->
  exists slots',
    gather_run (map inr vals) order slots = inr slots'
    /\ length slots' = length vals
    /\ forall i, slots' !! i
                 = if decide (i ∈ order) then Some <$> vals !! i else slots !! i.
Proof.
  induction order as [|j order IH]; intros slots Hlen; cbn [gather_run].
  - exists slots. split; [reflexivity|]. split; [exact Hlen|].
    intros i. case_decide as Hi; [|reflexivity]. now apply elem_of_nil in Hi.
  - rewrite list_lookup_fmap.
    destruct (vals !! j) as [v|] eqn:Hj; cbn [fmap option_fmap option_map].
    + destruct (IH (<[j:=Some v]> slots)) as (slots' & Hrun & Hlen' & Hl);
        [now rewrite length_insert|].
      exists slots'. split; [exact Hrun|]. split; [exact Hlen'|].
      intros i. rewrite Hl. apply lookup_lt_Some in Hj as Hlt.
      repeat case_decide; try reflexivity; cons_elem.
      * tauto.
      * destruct (decide (i = j)) as [->|Hne]; [|tauto].
        rewrite list_lookup_insert_eq by lia. now rewrite Hj.
      * rewrite list_lookup_insert_ne; [reflexivity|]. intros ->. tauto.
    + destruct (IH slots Hlen) as (slots' & Hrun & Hlen' & Hl).
      exists slots'. split; [exact Hrun|]. split; [exact Hlen'|].
      intros i. rewrite Hl. apply lookup_ge_None in Hj.
      repeat case_decide; try reflexivity; cons_elem.
      * tauto.
      * assert (i = j) as -> by tauto.
        rewrite (proj2 (lookup_ge_None vals j)) by lia.
        apply lookup_ge_None. lia.
Qed.

(** Once every task has completed, and none has raised, [gather] returns
    the values in the order of the tasks, whatever the order of
    completion. *)
Lemma gather_in_task_order vals order :
  Permutation order (seq 0 (length vals)) ->
  gather (map inr vals) order = Returned vals.
Proof.
  intros Hperm. unfold gather. rewrite length_map.
  destruct (gather_run_slots vals order (replicate (length vals) None))
    as (slots' & -> & Hlen & Hl); [apply length_replicate|].
  replace slots' with (map Some vals); [now rewrite collect_Some|].
  apply list_eq. intros i. rewrite Hl, list_lookup_fmap.
  case_decide as Hi; [reflexivity|].
  destruct (vals !! i) as [v|] eqn:Hv; cbn.
  - exfalso. apply Hi. rewrite Hperm. apply elem_of_seq.
    apply lookup_lt_Some in Hv. lia.
  - apply lookup_ge_None in Hv. symmetry. apply lookup_ge_None.
    rewrite length_replicate. exact Hv.
Qed.

End Gather.

(** An exception that comes out of [gather] was raised by one of the
    tasks. *)
Lemma gather_raised {T} (tasks : list (exn + T)) (order : list nat) (e : exn) :
  gather tasks order = Raised e -> In (inl e) tasks.
Proof.
  unfold gather.
  generalize (replicate (length tasks) (@None T)) as slots.
  induction order as [|j order IH]; intros slots; cbn [gather_run].
  - now destruct (collect slots).
  - destruct (tasks !! j) as [[e'|v]|] eqn:Hj; [|apply IH..].
    intros [= <-]. apply list_elem_of_In. now apply list_elem_of_lookup_2 in Hj.
Qed.

(** Whatever [translate] raises was raised inside the model client. *)
Lemma translate_raised (t : TranslatorBase) (order : list nat)
    (text target_lang : str) (source_lang : option str) (preserve_format : str)
    (e : exn) :
  translate t order text target_lang source_lang preserve_format = Raised e ->
  exists msg, e = ForeignError msg.
Proof.
  destruct t as [|self]; cbn [translate]; [discriminate|].
  unfold bedrock_translate. destruct (_chunks _ _) as [chunks|]; [|discriminate].
  destruct (gather _ order) as [vs|e'|] eqn:Hg; try discriminate.
  intros [= <-]. apply gather_raised in Hg.
  unfold tasks_of in Hg. apply in_map_iff in Hg as ([idx chunk] & Hf & _).
  unfold _ainvoke, _invoke, foreign in Hf.
  destruct (invoke_model self _); [|discriminate]. injection Hf as <-. eauto.
Qed.

Lemma enumerate_length {T} (xs : list T) (start : Z) :
  length (enumerate start xs) = length xs.
Proof.
  revert start. induction xs as [|x xs IH]; intros start; cbn;
    [reflexivity | now rewrite IH].
Qed.

(** C4: when the text splits into chunks and every model invocation
    returns, [translations] being what the invocations return for the
    chunks in the order in which the chunks were produced, the LLM-backed
    [translate] returns these translations joined by newlines in that
    order, whatever the order in which the invocations complete. *)
Theorem translate_joins_in_chunk_order
    (self : Bedrock) (order : list nat) (text target_lang : str)
    (source_lang : option str) (preserve_format : str)
    (chunks translations : list str) :
  _chunks (chunk_chars self) text = Some chunks ->
  tasks_of self chunks target_lang source_lang preserve_format
  = map inr translations ->
  Permutation order (seq 0 (length chunks)) ->
  translate (BedrockSeaLionTranslator self) order text target_lang source_lang
    preserve_format
  = Returned (Py.join [Py.newline] translations).
Proof.
  intros Hchunks Htasks Hperm. cbn [translate]. unfold bedrock_translate.
  rewrite Hchunks, Htasks.
  assert (Hlen : length translations = length chunks).
  { apply (f_equal (@length _)) in Htasks.
    unfold tasks_of in Htasks.
    now rewrite !length_map, enumerate_length in Htasks. }
  rewrite gather_in_task_order by now rewrite Hlen.
  reflexivity.
Qed.

Lemma translate_joins_in_chunk_order_witness :
  _chunks (chunk_chars Samples.mirror_bedrock) (Py.lit "hello world, you")
  = Some [Py.lit "hell"; Py.lit "o wo"; Py.lit "rld,"; Py.lit " you"]
  /\ tasks_of Samples.mirror_bedrock
       [Py.lit "hell"; Py.lit "o wo"; Py.lit "rld,"; Py.lit " you"]
       (Py.lit "vi") None (Py.lit "markdown")
     = map inr [Py.lit "lleh"; Py.lit "ow o"; Py.lit ",dlr"; Py.lit "uoy "]
  /\ Permutation [2; 0; 3; 1] (seq 0 4)
  /\ translate (BedrockSeaLionTranslator Samples.mirror_bedrock) [2; 0; 3; 1]
       (Py.lit "hello world, you") (Py.lit "vi") None (Py.lit "markdown")
     = Returned (Py.join [Py.newline]
                   [Py.lit "lleh"; Py.lit "ow o"; Py.lit ",dlr"; Py.lit "uoy "]).
Proof.
  assert (Hc : _chunks (chunk_chars Samples.mirror_bedrock)
                 (Py.lit "hello world, you")
               = Some [Py.lit "hell"; Py.lit "o wo"; Py.lit "rld,"; Py.lit " you"])
    by reflexivity.
  assert (Ht : tasks_of Samples.mirror_bedrock
                 [Py.lit "hell"; Py.lit "o wo"; Py.lit "rld,"; Py.lit " you"]
                 (Py.lit "vi") None (Py.lit "markdown")
               = map inr [Py.lit "lleh"; Py.lit "ow o"; Py.lit ",dlr";
                          Py.lit "uoy "])
    by (vm_compute; reflexivity).
  assert (Hp : Permutation [2; 0; 3; 1] (seq 0 4)).
  { cbn [seq]. apply (Permutation_cons_app [0; 1] [3]).
    apply perm_skip. apply perm_swap. }
  split; [exact Hc|]. split; [exact Ht|]. split; [exact Hp|].
  exact (translate_joins_in_chunk_order Samples.mirror_bedrock [2; 0; 3; 1]
           (Py.lit "hello world, you") (Py.lit "vi") None (Py.lit "markdown")
           _ _ Hc Ht Hp).
Defined.

Lemma chunks_strided_windows_witness :
  (0 < 40)%Z
  /\ (overlap_of 40 = (40 / 20)%Z
      /\ ((Py.len (seq 0 77) <= 40)%Z -> _chunks 40 (seq 0 77) = Some [seq 0 77])
      /\ ((40 < Py.len (seq 0 77))%Z ->
          exists m,
            _chunks 40 (seq 0 77) = Some (map (window 40 (seq 0 77)) (seq 0 m))
            /\ ((Z.of_nat m - 1) * stride 40 < Py.len (seq 0 77)
                <= Z.of_nat m * stride 40)%Z
            /\ (forall p x, seq 0 77 !! p = Some x ->
                  exists k, k < m
                    /\ window 40 (seq 0 77) k !! (p - k * Z.to_nat (stride 40))
                       = Some x)
            /\ (forall k, k < m -> (0 < Py.len (window 40 (seq 0 77) k) <= 40)%Z)
            /\ (forall k, k + 2 < m -> Py.len (window 40 (seq 0 77) k) = 40%Z)
            /\ (forall k, S k < m ->
                  drop (Z.to_nat (stride 40)) (window 40 (seq 0 77) k)
                  = take (Z.to_nat (overlap_of 40)) (window 40 (seq 0 77) (S k)))
            /\ (forall k, S k < m -> Py.len (window 40 (seq 0 77) k) = 40%Z ->
                  Py.len (drop (Z.to_nat (stride 40)) (window 40 (seq 0 77) k))
                  = overlap_of 40))).
Proof.
  assert (H : (0 < 40)%Z) by lia.
  split; [exact H|].
  exact (chunks_strided_windows (seq 0 77) 40 H).
Defined.

End TranslatorFacts.

(** ** [main.py] *)
Module MainFacts.
Import Main.

Arguments Py.lit : simpl never.

Section Effects.

Context {A B : Type}.

Lemma trace_bind (m : M A) (k : A -> M B) :
  trace (bind m k)
  = trace m ++ match result m with
               | Returned a => trace (k a)
               | _ => []
               end.
Proof.
  destruct m as [t [a|e|]]; cbn; [|now rewrite app_nil_r..].
  now destruct (k a).
Qed.

Lemma result_bind (m : M A) (k : A -> M B) :
  result (bind m k)
  = match result m with
    | Returned a => result (k a)
    | Raised e => Raised e
    | Pending => Pending
    end.
Proof.
  destruct m as [t [a|e|]]; cbn; [|reflexivity..]. now destruct (k a).
Qed.

End Effects.

Section Facts.

Variable cfg : Config.
Variable w : World.
Variable libs : Parsers.Libs.
Variable env : Translator.Env.

(** *** [fetch_bytes] *)

Lemma len_app {T} (a b : list T) : Py.len (a ++ b) = (Py.len a + Py.len b)%Z.
Proof. unfold Py.len. rewrite length_app. lia. Qed.

Lemma len_nonneg {T} (a : list T) : (0 <= Py.len a)%Z.
Proof. unfold Py.len. lia. Qed.

Lemma len_concat_cons {T} (c : list T) (cs : list (list T)) :
  Py.len (concat (c :: cs)) = (Py.len c + Py.len (concat cs))%Z.
Proof. cbn [concat]. apply len_app. Qed.

(** A loop that runs to the end of the stream has kept every chunk, and
    the count never went beyond the ceiling. *)
Lemma read_chunks_returned (max_bytes : Z) (stream : list bytes) :
  forall read chunks out,
    result (read_chunks max_bytes read chunks stream) = Returned out ->
    out = chunks ++ stream
    /\ (stream <> [] -> (read + Py.len (concat stream) <= max_bytes)%Z).
Proof.
  induction stream as [|chunk stream IH]; intros read chunks out.
  - cbn. intros [= <-]. now rewrite app_nil_r.
  - cbn [read_chunks]. rewrite result_bind. cbn [perform result snd].
    destruct (Z.gtb_spec (read + Py.len chunk) max_bytes) as [Hgt|Hle];
      [discriminate|].
    intros Hout. apply IH in Hout as [-> Hb]. split.
    + now rewrite <- app_assoc.
    + intros _. rewrite len_concat_cons. destruct stream as [|c' stream'].
      * change (Py.len (concat [])) with 0%Z. lia.
      * specialize (Hb ltac:(discriminate)). lia.
Qed.

(** The loop stops at the first chunk that takes the count beyond the
    ceiling: it has read that chunk and nothing after it. *)
Lemma read_chunks_abort (max_bytes : Z) (pre : list bytes) (chunk : bytes)
    (post : list bytes) :
  forall read chunks,
    (read + Py.len (concat pre) <= max_bytes)%Z ->
    (max_bytes < read + Py.len (concat pre) + Py.len chunk)%Z ->
    read_chunks max_bytes read chunks (pre ++ chunk :: post)
    = (map ReadChunk pre ++ [ReadChunk chunk],
       Raised (HTTPException 413 (Py.lit "File too large"))).
Proof.
  induction pre as [|c pre IH]; intros read chunks Hle Hgt.
  - change (Py.len (concat [])) with 0%Z in Hgt.
    cbn [app map read_chunks].
    rewrite (proj2 (Z.gtb_lt _ _)) by lia. reflexivity.
  - rewrite len_concat_cons in Hle, Hgt.
    pose proof (len_nonneg (concat pre)).
    cbn [app map read_chunks].
    destruct (Z.gtb_spec (read + Py.len c) max_bytes) as [Hc|Hc]; [lia|].
    rewrite IH by lia. reflexivity.
Qed.

(** A fetch returns only from an allowed host that answers 200, and then
    the whole body, which has stayed within the ceiling. *)
Lemma fetch_bytes_stream (url : str) (max_bytes : Z) (data : bytes) :
  result (fetch_bytes cfg w url max_bytes) = Returned data ->
  host_allowed cfg w url = true
  /\ get_status (get w url) = 200%Z
  /\ data = concat (get_chunks (get w url))
  /\ (get_chunks (get w url) <> [] -> (Py.len data <= max_bytes)%Z).
Proof.
  unfold fetch_bytes.
  destruct (host_allowed cfg w url); cbn [negb]; [|discriminate].
  rewrite result_bind. cbn [perform result snd].
  destruct (Z.eqb_spec (get_status (get w url)) 200) as [Hs|Hs]; cbn [negb].
  - rewrite result_bind.
    destruct (result (read_chunks max_bytes 0 [] (get_chunks (get w url))))
      as [chunks|e|] eqn:Hread; try discriminate.
    cbn. intros [= <-].
    apply read_chunks_returned in Hread as [-> Hb]. cbn [app].
    repeat split; [exact Hs|]. intros Hne. specialize (Hb Hne). lia.
  - rewrite result_bind. cbn [perform result snd]. rewrite result_bind.
    destruct (get_text (get w url)); discriminate.
Qed.

(** A fetch that returns has stayed within the ceiling. *)
Lemma fetch_bytes_returned (url : str) (max_bytes : Z) (data : bytes) :
  (0 <= max_bytes)%Z ->
  result (fetch_bytes cfg w url max_bytes) = Returned data ->
  (Py.len data <= max_bytes)%Z.
Proof.
  intros Hmax Hr. apply fetch_bytes_stream in Hr as (_ & _ & -> & Hb).
  destruct (get_chunks (get w url)) as [|c cs]; [exact Hmax|].
  apply Hb. discriminate.
Qed.

(** The bytes that a fetch returns are none at all or within the ceiling,
    whatever the ceiling. *)
Lemma fetch_bytes_bounded (url : str) (max_bytes : Z) (data : bytes) :
  result (fetch_bytes cfg w url max_bytes) = Returned data ->
  data = [] \/ (Py.len data <= max_bytes)%Z.
Proof.
  intros Hr. apply fetch_bytes_stream in Hr as (_ & _ & -> & Hb).
  destruct (get_chunks (get w url)) as [|c cs]; [now left|].
  right. apply Hb. discriminate.
Qed.

(** A fetch is given up at the first chunk that takes the count beyond the
    ceiling. *)
Lemma fetch_bytes_abort (url : str) (max_bytes : Z) (pre : list bytes)
    (chunk : bytes) (post : list bytes) :
  host_allowed cfg w url = true ->
  get_status (get w url) = 200%Z ->
  get_chunks (get w url) = pre ++ chunk :: post ->
  (Py.len (concat pre) <= max_bytes < Py.len (concat pre) + Py.len chunk)%Z ->
  fetch_bytes cfg w url max_bytes
  = (Get url :: map ReadChunk pre ++ [ReadChunk chunk],
     Raised (HTTPException 413 (Py.lit "File too large"))).
Proof.
  intros Hhost Hstatus Hchunks Hb. unfold fetch_bytes.
  rewrite Hhost, Hstatus, Hchunks. cbn [negb Z.eqb Pos.eqb].
  rewrite read_chunks_abort by lia. reflexivity.
Qed.

(** *** Rejections raised after [validate] *)

Ltac other_detail :=
  let E := fresh in
  intros E; apply (f_equal (hd 0%N)) in E; vm_compute in E; discriminate E.

Ltac later_here := cbn [later]; split; [auto | other_detail].

Lemma read_chunks_raised (max_bytes : Z) (stream : list bytes) (e : exn) :
  forall read chunks,
    result (read_chunks max_bytes read chunks stream) = Raised e ->
    e = HTTPException 413 (Py.lit "File too large").
Proof.
  induction stream as [|chunk stream IH]; intros read chunks;
    cbn [read_chunks]; [discriminate|].
  rewrite result_bind. cbn [perform result snd].
  destruct (_ >? _)%Z; [now intros [= <-] | apply IH].
Qed.

Lemma fetch_bytes_raised (url : str) (max_bytes : Z) (e : exn) :
  result (fetch_bytes cfg w url max_bytes) = Raised e -> later e.
Proof.
  unfold fetch_bytes.
  destruct (negb (host_allowed cfg w url)); [intros [= <-]; later_here|].
  rewrite result_bind. cbn [perform result snd].
  destruct (negb (get_status (get w url) =? 200)%Z).
  - rewrite result_bind. cbn [perform result snd]. rewrite result_bind.
    destruct (get_text (get w url)) as [e'|text];
      cbn [codec of_sum raise ret result snd];
      [now intros [= <-] | intros [= <-]; later_here].
  - rewrite result_bind.
    destruct (result (read_chunks _ _ _ _)) as [chunks|e'|] eqn:Hread;
      try discriminate.
    intros [= <-]. apply read_chunks_raised in Hread as ->. later_here.
Qed.

Lemma put_bytes_raised (url : str) (data : bytes) (ctype : str) (e : exn) :
  result (put_bytes cfg w url data ctype) = Raised e -> later e.
Proof.
  unfold put_bytes.
  destruct (negb (host_allowed cfg w url)); [intros [= <-]; later_here|].
  rewrite result_bind. cbn [perform result snd].
  destruct (_ || _); [discriminate|].
  rewrite result_bind. cbn [perform result snd]. rewrite result_bind.
  destruct (put_text (put w url data ctype)) as [e'|text];
    cbn [codec of_sum raise ret result snd];
    [now intros [= <-] | intros [= <-]; later_here].
Qed.

Lemma check_url_raised (req : Request) (e : exn) :
  result (check_url cfg w req) = Raised e -> later e.
Proof.
  unfold check_url. destruct (Py.truthy (file_url req)); [|discriminate].
  cbv zeta. destruct (negb (host_allowed cfg w _)); [intros [= <-]; later_here|].
  rewrite result_bind. unfold head_info at 1. rewrite result_bind.
  cbn [perform result snd].
  destruct (_ >=? _)%Z; cbn [ret result snd fst].
  - cbn. discriminate.
  - destruct (head_content_length _); cbn [ret raise result snd fst].
    + cbn. discriminate.
    + destruct (_ && _); [intros [= <-]; later_here | discriminate].
    + now intros [= <-].
Qed.

Lemma read_source_raised (req : Request) (e : exn) :
  result (read_source cfg w req) = Raised e -> later e.
Proof.
  unfold read_source. destruct (file req) as [f|]; [|apply fetch_bytes_raised].
  rewrite result_bind. cbn [perform result snd].
  destruct (_ >? _)%Z; [intros [= <-]; later_here | discriminate].
Qed.

(** *** Events of the parts of the handler *)

Lemma read_chunks_events (max_bytes : Z) (stream : list bytes) :
  forall read chunks,
    Forall is_read_chunk (trace (read_chunks max_bytes read chunks stream)).
Proof.
  induction stream as [|chunk stream IH]; intros read chunks; cbn [read_chunks].
  - constructor.
  - rewrite trace_bind. cbn [perform trace result fst snd app].
    constructor; [now exists chunk|].
    destruct (_ >? _)%Z; [constructor | apply IH].
Qed.

Lemma ensure_auth_pure (h : option str) : trace (ensure_auth cfg h) = [].
Proof.
  unfold ensure_auth. destruct h as [h|]; [|reflexivity].
  destruct (_ && _); [|reflexivity].
  destruct (_ !! _); [|reflexivity]. now destruct (Py.str_eqb _ _).
Qed.

Lemma validate_pure (req : Request) : trace (validate cfg w req) = [].
Proof.
  unfold validate. rewrite trace_bind, ensure_auth_pure.
  destruct (result (ensure_auth cfg (authorization req))); [|reflexivity..].
  destruct (_ && _); [reflexivity|]. cbv zeta.
  now destruct (_ && _).
Qed.

(** [ensure_auth] raises 401 or 403 and nothing else over HTTP. *)
Lemma ensure_auth_status (h : option str) (c : Z) (d : str) :
  result (ensure_auth cfg h) = Raised (HTTPException c d) ->
  (c = 401 /\ d = Py.lit "Missing bearer token")%Z
  \/ (c = 403 /\ d = Py.lit "Invalid token")%Z.
Proof.
  unfold ensure_auth. destruct h as [h|]; [|intros [= <- <-]; now left].
  destruct (_ && _); [|intros [= <- <-]; now left].
  destruct (_ !! _); [|discriminate].
  destruct (Py.str_eqb _ _); [discriminate|]. intros [= <- <-]. now right.
Qed.

(** The outcome of [validate], case by case. *)
Lemma validate_result (req : Request) :
  result (validate cfg w req)
  = match result (ensure_auth cfg (authorization req)) with
    | Returned _ =>
        if negb (Py.truthy (file_url req)) && negb (Py.not_none (file req))
        then Raised (HTTPException 400
                       (Py.lit "Provide file_url or multipart file"))
        else
          let ext := ext_from_name (resolve_filename w (file req) (file_url req)) in
          if Py.truthy (Some ext) && negb (Py.str_in ext ALLOWED_EXTS)
          then Raised (HTTPException 415 (Py.lit "Unsupported file type: " ++ ext))
          else Returned (resolve_filename w (file req) (file_url req))
    | Raised e => Raised e
    | Pending => Pending
    end.
Proof.
  unfold validate. rewrite result_bind.
  destruct (result (ensure_auth cfg (authorization req))); [|reflexivity..].
  destruct (_ && _); [reflexivity|]. cbv zeta. now destruct (_ && _).
Qed.

(** *** The probe of the declared size *)

Lemma head_info_trace (url : str) : trace (head_info w url) = [Head url].
Proof.
  unfold head_info. rewrite trace_bind. cbn [perform trace result fst snd app].
  destruct (_ >=? _)%Z; [reflexivity|].
  now destruct (head_content_length _).
Qed.

(** On a URL that passes the host check, [check_url] makes the probe and
    judges what it reports. *)
Lemma check_url_probe (req : Request) (url : str) :
  file_url req = Some url -> url <> [] ->
  host_allowed cfg w url = true ->
  trace (check_url cfg w req) = [Head url]
  /\ result (check_url cfg w req)
     = match result (head_info w url) with
       | Returned info =>
           if Py.truthy_int (fst (fst info))
              && (default 0 (fst (fst info)) >? MAX_BYTES cfg)%Z
           then Raised (HTTPException 413 (Py.lit "File too large"))
           else Returned tt
       | Raised e => Raised e
       | Pending => Pending
       end.
Proof.
  intros Hurl Hne Hhost. unfold check_url. rewrite Hurl.
  destruct url as [|c url]; [contradiction|].
  cbn [Py.truthy from_option id]. rewrite Hhost. cbn [negb].
  rewrite trace_bind, result_bind, head_info_trace.
  destruct (result (head_info w (c :: url))) as [info|e|]; [|easy..].
  cbv zeta. now destruct (_ && _).
Qed.

(** The only event [check_url] can cause is the probe of the URL of the
    request, and it causes it only once the host check has passed. *)
Lemma check_url_events (req : Request) (ev : event) :
  In ev (trace (check_url cfg w req)) ->
  exists url,
    ev = Head url /\ file_url req = Some url /\ url <> []
    /\ host_allowed cfg w url = true.
Proof.
  unfold check_url. destruct (file_url req) as [[|c url]|] eqn:Hurl;
    cbn [Py.truthy from_option id]; try contradiction.
  destruct (host_allowed cfg w (c :: url)) eqn:Hhost; cbn [negb];
    [|contradiction].
  rewrite trace_bind, head_info_trace. intros [<-|Hin].
  - exists (c :: url). now repeat split.
  - exfalso. destruct (result (head_info w (c :: url))); try contradiction.
    cbv zeta in Hin. now destruct (_ && _).
Qed.

(** A probe that reports more than the ceiling ends the request with 413
    there and then. *)
Lemma check_url_too_large (req : Request) (url : str) (declared : Z)
    (etag ctype : option str) :
  file_url req = Some url -> url <> [] ->
  host_allowed cfg w url = true ->
  result (head_info w url) = Returned (Some declared, etag, ctype) ->
  declared <> 0%Z -> (MAX_BYTES cfg < declared)%Z ->
  check_url cfg w req
  = ([Head url], Raised (HTTPException 413 (Py.lit "File too large"))).
Proof.
  intros Hurl Hne Hhost Hinfo Hnz Hgt.
  destruct (check_url_probe req url Hurl Hne Hhost) as [Ht Hr].
  rewrite Hinfo in Hr. cbn [fst Py.truthy_int from_option id] in Hr.
  rewrite (proj2 (Z.eqb_neq _ _) Hnz), (proj2 (Z.gtb_lt _ _) Hgt) in Hr.
  cbn in Hr. unfold trace, result in *.
  destruct (check_url cfg w req). cbn in *. now subst.
Qed.

(** *** The source of the bytes *)

Lemma read_source_upload (req : Request) (f : UploadFile) :
  file req = Some f ->
  read_source cfg w req
  = ([ReadUpload],
     if (Py.len (content f) >? MAX_BYTES cfg)%Z
     then Raised (HTTPException 413 (Py.lit "File too large"))
     else Returned (content f)).
Proof.
  intros Hf. unfold read_source. rewrite Hf. cbn [bind perform].
  now destruct (_ >? _)%Z.
Qed.

(** *** The work on the document and the response *)

(** Reading the text of an answer and raising with it. *)
Lemma read_text_trace {T} (body : bytes) (text : Utf8.UnicodeError + str)
    (k : str -> M T) :
  (forall s, trace (k s) = []) ->
  trace (perform (ReadBody body) ;;; s <- of_sum (codec text) ;; k s)
  = [ReadBody body].
Proof.
  intros Hk. rewrite trace_bind. cbn [perform trace result fst snd app].
  rewrite trace_bind. destruct text as [e|s]; cbn; [reflexivity|].
  now rewrite Hk.
Qed.

Lemma put_bytes_events (url : str) (data : bytes) (ctype : str) :
  Forall (fun ev => is_put ev \/ is_read_body ev)
    (trace (put_bytes cfg w url data ctype)).
Proof.
  unfold put_bytes. destruct (negb _); [constructor|].
  rewrite trace_bind. cbn [perform trace result fst snd app].
  constructor; [left; now exists url, data, ctype|].
  destruct (_ || _); [constructor|].
  rewrite read_text_trace by reflexivity.
  constructor; [right; eexists; reflexivity | constructor].
Qed.

Lemma of_sum_trace {T} (r : exn + T) : trace (of_sum r) = [].
Proof. now destruct r. Qed.

Lemma do_work_events (req : Request) (t : Translator.TranslatorBase)
    (name : str) (raw : bytes) :
  Forall (fun ev => is_put ev \/ is_read_body ev)
    (trace (do_work cfg w libs req t name raw)).
Proof.
  unfold do_work. cbv zeta. rewrite trace_bind, of_sum_trace. cbn [app].
  destruct (result (of_sum _)) as [extracted|e|]; [|constructor..].
  destruct (Parsers.choose_output_ext_and_mime _) as [out_ext out_mime].
  rewrite trace_bind. cbn [await trace fst app].
  destruct (result (await _)) as [translated|e|]; [|constructor..].
  rewrite trace_bind, of_sum_trace. cbn [app].
  destruct (result (of_sum _)) as [out_bytes|e|]; [|constructor..].
  rewrite trace_bind.
  apply Forall_app_2.
  - destruct (Py.truthy (output_url req)); [apply put_bytes_events | constructor].
  - destruct (result _); constructor.
Qed.

Lemma do_work_raised (req : Request) (t : Translator.TranslatorBase)
    (name : str) (raw : bytes) (e : exn) :
  result (do_work cfg w libs req t name raw) = Raised e -> later e.
Proof.
  unfold do_work. cbv zeta. rewrite result_bind.
  destruct (Parsers.extract_text_from_bytes libs raw name) as [e'|extracted] eqn:Hx;
    cbn [of_sum raise ret result snd].
  { intros [= <-]. apply ParsersFacts.extract_raised in Hx as [msg ->]. exact I. }
  destruct (Parsers.choose_output_ext_and_mime _) as [out_ext out_mime].
  rewrite result_bind. cbn [await result snd].
  destruct (Translator.translate _ _ _ _ _ _) as [translated|e'|] eqn:Ht;
    [| intros [= <-];
       apply TranslatorFacts.translate_raised in Ht as [msg ->]; exact I
     | discriminate].
  rewrite result_bind.
  destruct (Utf8.encode translated) as [e'|out_bytes];
    cbn [of_sum raise ret result snd]; [now intros [= <-]|].
  rewrite result_bind.
  destruct (Py.truthy (output_url req)).
  - destruct (result (put_bytes _ _ _ _ _)) as [[]|e'|] eqn:Hp;
      [discriminate | | discriminate].
    intros [= <-]. now apply put_bytes_raised in Hp.
  - discriminate.
Qed.

Lemma respond_raised (req : Request) (name : str) (raw : bytes) (e : exn) :
  result (respond cfg w libs env req name raw) = Raised e -> later e.
Proof.
  unfold respond. cbv zeta. destruct (Py.str_eqb _ _).
  - rewrite result_bind. discriminate.
  - rewrite result_bind.
    destruct (result (do_work _ _ _ _ _ _ _)) as [[[out_bytes out_mime] out_name]|e'|]
      eqn:Hw; [| | discriminate].
    + destruct (Py.truthy (output_url req)); [discriminate|].
      unfold streaming_response.
      destruct (_ && _); [discriminate | now intros [= <-]].
    + intros [= <-]. now apply do_work_raised in Hw.
Qed.

(** The response part causes no network read: it creates the task or
    puts the result. *)
Lemma streaming_response_trace (body : bytes) (media_type : str)
    (headers : list (str * str)) :
  trace (streaming_response body media_type headers) = [].
Proof. unfold streaming_response. now destruct (_ && _). Qed.

Lemma respond_events (req : Request) (name : str) (raw : bytes) :
  Forall (fun ev => is_put ev \/ is_read_body ev \/ is_task ev)
    (trace (respond cfg w libs env req name raw)).
Proof.
  unfold respond. cbv zeta. destruct (Py.str_eqb _ _).
  - rewrite trace_bind. cbn [perform trace result fst snd app ret].
    constructor; [|constructor]. right. right. eexists. reflexivity.
  - rewrite trace_bind. apply Forall_app_2.
    + eapply Forall_impl; [apply do_work_events|].
      intros ev [H|H]; [now left | right; now left].
    + destruct (result _) as [[[out_bytes out_mime] out_name]|e|];
        try constructor.
      destruct (Py.truthy (output_url req));
        [constructor | rewrite streaming_response_trace; constructor].
Qed.

(** *** The handler as a whole *)

(** The events of [sourced]: the probe, then the reading of the source. *)
Lemma sourced_trace (req : Request) :
  trace (sourced cfg w req)
  = match result (validate cfg w req) with
    | Returned _ =>
        trace (check_url cfg w req)
        ++ match result (check_url cfg w req) with
           | Returned _ => trace (read_source cfg w req)
           | _ => []
           end
    | _ => []
    end.
Proof.
  unfold sourced. rewrite trace_bind, validate_pure. cbn [app].
  destruct (result (validate cfg w req)); [|reflexivity..].
  rewrite trace_bind. f_equal.
  destruct (result (check_url cfg w req)); [|reflexivity..].
  rewrite trace_bind.
  destruct (result (read_source cfg w req)); [|now rewrite app_nil_r..].
  destruct (_ && _); cbn; now rewrite app_nil_r.
Qed.

Lemma sourced_result (req : Request) :
  result (sourced cfg w req)
  = match result (validate cfg w req) with
    | Returned filename =>
        match result (check_url cfg w req) with
        | Returned _ =>
            match result (read_source cfg w req) with
            | Returned raw =>
                if Py.truthy (integrity_sha256 req)
                   && negb (Py.str_eqb (sha256_hexdigest w raw)
                              (Py.lower (default [] (integrity_sha256 req))))
                then Raised (HTTPException 400 (Py.lit "Integrity hash mismatch"))
                else Returned (filename, raw)
            | Raised e => Raised e
            | Pending => Pending
            end
        | Raised e => Raised e
        | Pending => Pending
        end
    | Raised e => Raised e
    | Pending => Pending
    end.
Proof.
  unfold sourced. rewrite result_bind.
  destruct (result (validate cfg w req)); [|reflexivity..].
  rewrite result_bind.
  destruct (result (check_url cfg w req)); [|reflexivity..].
  rewrite result_bind.
  destruct (result (read_source cfg w req)); [|reflexivity..].
  now destruct (_ && _).
Qed.

(** A rejection of the whole handler comes from [validate] or is one of
    the later ones. *)
Lemma translate_file_raised (req : Request) (e : exn) :
  result (translate_file cfg w libs env req) = Raised e ->
  result (validate cfg w req) = Raised e \/ later e.
Proof.
  unfold translate_file. rewrite result_bind, sourced_result.
  destruct (result (validate cfg w req)) as [name|e'|];
    [| intros [= <-]; now left | discriminate].
  intros H. right. revert H.
  destruct (result (check_url cfg w req)) as [[]|e'|] eqn:Hc;
    [| intros [= <-]; now apply check_url_raised in Hc | discriminate].
  destruct (result (read_source cfg w req)) as [raw|e'|] eqn:Hr;
    [| intros [= <-]; now apply read_source_raised in Hr | discriminate].
  destruct (_ && _); [intros [= <-]; later_here|].
  apply respond_raised.
Qed.

Lemma translate_file_trace (req : Request) :
  trace (translate_file cfg w libs env req)
  = trace (sourced cfg w req)
    ++ match result (sourced cfg w req) with
       | Returned source => trace (respond cfg w libs env req source.1 source.2)
       | _ => []
       end.
Proof. unfold translate_file. apply trace_bind. Qed.

Lemma fetch_bytes_events (url : str) (max_bytes : Z) :
  Forall (fun ev => ev = Get url \/ is_read_chunk ev \/ is_read_body ev)
    (trace (fetch_bytes cfg w url max_bytes)).
Proof.
  unfold fetch_bytes. destruct (negb _); [constructor|].
  rewrite trace_bind. cbn [perform trace result fst snd app].
  constructor; [now left|].
  destruct (negb _).
  - rewrite read_text_trace by reflexivity.
    constructor; [right; right; eexists; reflexivity | constructor].
  - rewrite trace_bind. apply Forall_app_2.
    + eapply Forall_impl; [apply read_chunks_events|].
      intros ev H. right. now left.
    + destruct (result _); constructor.
Qed.

(** Reading the source causes no probe. *)
Lemma read_source_no_head (req : Request) (url : str) :
  ~ In (Head url) (trace (read_source cfg w req)).
Proof.
  unfold read_source. destruct (file req) as [f|].
  - rewrite trace_bind. cbn [perform trace result fst snd app].
    destruct (_ >? _)%Z; cbn; intuition discriminate.
  - intros Hin. pose proof (fetch_bytes_events (default [] (file_url req))
                              (MAX_BYTES cfg)) as Hev.
    rewrite Forall_forall in Hev. apply list_elem_of_In in Hin.
    destruct (Hev _ Hin) as [H|[[c H]|[b H]]]; discriminate.
Qed.

Lemma respond_no_read (req : Request) (name : str) (raw : bytes) (ev : event) :
  In ev (trace (respond cfg w libs env req name raw)) ->
  is_put ev \/ is_read_body ev \/ is_task ev.
Proof.
  intros Hin. pose proof (respond_events req name raw) as Hev.
  rewrite Forall_forall in Hev. apply Hev. now apply list_elem_of_In.
Qed.

(** A probe among the events of a request was made by [check_url]: the
    URL is the one of the request, and it has passed the host check. *)
Lemma probe_made (req : Request) (url : str) :
  In (Head url) (trace (translate_file cfg w libs env req)) ->
  (exists name, result (validate cfg w req) = Returned name)
  /\ file_url req = Some url /\ url <> [] /\ host_allowed cfg w url = true.
Proof.
  rewrite translate_file_trace, sourced_trace. intros Hin.
  apply in_app_or in Hin as [Hin|Hin].
  - destruct (result (validate cfg w req)) as [name|e|]; try contradiction.
    apply in_app_or in Hin as [Hin|Hin].
    + apply check_url_events in Hin as (url' & [= ->] & Hurl & Hne & Hhost).
      eauto.
    + exfalso. destruct (result (check_url cfg w req)); try contradiction.
      now apply read_source_no_head in Hin.
  - exfalso. destruct (result (sourced cfg w req)) as [source|e|];
      try contradiction.
    apply respond_no_read in Hin as [(u & d & c & H)|[(b & H)|(t & H)]];
      discriminate.
Qed.

(** A request stopped by [check_url] has caused the events of [check_url]
    and no other. *)
Lemma translate_file_stopped_at_probe (req : Request) (name : str)
    (t : list event) (e : exn) :
  result (validate cfg w req) = Returned name ->
  check_url cfg w req = (t, Raised e) ->
  translate_file cfg w libs env req = (t, Raised e).
Proof.
  intros Hv Hc.
  pose proof (translate_file_trace req) as Ht.
  assert (Hr : result (translate_file cfg w libs env req) = Raised e).
  { unfold translate_file. now rewrite result_bind, sourced_result, Hv, Hc. }
  rewrite sourced_trace, sourced_result, Hv, Hc in Ht. cbn in Ht.
  rewrite !app_nil_r in Ht.
  unfold trace, result in *. destruct (translate_file cfg w libs env req).
  cbn in *. now subst.
Qed.

Lemma check_url_host_rejected (req : Request) (url : str) :
  file_url req = Some url -> url <> [] ->
  host_allowed cfg w url = false ->
  check_url cfg w req
  = ([], Raised (HTTPException 400 (Py.lit "URL host not allowed"))).
Proof.
  intros Hurl Hne Hhost. unfold check_url. rewrite Hurl.
  destruct url as [|c url]; [contradiction|].
  cbn [Py.truthy from_option id]. now rewrite Hhost.
Qed.

(** What [head_info] hands on for a probe answered below 400 with a
    length. *)
Lemma head_info_declared (url : str) (declared : Z) :
  (head_status (head w url) < 400)%Z ->
  head_content_length (head w url) = Length declared ->
  result (head_info w url)
  = Returned (Some declared, head_etag (head w url),
              head_content_type (head w url)).
Proof.
  intros Hs Hl. unfold head_info. rewrite result_bind.
  cbn [perform result snd].
  destruct (Z.geb_spec (head_status (head w url)) 400); [lia|].
  now rewrite Hl.
Qed.

(** A request stopped while its source is read has caused the events of
    [check_url], then those of the reading, and no other. *)
Lemma translate_file_stopped_at_source (req : Request) (name : str)
    (t : list event) (e : exn) :
  result (validate cfg w req) = Returned name ->
  result (check_url cfg w req) = Returned tt ->
  read_source cfg w req = (t, Raised e) ->
  translate_file cfg w libs env req = (trace (check_url cfg w req) ++ t, Raised e).
Proof.
  intros Hv Hc Hs.
  pose proof (translate_file_trace req) as Ht.
  assert (Hr : result (translate_file cfg w libs env req) = Raised e).
  { unfold translate_file. now rewrite result_bind, sourced_result, Hv, Hc, Hs. }
  rewrite sourced_trace, sourced_result, Hv, Hc, Hs in Ht.
  cbn [trace result fst snd] in Ht. rewrite app_nil_r in Ht.
  unfold trace, result in *. destruct (translate_file cfg w libs env req).
  cbn in *. now subst.
Qed.

(** With an upload, no GET is among the events of the request. *)
Lemma upload_never_fetched (req : Request) (f : UploadFile) (u : str) :
  file req = Some f ->
  ~ In (Get u) (trace (translate_file cfg w libs env req)).
Proof.
  intros Hfile Hin. rewrite translate_file_trace, sourced_trace in Hin.
  apply in_app_or in Hin as [Hin|Hin].
  - destruct (result (validate cfg w req)); try contradiction.
    apply in_app_or in Hin as [Hin|Hin].
    + apply check_url_events in Hin as (url' & H & _). discriminate.
    + destruct (result (check_url cfg w req)); try contradiction.
      rewrite (read_source_upload req f Hfile) in Hin.
      destruct Hin as [H|[]]. discriminate.
  - destruct (result (sourced cfg w req)); try contradiction.
    apply respond_no_read in Hin as [(u' & d & c & H)|[(b & H)|(t & H)]];
      discriminate.
Qed.

(** With an upload, the bytes handed on are those of the upload. *)
Lemma upload_is_source (req : Request) (f : UploadFile) (name : str)
    (raw : bytes) :
  file req = Some f ->
  result (sourced cfg w req) = Returned (name, raw) ->
  raw = content f.
Proof.
  intros Hfile Hs. rewrite sourced_result in Hs.
  rewrite (read_source_upload req f Hfile) in Hs. cbn [result snd] in Hs.
  destruct (result (validate _ _ _)); try discriminate.
  destruct (result (check_url _ _ _)); try discriminate.
  destruct (_ >? _)%Z; [discriminate|].
  destruct (_ && _); [discriminate|]. now injection Hs as _ <-.
Qed.

(** The name under which [sourced] hands on the bytes is the resolved
    one. *)
Lemma sourced_name (req : Request) (name : str) (raw : bytes) :
  result (sourced cfg w req) = Returned (name, raw) ->
  name = resolve_filename w (file req) (file_url req).
Proof.
  intros Hs. rewrite sourced_result, validate_result in Hs.
  destruct (result (ensure_auth _ _)); try discriminate.
  destruct (_ && _); [discriminate|]. cbv zeta in Hs.
  destruct (_ && _); [discriminate|].
  destruct (result (check_url _ _ _)); try discriminate.
  destruct (result (read_source _ _ _)); try discriminate.
  destruct (_ && _); [discriminate|]. now injection Hs as <- _.
Qed.

Lemma bind_ret {T U} (a : T) (k : T -> M U) : bind (ret a) k = k a.
Proof. cbn. now destruct (k a). Qed.

(** The work on a document whose extraction gives [text]: the backend is
    applied to that text, the translation is encoded, put to [output_url]
    if there is one, and handed back with its type and name. *)
Lemma do_work_on_text (req : Request) (t : Translator.TranslatorBase)
    (name : str) (raw : bytes) (text ext : str) :
  Parsers.extract_text_from_bytes libs raw name = inr (text, ext) ->
  do_work cfg w libs req t name raw
  = (let fmt := field (preserve_format req) "markdown" in
     let out_mime := snd (Parsers.choose_output_ext_and_mime fmt) in
     let out_name :=
       name ++ Py.lit ".translated"
       ++ fst (Parsers.choose_output_ext_and_mime fmt) in
     translated <-
       await (Translator.translate t (completion_order w) text
                (target_lang req) (source_lang req) fmt) ;;
     out_bytes <- of_sum (codec (Utf8.encode translated)) ;;
     (if Py.truthy (output_url req)
      then put_bytes cfg w (default [] (output_url req)) out_bytes out_mime
      else ret tt) ;;;
     ret (out_bytes, out_mime, out_name)).
Proof.
  intros Hx. unfold do_work. cbv zeta. rewrite Hx.
  cbn [of_sum]. rewrite bind_ret. cbn [fst].
  now destruct (Parsers.choose_output_ext_and_mime _).
Qed.

(** How the response part uses the work on the document. *)
Lemma respond_async (req : Request) (name : str) (raw : bytes) :
  Py.str_eqb (field (return_mode req) "async") (Py.lit "async") = true ->
  respond cfg w libs env req name raw
  = ([CreateTask (do_work cfg w libs req (Translator.get_translator env)
                    name raw)],
     Returned (JSONResponse [(Py.lit "job_id", Py.str_of_Z (time_ms w));
                             (Py.lit "status", Py.lit "queued")])).
Proof. intros Hm. unfold respond. cbv zeta. now rewrite Hm. Qed.

Lemma respond_sync (req : Request) (name : str) (raw : bytes) :
  Py.str_eqb (field (return_mode req) "async") (Py.lit "async") = false ->
  trace (respond cfg w libs env req name raw)
  = trace (do_work cfg w libs req (Translator.get_translator env) name raw)
  /\ result (respond cfg w libs env req name raw)
     = match result (do_work cfg w libs req (Translator.get_translator env)
                       name raw) with
       | Returned (out_bytes, out_mime, out_name) =>
           if Py.truthy (output_url req)
           then Returned
                  (JSONResponse
                     [(Py.lit "status", Py.lit "succeeded");
                      (Py.lit "output_url", default [] (output_url req));
                      (Py.lit "filename", out_name);
                      (Py.lit "mime", out_mime)])
           else result
                  (streaming_response out_bytes out_mime
                     [(Py.lit "Content-Disposition",
                       Py.lit "attachment; filename=" ++ [quote] ++ out_name
                       ++ [quote])])
       | Raised e => Raised e
       | Pending => Pending
       end.
Proof.
  intros Hm. unfold respond. cbv zeta. rewrite Hm, trace_bind, result_bind.
  destruct (result (do_work _ _ _ _ _ _ _)) as [[[out_bytes out_mime] out_name]|e|];
    [|now rewrite app_nil_r..].
  destruct (Py.truthy (output_url req)); cbn [ret trace result fst snd];
    rewrite ?streaming_response_trace, app_nil_r; now split.
Qed.

Lemma translate_file_sourced (req : Request) (name : str) (raw : bytes) :
  result (sourced cfg w req) = Returned (name, raw) ->
  translate_file cfg w libs env req
  = (trace (sourced cfg w req) ++ trace (respond cfg w libs env req name raw),
     result (respond cfg w libs env req name raw)).
Proof.
  intros Hs. unfold translate_file.
  destruct (sourced cfg w req) as [t r]. cbn [result snd] in Hs. subst r.
  cbn [bind fst snd trace result].
  now destruct (respond cfg w libs env req name raw).
Qed.

(** C1, amended: (1) a request whose probe is answered with a status below
    400 and declares a length that is not zero and is above the ceiling is
    rejected with 413, the probe being its only event: no GET is issued;
    (2) for a request without an upload that the probe lets through, a GET
    answered 200 is given up with 413 at the first chunk that takes the
    count of the bytes read beyond the ceiling, that chunk being the last
    one read; (3) the bytes that such a request sources are none at all or
    within the ceiling; (4) and (5) the same two facts of [fetch_bytes]
    for any ceiling it is given. *)
Theorem size_ceiling_enforced (req : Request) :
  (forall url declared,
      In (Head url) (trace (translate_file cfg w libs env req)) ->
      (head_status (head w url) < 400)%Z ->
      head_content_length (head w url) = Length declared ->
      declared <> 0%Z -> (MAX_BYTES cfg < declared)%Z ->
      translate_file cfg w libs env req
      = ([Head url], Raised (HTTPException 413 (Py.lit "File too large"))))
  /\ (forall url name pre chunk post,
        file req = None -> file_url req = Some url -> url <> [] ->
        result (validate cfg w req) = Returned name ->
        result (check_url cfg w req) = Returned tt ->
        get_status (get w url) = 200%Z ->
        get_chunks (get w url) = pre ++ chunk :: post ->
        (Py.len (concat pre) <= MAX_BYTES cfg
         < Py.len (concat pre) + Py.len chunk)%Z ->
        translate_file cfg w libs env req
        = (Head url :: Get url :: map ReadChunk pre ++ [ReadChunk chunk],
           Raised (HTTPException 413 (Py.lit "File too large"))))
  /\ (forall name raw,
        file req = None ->
        result (sourced cfg w req) = Returned (name, raw) ->
        raw = [] \/ (Py.len raw <= MAX_BYTES cfg)%Z)
  /\ (forall url max_bytes pre chunk post,
        host_allowed cfg w url = true ->
        get_status (get w url) = 200%Z ->
        get_chunks (get w url) = pre ++ chunk :: post ->
        (Py.len (concat pre) <= max_bytes
         < Py.len (concat pre) + Py.len chunk)%Z ->
        fetch_bytes cfg w url max_bytes
        = (Get url :: map ReadChunk pre ++ [ReadChunk chunk],
           Raised (HTTPException 413 (Py.lit "File too large"))))
  /\ (forall url max_bytes data,
        result (fetch_bytes cfg w url max_bytes) = Returned data ->
        data = [] \/ (Py.len data <= max_bytes)%Z).
Proof.
  split; [|split; [|split; [|split]]].
  - intros url declared Hin Hs Hl Hnz Hgt.
    apply probe_made in Hin as ([name Hv] & Hurl & Hne & Hhost).
    pose proof (check_url_too_large req url declared _ _ Hurl Hne Hhost
                  (head_info_declared url declared Hs Hl) Hnz Hgt) as Hc.
    exact (translate_file_stopped_at_probe req name _ _ Hv Hc).
  - intros url name pre chunk post Hfile Hurl Hne Hv Hc Hstatus Hchunks Hb.
    assert (Hhost : host_allowed cfg w url = true).
    { destruct (host_allowed cfg w url) eqn:E; [reflexivity|].
      rewrite (check_url_host_rejected req url Hurl Hne E) in Hc.
      discriminate Hc. }
    destruct (check_url_probe req url Hurl Hne Hhost) as [Ht _].
    assert (Hr : read_source cfg w req
                 = (Get url :: map ReadChunk pre ++ [ReadChunk chunk],
                    Raised (HTTPException 413 (Py.lit "File too large")))).
    { unfold read_source. rewrite Hfile, Hurl. cbn [from_option id].
      now apply (fetch_bytes_abort url (MAX_BYTES cfg) pre chunk post). }
    rewrite (translate_file_stopped_at_source req name _ _ Hv Hc Hr), Ht.
    reflexivity.
  - intros name raw Hfile Hs. rewrite sourced_result in Hs.
    destruct (result (validate cfg w req)); try discriminate.
    destruct (result (check_url cfg w req)); try discriminate.
    destruct (result (read_source cfg w req)) as [raw'|e|] eqn:Hr;
      try discriminate.
    destruct (_ && _); [discriminate|]. injection Hs as _ <-.
    unfold read_source in Hr. rewrite Hfile in Hr.
    now apply fetch_bytes_bounded in Hr.
  - apply fetch_bytes_abort.
  - apply fetch_bytes_bounded.
Qed.

(** C5, amended: an authorized request that supplies neither an upload
    nor a [file_url] is rejected with 400, before any I/O; that rejection
    is raised for no other request, so that a request supplying both is
    not rejected on that account; and a request supplying both causes no
    GET, the bytes it sources being those of the upload. *)
Theorem missing_source_rejected (req : Request) :
  result (ensure_auth cfg (authorization req)) = Returned tt ->
  (Py.truthy (file_url req) = false -> file req = None ->
   translate_file cfg w libs env req
   = ([], Raised (HTTPException 400
                    (Py.lit "Provide file_url or multipart file"))))
  /\ (result (translate_file cfg w libs env req)
      = Raised (HTTPException 400 (Py.lit "Provide file_url or multipart file")) ->
      Py.truthy (file_url req) = false /\ file req = None)
  /\ (forall f,
        Py.truthy (file_url req) = true -> file req = Some f ->
        (forall u, ~ In (Get u) (trace (translate_file cfg w libs env req)))
        /\ forall name raw,
            result (sourced cfg w req) = Returned (name, raw) ->
            raw = content f).
Proof.
  intros Hauth. pose proof (validate_result req) as Hv. rewrite Hauth in Hv.
  split; [|split].
  - intros Hurl Hfile. rewrite Hurl, Hfile in Hv. cbn in Hv.
    pose proof (translate_file_trace req) as Ht.
    assert (Hr : result (translate_file cfg w libs env req)
                 = Raised (HTTPException 400
                             (Py.lit "Provide file_url or multipart file"))).
    { unfold translate_file. now rewrite result_bind, sourced_result, Hv. }
    rewrite sourced_trace, sourced_result, Hv in Ht. cbn in Ht.
    unfold trace, result in *. destruct (translate_file cfg w libs env req).
    cbn in *. now subst.
  - intros Hr. apply translate_file_raised in Hr as [Hr|[_ Hd]];
      [|now contradiction Hd].
    rewrite Hv in Hr. clear Hv.
    destruct (Py.truthy (file_url req)), (file req); cbn in Hr; try easy.
    all: cbv zeta in Hr; destruct (_ && _); try discriminate.
    all: exfalso; injection Hr as Hc _; discriminate Hc.
  - intros f _ Hfile. split.
    + intros u. now apply (upload_never_fetched req f).
    + intros name raw. now apply upload_is_source.
Qed.

(** C9: (1) a request is rejected with 415 only if the name of its
    document has an extension that is not empty and not in the allow-list;
    (2) a request whose document has a name without a dot is not rejected
    with 415, and once its bytes are sourced (a) the extraction, whichever
    parsing libraries are there, gives the strict UTF-8 decoding of the
    bytes when there is one and otherwise the decoding that drops the
    invalid bytes, a text that encodes back to a subsequence of the bytes;
    (b) the work on the document is the translation of that text by the
    backend, encoded, put to [output_url] if there is one and handed back;
    (c) that work is what the handler leaves to the created task in the
    [async] mode, and what it awaits and answers with in any other
    mode. *)
Theorem unsupported_type_needs_extension (req : Request) :
  (status_of (result (translate_file cfg w libs env req)) = Some 415%Z ->
   ext_from_name (resolve_filename w (file req) (file_url req)) <> []
   /\ Py.str_in (ext_from_name (resolve_filename w (file req) (file_url req)))
        ALLOWED_EXTS = false)
  /\ (~ In Py.dot (resolve_filename w (file req) (file_url req)) ->
      status_of (result (translate_file cfg w libs env req)) <> Some 415%Z
      /\ forall name raw,
          result (sourced cfg w req) = Returned (name, raw) ->
          name = resolve_filename w (file req) (file_url req)
          /\ (exists text kept,
                Parsers.extract_text_from_bytes libs raw name = inr (text, [])
                /\ (forall s, Utf8.decode Utf8.Strict raw = inr s -> text = s)
                /\ ((exists e, Utf8.decode Utf8.Strict raw = inl e) ->
                    Utf8.decode Utf8.Ignore raw = inr text)
                /\ Utf8.encode text = inr kept /\ sublist kept raw
                /\ forall t,
                    do_work cfg w libs req t name raw
                    = (let fmt := field (preserve_format req) "markdown" in
                       let out_mime :=
                         snd (Parsers.choose_output_ext_and_mime fmt) in
                       let out_name :=
                         name ++ Py.lit ".translated"
                         ++ fst (Parsers.choose_output_ext_and_mime fmt) in
                       translated <-
                         await (Translator.translate t (completion_order w) text
                                  (target_lang req) (source_lang req) fmt) ;;
                       out_bytes <- of_sum (codec (Utf8.encode translated)) ;;
                       (if Py.truthy (output_url req)
                        then put_bytes cfg w (default [] (output_url req))
                               out_bytes out_mime
                        else ret tt) ;;;
                       ret (out_bytes, out_mime, out_name)))
          /\ (Py.str_eqb (field (return_mode req) "async") (Py.lit "async")
              = true ->
              translate_file cfg w libs env req
              = (trace (sourced cfg w req)
                 ++ [CreateTask
                       (do_work cfg w libs req (Translator.get_translator env)
                          name raw)],
                 Returned
                   (JSONResponse [(Py.lit "job_id", Py.str_of_Z (time_ms w));
                                  (Py.lit "status", Py.lit "queued")])))
          /\ (Py.str_eqb (field (return_mode req) "async") (Py.lit "async")
              = false ->
              translate_file cfg w libs env req
              = (trace (sourced cfg w req)
                 ++ trace (do_work cfg w libs req
                             (Translator.get_translator env) name raw),
                 match result (do_work cfg w libs req
                                 (Translator.get_translator env) name raw) with
                 | Returned (out_bytes, out_mime, out_name) =>
                     if Py.truthy (output_url req)
                     then Returned
                            (JSONResponse
                               [(Py.lit "status", Py.lit "succeeded");
                                (Py.lit "output_url",
                                 default [] (output_url req));
                                (Py.lit "filename", out_name);
                                (Py.lit "mime", out_mime)])
                     else result
                            (streaming_response out_bytes out_mime
                               [(Py.lit "Content-Disposition",
                                 Py.lit "attachment; filename=" ++ [quote]
                                 ++ out_name ++ [quote])])
                 | Raised e => Raised e
                 | Pending => Pending
                 end))).
Proof.
  assert (H415 : status_of (result (translate_file cfg w libs env req))
                 = Some 415%Z ->
                 ext_from_name (resolve_filename w (file req) (file_url req)) <> []
                 /\ Py.str_in
                      (ext_from_name (resolve_filename w (file req) (file_url req)))
                      ALLOWED_EXTS = false).
  { destruct (result (translate_file cfg w libs env req)) as [r|[c d| | |]|]
      eqn:Hr; try discriminate.
    cbn [status_of]. intros [= ->].
    apply translate_file_raised in Hr as [Hr|[[Hc|Hc] _]]; try discriminate.
    rewrite validate_result in Hr.
    destruct (result (ensure_auth cfg (authorization req))) as [[]|e|] eqn:Ha;
      try discriminate.
    - destruct (_ && _); [discriminate|]. cbv zeta in Hr.
      destruct (ext_from_name _) as [|c ext]; [discriminate|].
      split; [discriminate|].
      cbn [Py.truthy andb] in Hr. now destruct (Py.str_in _ _).
    - injection Hr as ->.
      apply ensure_auth_status in Ha as [[Hc _]|[Hc _]]; discriminate. }
  split; [exact H415|].
  intros Hdot. apply ext_from_name_empty in Hdot. split.
  - intros H. apply H415 in H as [Hne _]. contradiction.
  - intros name raw Hs. pose proof (sourced_name req name raw Hs) as Hname.
    split; [exact Hname|].
    rewrite <- Hname in Hdot.
    destruct (ParsersFacts.extract_falls_through libs raw name)
      as (text & Hx & Hd); [now rewrite Hdot..|].
    destruct (ParsersFacts.decode_text_kept raw text Hd)
      as (Hstrict & Hignore & kept & Hk & Hsub).
    split; [|split].
    + exists text, kept. rewrite Hdot in Hx.
      split; [exact Hx|]. split; [exact Hstrict|]. split; [exact Hignore|].
      split; [exact Hk|]. split; [exact Hsub|].
      intros t. now apply (do_work_on_text req t name raw text []).
    + intros Hm. now rewrite (translate_file_sourced req name raw Hs),
        (respond_async req name raw Hm).
    + intros Hm. rewrite (translate_file_sourced req name raw Hs).
      destruct (respond_sync req name raw Hm) as [-> ->]. reflexivity.
Qed.

(** C10, amended: for a request that supplies both an upload and a
    [file_url], (1) no GET is among the events; (2) the bytes that are
    sourced are those of the upload; (3) the document is named after the
    upload when the upload has a name, and after the last segment of the
    path of the URL otherwise; (4) once the request is authorized and its
    extension allowed, a URL that fails the host check rejects it with
    400, and one that passes it and whose probe reports a declared length
    above the ceiling rejects it with 413. *)
Theorem upload_takes_precedence (req : Request) (f : UploadFile) (url : str) :
  file req = Some f -> file_url req = Some url -> url <> [] ->
  (forall u, ~ In (Get u) (trace (translate_file cfg w libs env req)))
  /\ (forall name raw,
        result (sourced cfg w req) = Returned (name, raw) ->
        raw = content f /\ name = resolve_filename w (file req) (file_url req))
  /\ resolve_filename w (file req) (file_url req)
     = (if Py.truthy (filename f) then default [] (filename f)
        else List.last (Py.split (url_path w url) Py.slash) [])
  /\ (forall name,
        result (validate cfg w req) = Returned name ->
        (host_allowed cfg w url = false ->
         translate_file cfg w libs env req
         = ([], Raised (HTTPException 400 (Py.lit "URL host not allowed"))))
        /\ (host_allowed cfg w url = true ->
            forall declared etag ctype,
              result (head_info w url) = Returned (Some declared, etag, ctype) ->
              declared <> 0%Z -> (MAX_BYTES cfg < declared)%Z ->
              translate_file cfg w libs env req
              = ([Head url],
                 Raised (HTTPException 413 (Py.lit "File too large"))))).
Proof.
  intros Hfile Hurl Hne. split; [|split; [|split]].
  - intros u Hin. rewrite translate_file_trace, sourced_trace in Hin.
    apply in_app_or in Hin as [Hin|Hin].
    + destruct (result (validate cfg w req)); try contradiction.
      apply in_app_or in Hin as [Hin|Hin].
      * apply check_url_events in Hin as (url' & H & _). discriminate.
      * destruct (result (check_url cfg w req)); try contradiction.
        rewrite (read_source_upload req f Hfile) in Hin.
        destruct Hin as [H|[]]. discriminate.
    + destruct (result (sourced cfg w req)); try contradiction.
      apply respond_no_read in Hin as [(u' & d & c & H)|[(b & H)|(t & H)]];
        discriminate.
  - intros name raw Hs. rewrite sourced_result, validate_result in Hs.
    rewrite (read_source_upload req f Hfile) in Hs. cbn [result snd] in Hs.
    destruct (result (ensure_auth _ _)); try discriminate.
    destruct (_ && _); [discriminate|]. cbv zeta in Hs.
    destruct (_ && _); [discriminate|].
    destruct (result (check_url _ _ _)); try discriminate.
    destruct (_ >? _)%Z; [discriminate|].
    destruct (_ && _); [discriminate|]. injection Hs as <- <-. now split.
  - unfold resolve_filename. rewrite Hfile, Hurl.
    destruct url as [|c url]; [contradiction|]. reflexivity.
  - intros name Hv. split.
    + intros Hhost. eapply translate_file_stopped_at_probe; [exact Hv|].
      now apply (check_url_host_rejected req url).
    + intros Hhost declared etag ctype Hinfo Hnz Hgt.
      eapply translate_file_stopped_at_probe; [exact Hv|].
      now apply (check_url_too_large req url declared etag ctype).
Qed.

(** C6, amended: the upload of [hello.txt] holding [Hello world], with
    [target_lang] [vi], the [sync] mode, the pass-through backend, no
    [output_url] and the [preserve_format] field left out, so that its
    default [markdown] applies, is answered with the bytes [Hello world]
    as an attachment of media type [text/markdown] named
    [hello.txt.translated.md]; the read of the upload is the only
    event. *)
Theorem hello_upload_sync :
  API_KEY cfg = Py.lit "devkey" ->
  (11 <= MAX_BYTES cfg)%Z ->
  Translator.get_translator env = Translator.PassThroughTranslator ->
  translate_file cfg w libs env (Samples.hello_request None)
  = ([ReadUpload],
     Returned
       (StreamingResponse (Py.blit "Hello world") (Py.lit "text/markdown")
          [(Py.lit "Content-Disposition",
            Py.lit "attachment; filename=" ++ [quote]
            ++ Py.lit "hello.txt.translated.md" ++ [quote])])).
Proof.
  intros Hkey Hmax Htr.
  assert (Hlen : (Py.len (Py.blit "Hello world") >? MAX_BYTES cfg)%Z = false).
  { change (Py.len (Py.blit "Hello world")) with 11%Z.
    rewrite Z.gtb_ltb. apply Z.ltb_ge. exact Hmax. }
  unfold translate_file, sourced, validate, ensure_auth, check_url,
    read_source, respond, do_work.
  cbn [Samples.hello_request authorization file_url file content
         return_mode output_url preserve_format field].
  rewrite Hkey, Htr, Hlen.
  vm_compute. reflexivity.
Qed.

End Facts.

Import Samples.

(** C1 fails at a probe that is answered 403 and declares sixty million
    bytes, above the ceiling of fifty megabytes: the request is not
    rejected, the GET is issued and the document is translated. It fails
    as well at a GET answered 500 under a ceiling of four bytes: the nine
    bytes of the body are read, all at once, and the request is rejected
    with 400, not 413. And with a ceiling below zero a probe that declares
    a length of zero is let through and an empty body is returned. *)
Lemma error_probe_does_not_reject :
  (head_status (head denied_probe_world doc_url) = 403%Z
   /\ head_content_length (head denied_probe_world doc_url) = Length 60000000
   /\ (MAX_BYTES default_config < 60000000)%Z
   /\ translate_file default_config denied_probe_world no_libs dev_env url_request
      = ([Head doc_url; Get doc_url; ReadChunk (Py.blit "abc");
          ReadChunk (Py.blit "def"); ReadChunk (Py.blit "ghi")],
         Returned
           (StreamingResponse (Py.blit "abcdefghi") (Py.lit "text/markdown")
              [content_disposition "doc.txt.translated.md"])))
  /\ (get_status (get failing_world doc_url) = 500%Z
      /\ (MAX_BYTES tiny_config < Py.len (Py.blit "abcdefghi"))%Z
      /\ translate_file tiny_config failing_world no_libs dev_env url_request
         = ([Head doc_url; Get doc_url; ReadBody (Py.blit "abcdefghi")],
            Raised (HTTPException 400
                      (Py.lit "Failed to fetch file: 500 abcdefghi"))))
  /\ ((MAX_BYTES closed_config < 0)%Z
      /\ head_content_length (head empty_world doc_url) = Length 0
      /\ sourced closed_config empty_world url_request
         = ([Head doc_url; Get doc_url], Returned (Py.lit "doc.txt", []))).
Proof. repeat split. Qed.

Lemma size_ceiling_enforced_witness :
  (In (Head doc_url)
     (trace (translate_file default_config large_world no_libs dev_env
               url_request))
   /\ (head_status (head large_world doc_url) < 400)%Z
   /\ head_content_length (head large_world doc_url) = Length 60000000
   /\ 60000000%Z <> 0%Z
   /\ (MAX_BYTES default_config < 60000000)%Z
   /\ translate_file default_config large_world no_libs dev_env url_request
      = ([Head doc_url], Raised (HTTPException 413 (Py.lit "File too large"))))
  /\ (file url_request = None
      /\ file_url url_request = Some doc_url
      /\ doc_url <> []
      /\ result (validate tiny_config lying_world url_request)
         = Returned (Py.lit "doc.txt")
      /\ result (check_url tiny_config lying_world url_request) = Returned tt
      /\ get_status (get lying_world doc_url) = 200%Z
      /\ get_chunks (get lying_world doc_url)
         = [Py.blit "abc"] ++ Py.blit "def" :: [Py.blit "ghi"]
      /\ (Py.len (concat [Py.blit "abc"]) <= MAX_BYTES tiny_config
          < Py.len (concat [Py.blit "abc"]) + Py.len (Py.blit "def"))%Z
      /\ translate_file tiny_config lying_world no_libs dev_env url_request
         = (Head doc_url :: Get doc_url :: map ReadChunk [Py.blit "abc"]
              ++ [ReadChunk (Py.blit "def")],
            Raised (HTTPException 413 (Py.lit "File too large"))))
  /\ (result (sourced default_config small_world url_request)
      = Returned (Py.lit "doc.txt", Py.blit "abcdefghi")
      /\ (Py.blit "abcdefghi" = []
          \/ (Py.len (Py.blit "abcdefghi") <= MAX_BYTES default_config)%Z)).
Proof.
  assert (Hin : In (Head doc_url)
                  (trace (translate_file default_config large_world no_libs
                            dev_env url_request)))
    by (vm_compute; left; reflexivity).
  assert (Hstatus : (head_status (head large_world doc_url) < 400)%Z)
    by reflexivity.
  assert (Hlength : head_content_length (head large_world doc_url)
                    = Length 60000000) by reflexivity.
  assert (Hnz : 60000000%Z <> 0%Z) by discriminate.
  assert (Hgt : (MAX_BYTES default_config < 60000000)%Z) by reflexivity.
  assert (Hfile : file url_request = None) by reflexivity.
  assert (Hurl : file_url url_request = Some doc_url) by reflexivity.
  assert (Hne : doc_url <> []) by (vm_compute; discriminate).
  assert (Hv : result (validate tiny_config lying_world url_request)
               = Returned (Py.lit "doc.txt")) by reflexivity.
  assert (Hc : result (check_url tiny_config lying_world url_request)
               = Returned tt) by reflexivity.
  assert (Hget : get_status (get lying_world doc_url) = 200%Z) by reflexivity.
  assert (Hchunks : get_chunks (get lying_world doc_url)
                    = [Py.blit "abc"] ++ Py.blit "def" :: [Py.blit "ghi"])
    by reflexivity.
  assert (Hb : (Py.len (concat [Py.blit "abc"]) <= MAX_BYTES tiny_config
                < Py.len (concat [Py.blit "abc"]) + Py.len (Py.blit "def"))%Z)
    by (vm_compute; split; [discriminate | reflexivity]).
  assert (Hs : result (sourced default_config small_world url_request)
               = Returned (Py.lit "doc.txt", Py.blit "abcdefghi"))
    by reflexivity.
  split; [|split].
  - split; [exact Hin|]. split; [exact Hstatus|]. split; [exact Hlength|].
    split; [exact Hnz|]. split; [exact Hgt|].
    exact (proj1 (size_ceiling_enforced default_config large_world no_libs
                    dev_env url_request)
             doc_url 60000000%Z Hin Hstatus Hlength Hnz Hgt).
  - split; [exact Hfile|]. split; [exact Hurl|]. split; [exact Hne|].
    split; [exact Hv|]. split; [exact Hc|]. split; [exact Hget|].
    split; [exact Hchunks|]. split; [exact Hb|].
    exact (proj1 (proj2 (size_ceiling_enforced tiny_config lying_world no_libs
                           dev_env url_request))
             doc_url (Py.lit "doc.txt") [Py.blit "abc"] (Py.blit "def")
             [Py.blit "ghi"] Hfile Hurl Hne Hv Hc Hget Hchunks Hb).
  - split; [exact Hs|].
    exact (proj1 (proj2 (proj2 (size_ceiling_enforced default_config
                                  small_world no_libs dev_env url_request)))
             (Py.lit "doc.txt") (Py.blit "abcdefghi") Hfile Hs).
Defined.

(** C5 fails at a request that supplies both the upload and the URL: it
    is answered with the translation of the upload. *)
Lemma both_sources_accepted :
  file both_request = Some hello_upload
  /\ file_url both_request = Some doc_url
  /\ translate_file default_config small_world no_libs dev_env both_request
     = ([Head doc_url; ReadUpload],
        Returned
          (StreamingResponse (Py.blit "Hello world") (Py.lit "text/markdown")
             [content_disposition "hello.txt.translated.md"])).
Proof. repeat split. Qed.

Lemma missing_source_rejected_witness :
  (result (ensure_auth default_config (authorization empty_request))
   = Returned tt
   /\ Py.truthy (file_url empty_request) = false
   /\ file empty_request = None
   /\ translate_file default_config quiet_world no_libs dev_env empty_request
      = ([], Raised (HTTPException 400
                       (Py.lit "Provide file_url or multipart file"))))
  /\ (result (ensure_auth default_config (authorization both_request))
      = Returned tt
      /\ Py.truthy (file_url both_request) = true
      /\ file both_request = Some hello_upload
      /\ result (sourced default_config small_world both_request)
         = Returned (Py.lit "hello.txt", Py.blit "Hello world")
      /\ (forall u,
            ~ In (Get u)
                (trace (translate_file default_config small_world no_libs
                          dev_env both_request)))
      /\ Py.blit "Hello world" = content hello_upload).
Proof.
  assert (Hauth : result (ensure_auth default_config
                            (authorization empty_request)) = Returned tt)
    by reflexivity.
  assert (Hurl : Py.truthy (file_url empty_request) = false) by reflexivity.
  assert (Hfile : file empty_request = None) by reflexivity.
  assert (Hauth' : result (ensure_auth default_config
                             (authorization both_request)) = Returned tt)
    by reflexivity.
  assert (Hurl' : Py.truthy (file_url both_request) = true) by reflexivity.
  assert (Hfile' : file both_request = Some hello_upload) by reflexivity.
  assert (Hs : result (sourced default_config small_world both_request)
               = Returned (Py.lit "hello.txt", Py.blit "Hello world"))
    by reflexivity.
  split.
  - split; [exact Hauth|]. split; [exact Hurl|]. split; [exact Hfile|].
    exact (proj1 (missing_source_rejected default_config quiet_world no_libs
                    dev_env empty_request Hauth) Hurl Hfile).
  - split; [exact Hauth'|]. split; [exact Hurl'|]. split; [exact Hfile'|].
    split; [exact Hs|].
    destruct (proj2 (proj2 (missing_source_rejected default_config small_world
                              no_libs dev_env both_request Hauth'))
                hello_upload Hurl' Hfile') as [Hget Hraw].
    split; [exact Hget | exact (Hraw _ _ Hs)].
Defined.

(** C6 fails as stated: with the [preserve_format] field left out, the
    response to the upload of [hello.txt] has the media type
    [text/markdown] and the file name [hello.txt.translated.md], not
    [text/plain] and [hello.txt.translated.txt]. *)
Lemma hello_default_is_markdown :
  translate_file default_config quiet_world no_libs dev_env (hello_request None)
  = ([ReadUpload],
     Returned
       (StreamingResponse (Py.blit "Hello world") (Py.lit "text/markdown")
          [content_disposition "hello.txt.translated.md"]))
  /\ result (translate_file default_config quiet_world no_libs dev_env
               (hello_request None))
     <> Returned
          (StreamingResponse (Py.blit "Hello world") (Py.lit "text/plain")
             [content_disposition "hello.txt.translated.txt"]).
Proof. split; [reflexivity | vm_compute; discriminate]. Qed.

Lemma hello_upload_sync_witness :
  API_KEY default_config = Py.lit "devkey"
  /\ (11 <= MAX_BYTES default_config)%Z
  /\ Translator.get_translator dev_env = Translator.PassThroughTranslator
  /\ translate_file default_config quiet_world no_libs dev_env
       (hello_request None)
     = ([ReadUpload],
        Returned
          (StreamingResponse (Py.blit "Hello world") (Py.lit "text/markdown")
             [(Py.lit "Content-Disposition",
               Py.lit "attachment; filename=" ++ [quote]
               ++ Py.lit "hello.txt.translated.md" ++ [quote])])).
Proof.
  assert (Hkey : API_KEY default_config = Py.lit "devkey") by reflexivity.
  assert (Hmax : (11 <= MAX_BYTES default_config)%Z) by (vm_compute; discriminate).
  assert (Htr : Translator.get_translator dev_env
                = Translator.PassThroughTranslator) by reflexivity.
  split; [exact Hkey|]. split; [exact Hmax|]. split; [exact Htr|].
  exact (hello_upload_sync default_config quiet_world no_libs dev_env
           Hkey Hmax Htr).
Defined.

Lemma unsupported_type_needs_extension_witness :
  (status_of (result (translate_file default_config quiet_world no_libs dev_env
                        exe_request)) = Some 415%Z
   /\ ext_from_name (resolve_filename quiet_world (file exe_request)
                       (file_url exe_request)) <> []
   /\ Py.str_in (ext_from_name (resolve_filename quiet_world (file exe_request)
                                  (file_url exe_request)))
        ALLOWED_EXTS = false)
  /\ (~ In Py.dot (resolve_filename quiet_world (file readme_request)
                     (file_url readme_request))
      /\ status_of (result (translate_file default_config quiet_world no_libs
                              dev_env readme_request)) <> Some 415%Z
      /\ result (sourced default_config quiet_world readme_request)
         = Returned (Py.lit "README", Py.blit "Hello world")
      /\ (exists text kept,
            Parsers.extract_text_from_bytes no_libs (Py.blit "Hello world")
              (Py.lit "README") = inr (text, [])
            /\ (forall s,
                  Utf8.decode Utf8.Strict (Py.blit "Hello world") = inr s ->
                  text = s)
            /\ Utf8.encode text = inr kept
            /\ sublist kept (Py.blit "Hello world")
            /\ do_work default_config quiet_world no_libs readme_request
                 Translator.PassThroughTranslator (Py.lit "README")
                 (Py.blit "Hello world")
               = ([], Returned (kept, Py.lit "text/markdown",
                                Py.lit "README.translated.md")))
      /\ Py.str_eqb (field (return_mode readme_request) "async")
           (Py.lit "async") = false
      /\ translate_file default_config quiet_world no_libs dev_env
           readme_request
         = ([ReadUpload],
            Returned
              (StreamingResponse (Py.blit "Hello world")
                 (Py.lit "text/markdown")
                 [content_disposition "README.translated.md"]))).
Proof.
  assert (H415 : status_of (result (translate_file default_config quiet_world
                                      no_libs dev_env exe_request))
                 = Some 415%Z) by reflexivity.
  assert (Hdot : ~ In Py.dot (resolve_filename quiet_world (file readme_request)
                                (file_url readme_request)))
    by (vm_compute; intuition discriminate).
  assert (Hs : result (sourced default_config quiet_world readme_request)
               = Returned (Py.lit "README", Py.blit "Hello world"))
    by reflexivity.
  assert (Hm : Py.str_eqb (field (return_mode readme_request) "async")
                 (Py.lit "async") = false) by reflexivity.
  split.
  - split; [exact H415|].
    exact (proj1 (unsupported_type_needs_extension default_config quiet_world
                    no_libs dev_env exe_request) H415).
  - split; [exact Hdot|].
    destruct (proj2 (unsupported_type_needs_extension default_config
                       quiet_world no_libs dev_env readme_request) Hdot)
      as [Hstatus Hx].
    split; [exact Hstatus|]. split; [exact Hs|].
    destruct (Hx _ _ Hs)
      as (_ & (text & kept & Hext & Hstrict & _ & Hk & Hsub & Hwork) & _ & Hsync).
    split; [|split; [exact Hm|]].
    + exists text, kept. split; [exact Hext|]. split; [exact Hstrict|].
      split; [exact Hk|]. split; [exact Hsub|].
      rewrite (Hwork Translator.PassThroughTranslator).
      cbv zeta. cbn [Translator.translate Translator.passthrough_translate
                       await bind]. rewrite Hk. reflexivity.
    + rewrite (Hsync Hm). reflexivity.
Defined.

(** C10 fails at an upload without a name: the document is named after
    the last segment of the URL, [doc.txt], while its bytes are the (empty)
    content of the upload. *)
Lemma unnamed_upload_named_after_url :
  file unnamed_upload_request = Some {| filename := Some []; content := [] |}
  /\ file_url unnamed_upload_request = Some doc_url
  /\ sourced default_config small_world unnamed_upload_request
     = ([Head doc_url; ReadUpload], Returned (Py.lit "doc.txt", [])).
Proof. repeat split. Qed.

Lemma upload_takes_precedence_witness :
  file both_request = Some hello_upload
  /\ file_url both_request = Some doc_url
  /\ doc_url <> []
  /\ (forall u,
        ~ In (Get u)
            (trace (translate_file default_config large_world no_libs dev_env
                      both_request)))
  /\ resolve_filename large_world (file both_request) (file_url both_request)
     = Py.lit "hello.txt"
  /\ translate_file default_config large_world no_libs dev_env both_request
     = ([Head doc_url], Raised (HTTPException 413 (Py.lit "File too large"))).
Proof.
  assert (Hfile : file both_request = Some hello_upload) by reflexivity.
  assert (Hurl : file_url both_request = Some doc_url) by reflexivity.
  assert (Hne : doc_url <> []) by (vm_compute; discriminate).
  destruct (upload_takes_precedence default_config large_world no_libs dev_env
              both_request hello_upload doc_url Hfile Hurl Hne)
    as (Hget & Hraw & Hname & Hchecks).
  assert (Hv : result (validate default_config large_world both_request)
               = Returned (Py.lit "hello.txt")) by reflexivity.
  assert (Hhost : host_allowed default_config large_world doc_url = true)
    by reflexivity.
  assert (Hinfo : result (head_info large_world doc_url)
                  = Returned (Some 60000000%Z, None, None)) by reflexivity.
  split; [exact Hfile|]. split; [exact Hurl|]. split; [exact Hne|].
  split; [exact Hget|]. split; [exact Hname|].
  exact (proj2 (Hchecks _ Hv) Hhost 60000000%Z None None Hinfo
           ltac:(discriminate) ltac:(reflexivity)).
Defined.

End MainFacts.

(** * Further properties *)

(** ** The codec, from text to bytes and back *)
Module CodecProps.
Import Utf8 Utf8Facts.

Lemma to_N_byte_of_N (n : N) : (n < 256)%N -> Byte.to_N (byte_of_N n) = n.
Proof.
  intros Hn. unfold byte_of_N. destruct (Byte.of_N n) as [b|] eqn:E.
  - now apply Byte.to_of_N.
  - apply Byte.of_N_None_iff in E. lia.
Qed.

Ltac holds :=
  unfold second_of_3, second_of_4, is_continuation;
  repeat match goal with
         | |- (_ && _)%bool = true => apply andb_true_intro; split
         | |- negb _ = true => apply negb_true_iff
         | |- (_ <=? _)%N = true => apply N.leb_le; lia
         | |- (_ <? _)%N = true => apply N.ltb_lt; lia
         | |- ((?a =? ?b)%N && _)%bool = false =>
             destruct (N.eqb_spec a b); cbn [andb]; [|reflexivity]
         | |- (_ <? _)%N = false => apply N.ltb_ge; lia
         | |- (_ <=? _)%N = false => apply N.leb_gt; lia
         end.

Lemma is_surrogate_false (cp : N) :
  is_surrogate cp = false -> (cp < 0xD800 \/ 0xDFFF < cp)%N.
Proof. intros H. unfold is_surrogate in H. bounds; lia. Qed.

(** The quotient and the remainder of a division by 64, as lia can use
    them. *)
Lemma split64 (a : N) : exists q r, (a = q * 64 + r /\ r < 64 /\ a / 64 = q /\ a mod 64 = r)%N.
Proof.
  exists (a / 64)%N, (a mod 64)%N.
  pose proof (N.div_mod' a 64). pose proof (N.mod_lt a 64 ltac:(lia)). lia.
Qed.

Ltac digits a q r :=
  let H := fresh "H" in let Hr := fresh "H" in
  let Hq := fresh "H" in let Hm := fresh "H" in
  destruct (split64 a) as (q & r & H & Hr & Hq & Hm);
  rewrite ?Hq, ?Hm in *.

(** The decoder reads back a code point from its encoding, whatever
    follows. *)
Lemma step_encode_cp (cp : N) (bs rest : bytes) :
  encode_cp cp = Some bs -> step (bs ++ rest) = Char cp (length bs).
Proof.
  unfold encode_cp.
  destruct (N.ltb_spec cp 0x80) as [H1|H1].
  { intros [= <-]. cbn [app step length].
    rewrite to_N_byte_of_N by lia. now rewrite ltb_true by lia. }
  destruct (N.ltb_spec cp 0x800) as [H2|H2].
  { intros [= <-]. cbn [app step length]. digits cp q r.
    rewrite !to_N_byte_of_N by lia.
    rewrite !ltb_false, ltb_true by lia.
    replace (is_continuation (128 + r)) with true by (symmetry; holds).
    unfold cp2. f_equal. lia. }
  destruct (N.ltb_spec cp 0x10000) as [H3|H3].
  { destruct (is_surrogate cp) eqn:Hs; [discriminate|].
    intros [= <-]. cbn [app step length].
    rewrite div4096. digits cp q1 r. digits q1 q2 m1.
    apply is_surrogate_false in Hs.
    rewrite !to_N_byte_of_N by lia.
    rewrite !ltb_false, ltb_true by lia.
    replace (second_of_3 (224 + q2) (128 + m1)) with true by (symmetry; holds).
    replace (is_continuation (128 + r)) with true by (symmetry; holds).
    unfold cp3. f_equal. lia. }
  destruct (N.ltb_spec cp 0x110000) as [H4|H4]; [|discriminate].
  intros [= <-]. cbn [app step length].
  rewrite div262144, div4096. digits cp q1 r. digits q1 q2 m1. digits q2 q3 m2.
  rewrite !to_N_byte_of_N by lia.
  rewrite !ltb_false, ltb_true by lia.
  replace (second_of_4 (240 + q3) (128 + m2)) with true by (symmetry; holds).
  replace (is_continuation (128 + m1)) with true by (symmetry; holds).
  replace (is_continuation (128 + r)) with true by (symmetry; holds).
  unfold cp4. f_equal. lia.
Qed.

(** What [encode] produces decodes back to the text under every error
    handler. *)
Lemma decode_encode (h : errors) (s : str) (data : bytes) :
  encode s = inr data -> decode h data = inr s.
Proof.
  revert data. induction s as [|cp s IH]; intros data; cbn [encode].
  - now intros [= <-].
  - destruct (encode_cp cp) as [bs|] eqn:Hcp; [|discriminate].
    destruct (encode s) as [e|out]; [discriminate|].
    intros [= <-]. rewrite decode_step, (step_encode_cp _ _ _ Hcp).
    rewrite drop_app_length. now rewrite (IH out).
Qed.

(** X1: strict decoding and encoding are inverse to each other: the bytes
    [data] decode strictly to the text [s] exactly when [s] encodes to
    [data]. *)
Theorem utf8_round_trip (data : bytes) (s : str) :
  decode Strict data = inr s <-> encode s = inr data.
Proof.
  split; [apply decode_strict_encode | apply decode_encode].
Qed.

End CodecProps.

(** ** The chunker and the backends *)
Module TranslatorProps.
Import Translator TranslatorFacts.

Section Reassembly.

Context {A : Type}.
Implicit Types (text : list A) (n : Z) (m s : nat).

(** The first [s] characters of the windows of stride [s], put end to
    end, are the text up to the last offset. *)
Lemma concat_strides text s m :
  concat (map (fun k => take s (drop (k * s) text)) (seq 0 m))
  = take (m * s) text.
Proof.
  induction m as [|m IH]; [reflexivity|].
  rewrite seq_S, map_app, concat_app, IH. cbn [map concat Nat.add].
  rewrite app_nil_r, take_take_drop. f_equal. lia.
Qed.

(** X2: a text longer than a positive budget is recovered from its chunks
    by keeping of every chunk the characters up to the stride and putting
    them end to end. *)
Theorem chunks_reassemble text n (chunks : list (list A)) :
  (0 < n < Py.len text)%Z ->
  _chunks n text = Some chunks ->
  concat (map (take (Z.to_nat (stride n))) chunks) = text.
Proof.
  intros [Hn Hlen] Hrun. pose proof (stride_pos n Hn) as Hs.
  destruct (chunks_long text n) as (m & Hm & Hb); [lia|].
  rewrite Hrun in Hm. injection Hm as ->.
  rewrite map_map.
  rewrite (map_ext_in _ (fun k => take (Z.to_nat (stride n))
                                    (drop (k * Z.to_nat (stride n)) text))).
  - rewrite concat_strides. apply take_ge. unfold Py.len in *. nia.
  - intros k Hk. apply in_seq in Hk.
    rewrite window_inside by (try assumption; nia).
    rewrite take_take. f_equal. lia.
Qed.

(** X3: with a budget that is not positive the loop of the chunker never
    ends on a text that is not empty: no amount of fuel is enough. *)
Theorem chunks_never_end text n :
  (n <= 0)%Z -> text <> [] ->
  (forall fuel, chunks_loop fuel n (overlap_of n) text 0 [] = None)
  /\ _chunks n text = None.
Proof.
  intros Hn Htext.
  assert (Hlen : (0 < Py.len text)%Z)
    by (destruct text; [contradiction | unfold Py.len; cbn; lia]).
  assert (Hstep : (n - overlap_of n <= 0)%Z)
    by (unfold overlap_of; Z.quot_rem_to_equations; lia).
  assert (Hloop : forall fuel i acc,
             (i <= 0)%Z -> chunks_loop fuel n (overlap_of n) text i acc = None).
  { induction fuel as [|fuel IH]; intros i acc Hi; [reflexivity|].
    cbn [chunks_loop]. rewrite (proj2 (Z.ltb_lt _ _)) by lia.
    apply IH. lia. }
  split; [intros fuel; now apply Hloop|].
  unfold _chunks. rewrite (proj2 (Z.leb_gt _ _)) by lia. now apply Hloop.
Qed.

End Reassembly.

Section GatherSound.

Context {T : Type}.
Implicit Types (tasks : list (exn + T)) (order : list nat)
  (slots : list (option T)).

Lemma collect_inv slots (vs : list T) :
  collect slots = Some vs -> slots = map Some vs.
Proof.
  revert vs. induction slots as [|[v|] slots IH]; intros vs; cbn [collect].
  - now intros [= <-].
  - destruct (collect slots) as [vs'|]; [|discriminate].
    intros [= <-]. cbn [map]. f_equal. now apply IH.
  - discriminate.
Qed.

(** A slot is filled only with the value of its own task, and only once
    that task has completed. *)
Lemma gather_run_sound tasks order : forall slots slots',
  gather_run tasks order slots = inr slots' ->
  length slots' = length slots
  /\ forall i v, slots' !! i = Some (Some v) ->
       slots !! i = Some (Some v)
       \/ (tasks !! i = Some (inr v) /\ In i order).
Proof.
  induction order as [|j order IH]; intros slots slots'; cbn [gather_run].
  - intros [= <-]. split; [reflexivity|]. intros i v H. now left.
  - destruct (tasks !! j) as [[e|v']|] eqn:Hj; [discriminate| |].
    + intros Hrun. apply IH in Hrun as [Hlen Hs].
      rewrite length_insert in Hlen. split; [exact Hlen|].
      intros i v Hi. destruct (Hs i v Hi) as [Hin|[Ht Hin]].
      * destruct (decide (j = i)) as [->|Hne].
        -- right. split; [|now left].
           apply list_lookup_insert_Some in Hin as [(_ & [= <-] & _)|[Hc _]];
             [exact Hj | contradiction].
        -- left. now rewrite list_lookup_insert_ne in Hin.
      * right. split; [exact Ht | now right].
    + intros Hrun. apply IH in Hrun as [Hlen Hs]. split; [exact Hlen|].
      intros i v Hi. destruct (Hs i v Hi) as [Hin|[Ht Hin]];
        [now left | right; split; [exact Ht | now right]].
Qed.

(** [gather] returns only when every task has completed with a value,
    and then with the values of the tasks in their order. *)
Lemma gather_returned tasks order (vs : list T) :
  gather tasks order = Returned vs ->
  tasks = map inr vs /\ forall i, i < length tasks -> In i order.
Proof.
  unfold gather.
  destruct (gather_run tasks order (replicate (length tasks) None))
    as [e|slots'] eqn:Hrun; [discriminate|].
  destruct (collect slots') as [vs'|] eqn:Hc; [|discriminate].
  intros [= <-]. apply collect_inv in Hc as ->.
  apply gather_run_sound in Hrun as [Hlen Hs].
  rewrite length_map, length_replicate in Hlen.
  assert (Hfilled : forall i v, vs' !! i = Some v ->
                      tasks !! i = Some (inr v) /\ In i order).
  { intros i v Hi.
    destruct (Hs i v) as [Hrep|H]; [now rewrite list_lookup_fmap, Hi | | exact H].
    apply lookup_replicate in Hrep as [[=] _]. }
  split.
  - apply list_eq. intros i. rewrite list_lookup_fmap.
    destruct (vs' !! i) as [v|] eqn:Hi; cbn.
    + now apply Hfilled.
    + apply lookup_ge_None. apply lookup_ge_None in Hi. lia.
  - intros i Hi. destruct (vs' !! i) as [v|] eqn:Hv.
    + now apply (Hfilled i v).
    + apply lookup_ge_None in Hv. lia.
Qed.

End GatherSound.

(** When every coroutine handed to [gather] has returned, every
    invocation of the model has answered with a payload, and what the
    coroutine returned is what [_invoke] makes of that payload. *)
Lemma invocations_returned (self : Bedrock)
    (system target_lang preserve_format : str) :
  forall (chunks : list str) (start : Z) (vs : list str),
    map (fun '(idx, chunk) =>
           _ainvoke self
             (prompt_of system target_lang preserve_format idx chunk))
        (enumerate start chunks)
    = map inr vs ->
    exists payloads,
      vs = map completion_or_printed payloads
      /\ length payloads = length chunks
      /\ forall k chunk,
          chunks !! k = Some chunk ->
          exists payload,
            payloads !! k = Some payload
            /\ invoke_model self
                 (prompt_of system target_lang preserve_format
                    (start + Z.of_nat k) chunk)
               = inr payload.
Proof.
  induction chunks as [|chunk chunks IH]; intros start vs H.
  - destruct vs; [|discriminate]. exists []. split; [reflexivity|].
    split; [reflexivity|]. intros k c Hk. now rewrite lookup_nil in Hk.
  - destruct vs as [|v vs]; [discriminate|]. cbn [enumerate map] in H.
    injection H as Hv Hrest.
    apply IH in Hrest as (payloads & -> & Hlen & Hall).
    unfold _ainvoke, _invoke, foreign in Hv.
    destruct (invoke_model self _) as [msg|payload] eqn:Hp; [discriminate|].
    injection Hv as <-.
    exists (payload :: payloads). split; [reflexivity|].
    split; [cbn [length]; now rewrite Hlen|].
    intros [|k] c Hk.
    + injection Hk as <-. exists payload. split; [reflexivity|].
      now rewrite Z.add_0_r.
    + destruct (Hall k c Hk) as (pl & Hl & Hi). exists pl.
      split; [exact Hl|]. rewrite <- Hi. do 2 f_equal. lia.
Qed.

(** X4: the LLM-backed [translate] returns only once the chunking has
    ended and every invocation of the model, one per chunk, has answered
    with a payload: none has raised and none is outstanding. The text
    returned is the newline-join, in the order of the chunks, of what
    [_invoke] makes of each payload: its completion when it has one, and
    otherwise the whole payload as printed, which is passed on in the
    place of a translation. *)
Theorem translate_returns_all_replies
    (self : Bedrock) (order : list nat) (text target_lang : str)
    (source_lang : option str) (preserve_format : str) (out : str) :
  translate (BedrockSeaLionTranslator self) order text target_lang source_lang
    preserve_format = Returned out ->
  exists chunks payloads,
    _chunks (chunk_chars self) text = Some chunks
    /\ length payloads = length chunks
    /\ (forall k chunk,
          chunks !! k = Some chunk ->
          exists payload,
            payloads !! k = Some payload
            /\ invoke_model self
                 (prompt_of (system_of source_lang) target_lang preserve_format
                    (Z.of_nat k + 1) chunk)
               = inr payload)
    /\ (forall i, i < length chunks -> In i order)
    /\ out = Py.join [Py.newline]
               (map (fun payload =>
                       match completion payload with
                       | Some text => text
                       | None => printed payload
                       end)
                    payloads).
Proof.
  cbn [translate]. unfold bedrock_translate.
  destruct (_chunks (chunk_chars self) text) as [chunks|]; [|discriminate].
  destruct (gather _ order) as [vs|e|] eqn:Hg; try discriminate.
  intros [= <-]. apply gather_returned in Hg as [Htasks Hall].
  assert (Hlen : length (tasks_of self chunks target_lang source_lang
                           preserve_format) = length chunks)
    by (unfold tasks_of; now rewrite length_map, enumerate_length).
  unfold tasks_of in Htasks.
  apply invocations_returned in Htasks as (payloads & -> & Hl & Hp).
  exists chunks, payloads. split; [reflexivity|]. split; [exact Hl|].
  split; [|split; [|reflexivity]].
  - intros k chunk Hk. destruct (Hp k chunk Hk) as (payload & Hpk & Hi).
    exists payload. split; [exact Hpk|]. now rewrite Z.add_comm.
  - intros i Hi. apply Hall. now rewrite Hlen.
Qed.

Lemma translate_returns_all_replies_witness :
  translate (BedrockSeaLionTranslator Samples.throttled_bedrock) [1; 0]
    (Py.lit "hello w") (Py.lit "vi") None (Py.lit "markdown")
  = Returned (Py.lit "{'message': 'Too many requests'}" ++ [Py.newline]
              ++ Py.lit "{'message': 'Too many requests'}")
  /\ exists chunks payloads,
      _chunks (chunk_chars Samples.throttled_bedrock) (Py.lit "hello w")
      = Some chunks
      /\ length payloads = length chunks
      /\ (forall i, i < length chunks -> In i [1; 0])
      /\ Py.lit "{'message': 'Too many requests'}" ++ [Py.newline]
         ++ Py.lit "{'message': 'Too many requests'}"
         = Py.join [Py.newline]
             (map (fun payload =>
                     match completion payload with
                     | Some text => text
                     | None => printed payload
                     end)
                  payloads).
Proof.
  assert (H : translate (BedrockSeaLionTranslator Samples.throttled_bedrock)
                [1; 0] (Py.lit "hello w") (Py.lit "vi") None
                (Py.lit "markdown")
              = Returned (Py.lit "{'message': 'Too many requests'}"
                          ++ [Py.newline]
                          ++ Py.lit "{'message': 'Too many requests'}"))
    by (vm_compute; reflexivity).
  split; [exact H|].
  destruct (translate_returns_all_replies Samples.throttled_bedrock [1; 0]
              (Py.lit "hello w") (Py.lit "vi") None (Py.lit "markdown") _ H)
    as (chunks & payloads & Hc & Hl & _ & Ho & Hj).
  exists chunks, payloads. auto.
Defined.

Lemma enumerate_lookup {T} (xs : list T) : forall (start : Z) (k : nat),
  enumerate start xs !! k = (fun x => ((start + Z.of_nat k)%Z, x)) <$> xs !! k.
Proof.
  induction xs as [|x xs IH]; intros start k; [now destruct k|].
  destruct k as [|k]; cbn [enumerate lookup list_lookup].
  - cbn. now rewrite Z.add_0_r.
  - change ((x :: xs) !! S k) with (xs !! k).
    change (((start, x) :: enumerate (start + 1) xs) !! S k)
      with (enumerate (start + 1) xs !! k).
    rewrite IH. destruct (xs !! k); cbn; [|reflexivity].
    do 2 f_equal. lia.
Qed.

(** X5: the LLM-backed backend prepares one model invocation per chunk,
    in the order of the chunks, and the prompt of the chunk at position
    [k] carries the number [k + 1] and that chunk. *)
Theorem one_invocation_per_chunk
    (self : Bedrock) (chunks : list str) (target_lang : str)
    (source_lang : option str) (preserve_format : str) :
  length (tasks_of self chunks target_lang source_lang preserve_format)
  = length chunks
  /\ forall k,
      tasks_of self chunks target_lang source_lang preserve_format !! k
      = (fun chunk =>
           _invoke self
             (prompt_of (system_of source_lang) target_lang preserve_format
                (Z.of_nat k + 1) chunk)) <$> chunks !! k.
Proof.
  unfold tasks_of. split; [now rewrite length_map, enumerate_length|].
  intros k. rewrite list_lookup_fmap, enumerate_lookup.
  destruct (chunks !! k); cbn; [|reflexivity].
  unfold _ainvoke. do 3 f_equal. lia.
Qed.

(** X6: [get_translator] selects the LLM-backed backend exactly when the
    switch holds [1], [true] or [yes] in any case, [boto3] was imported, the
    region is not empty, the client could be made and the chunk budget is
    an integer; the backend then has that region, client and budget. In
    every other case it falls back to the pass-through backend. *)
Theorem get_translator_selects (env : Env) (self : Bedrock) :
  get_translator env = BedrockSeaLionTranslator self
  <-> Py.str_in (Py.lower (USE_BEDROCK env))
        [Py.lit "1"; Py.lit "true"; Py.lit "yes"] = true
      /\ AWS_REGION env <> []
      /\ exists make_client client n,
          boto3 env = Some make_client
          /\ make_client (AWS_REGION env) = inr client
          /\ CHUNK_CHARS env = Some n
          /\ self = {| region := AWS_REGION env;
                       model_id := BEDROCK_MODEL_ID env;
                       invoke_model := client;
                       chunk_chars := n |}.
Proof.
  unfold get_translator, bedrock_init, foreign. split.
  - destruct (Py.str_in _ _); [|discriminate].
    destruct (boto3 env) as [make_client|]; [|discriminate].
    destruct (AWS_REGION env) as [|c region] eqn:Hr; [discriminate|].
    destruct (make_client (c :: region)) as [msg|client] eqn:Hc; [discriminate|].
    destruct (CHUNK_CHARS env) as [n|]; [|discriminate].
    intros [= <-]. split; [reflexivity|]. split; [discriminate|].
    exists make_client, client, n. now rewrite Hc.
  - intros (-> & Hne & make_client & client & n & -> & Hc & -> & ->).
    rewrite Hc. destruct (AWS_REGION env); [contradiction | reflexivity].
Qed.

End TranslatorProps.

(** ** [util.py] *)
Module UtilProps.

Lemma rfind_from_absent (c : N) (s : str) : forall i last,
  ~ In c s -> Py.rfind_from c s i last = last.
Proof.
  induction s as [|x s IH]; intros i last Hno; cbn [Py.rfind_from];
    [reflexivity|].
  destruct (N.eqb_spec x c) as [->|Hne]; [now contradiction Hno; left|].
  apply IH. intros H. apply Hno. now right.
Qed.

(** [rfind] answers the position of the last occurrence. *)
Lemma rfind_from_last (c : N) (pre post : str) : forall i last,
  ~ In c post ->
  Py.rfind_from c (pre ++ c :: post) i last = (i + Py.len pre)%Z.
Proof.
  induction pre as [|x pre IH]; intros i last Hno; cbn [app Py.rfind_from].
  - rewrite N.eqb_refl, rfind_from_absent by assumption. unfold Py.len. cbn. lia.
  - rewrite IH by assumption. unfold Py.len. cbn [length]. lia.
Qed.

(** A string that holds [c] splits at the last occurrence of [c]. *)
Lemma split_at_last (c : N) (s : str) :
  In c s -> exists pre post, s = pre ++ c :: post /\ ~ In c post.
Proof.
  induction s as [|x s IH]; [contradiction|].
  destruct (in_dec N.eq_dec c s) as [Hin|Hno].
  - intros _. destruct (IH Hin) as (pre & post & -> & Hpost).
    now exists (x :: pre), post.
  - intros [->|Hin]; [|contradiction]. now exists [], s.
Qed.

Lemma ext_after_last_dot (stem suffix : str) :
  ~ In Py.dot suffix ->
  ext_from_name (stem ++ Py.dot :: suffix) = Py.dot :: Py.lower suffix.
Proof.
  intros Hno. unfold ext_from_name, Py.rfind.
  rewrite rfind_from_last by assumption.
  rewrite (proj2 (Z.eqb_neq _ _)) by (unfold Py.len; lia).
  unfold Py.slice_from, Py.len.
  rewrite Z.add_0_l, Nat2Z.id, drop_app_length. reflexivity.
Qed.

Lemma lower_dot (s : str) : In Py.dot (Py.lower s) <-> In Py.dot s.
Proof.
  unfold Py.lower. rewrite in_map_iff. split.
  - intros (c & Hc & Hin). unfold Py.lower_cp, Py.dot in *.
    destruct (_ && _) eqn:Hb; [|now subst].
    apply andb_true_iff in Hb as [H1 H2].
    apply N.leb_le in H1. lia.
  - intros Hin. exists Py.dot. split; [reflexivity | exact Hin].
Qed.

Lemma lower_lower (s : str) : Py.lower (Py.lower s) = Py.lower s.
Proof.
  unfold Py.lower. rewrite map_map. apply map_ext. intros c.
  unfold Py.lower_cp. destruct ((65 <=? c) && (c <=? 90))%N eqn:Hb;
    [|now rewrite Hb].
  apply andb_true_iff in Hb as [H1 H2].
  apply N.leb_le in H1. apply N.leb_le in H2.
  replace ((65 <=? c + 32) && (c + 32 <=? 90))%N with false; [reflexivity|].
  symmetry. apply andb_false_iff. right. apply N.leb_gt. lia.
Qed.

Lemma isascii_app (a b : str) :
  Py.isascii (a ++ b) = Py.isascii a && Py.isascii b.
Proof. unfold Py.isascii. apply forallb_app. Qed.

Lemma isascii_lower (s : str) : Py.isascii s = true -> Py.isascii (Py.lower s) = true.
Proof.
  unfold Py.isascii, Py.lower. rewrite !forallb_forall. intros H c Hc.
  apply in_map_iff in Hc as (c' & <- & Hc'). specialize (H c' Hc').
  apply N.ltb_lt in H. apply N.ltb_lt. unfold Py.lower_cp.
  destruct ((65 <=? c') && (c' <=? 90))%N eqn:Hb; [|exact H].
  apply andb_true_iff in Hb as [_ H2]. apply N.leb_le in H2. lia.
Qed.

(** X18: the extension of an ASCII name that holds a dot is the part of
    the name from its last dot on, in lower case: it begins with a dot,
    holds no other and is ASCII again. Taking the extension of an
    extension, or of the name in lower case, changes nothing, so that the
    tests on the extension do not depend on the case of the name. *)
Theorem ext_from_name_shape (name : str) :
  Py.isascii name = true ->
  In Py.dot name ->
  (exists stem suffix,
      name = stem ++ Py.dot :: suffix
      /\ ~ In Py.dot suffix
      /\ ext_from_name name = Py.dot :: Py.lower suffix
      /\ ~ In Py.dot (Py.lower suffix))
  /\ Py.isascii (ext_from_name name) = true
  /\ ext_from_name (ext_from_name name) = ext_from_name name
  /\ ext_from_name (Py.lower name) = ext_from_name name.
Proof.
  intros Hascii Hin.
  destruct (split_at_last Py.dot name Hin) as (stem & suffix & -> & Hno).
  assert (Hlow : ~ In Py.dot (Py.lower suffix)) by now rewrite lower_dot.
  rewrite ext_after_last_dot by assumption.
  split; [exists stem, suffix; auto|]. split; [|split].
  - rewrite isascii_app in Hascii. apply andb_true_iff in Hascii as [_ Hs].
    change (Py.dot :: suffix) with ([Py.dot] ++ suffix) in Hs.
    rewrite isascii_app in Hs. apply andb_true_iff in Hs as [_ Hs].
    change (Py.dot :: Py.lower suffix) with ([Py.dot] ++ Py.lower suffix).
    rewrite isascii_app, (isascii_lower suffix Hs). reflexivity.
  - pose proof (ext_after_last_dot [] (Py.lower suffix) Hlow) as E.
    cbn [app] in E. rewrite E. now rewrite lower_lower.
  - unfold Py.lower at 1. rewrite map_app. cbn [map].
    change (Py.lower_cp Py.dot) with Py.dot.
    fold (Py.lower stem). fold (Py.lower suffix).
    rewrite (ext_after_last_dot _ _ Hlow). now rewrite lower_lower.
Qed.

Lemma ext_from_name_shape_witness :
  Py.isascii (Py.lit "Report.final.PDF") = true
  /\ In Py.dot (Py.lit "Report.final.PDF")
  /\ (exists stem suffix,
        Py.lit "Report.final.PDF" = stem ++ Py.dot :: suffix
        /\ ~ In Py.dot suffix
        /\ ext_from_name (Py.lit "Report.final.PDF") = Py.dot :: Py.lower suffix
        /\ ~ In Py.dot (Py.lower suffix))
  /\ Py.isascii (ext_from_name (Py.lit "Report.final.PDF")) = true
  /\ ext_from_name (ext_from_name (Py.lit "Report.final.PDF"))
     = ext_from_name (Py.lit "Report.final.PDF")
  /\ ext_from_name (Py.lower (Py.lit "Report.final.PDF"))
     = ext_from_name (Py.lit "Report.final.PDF").
Proof.
  assert (Ha : Py.isascii (Py.lit "Report.final.PDF") = true) by reflexivity.
  assert (H : In Py.dot (Py.lit "Report.final.PDF"))
    by (vm_compute; intuition).
  split; [exact Ha|]. split; [exact H|].
  exact (ext_from_name_shape (Py.lit "Report.final.PDF") Ha H).
Defined.

End UtilProps.

(** ** The request handler *)
Module HandlerProps.
Import Main MainFacts Samples.

Lemma startswith_prefix (s p : str) :
  Py.startswith s p = true <-> exists rest, s = p ++ rest.
Proof.
  revert s. induction p as [|y p IH]; intros s; cbn [Py.startswith].
  - split; [intros _; now exists s | intros _; now destruct s].
  - destruct s as [|x s].
    + split; [discriminate | intros [rest H]; discriminate].
    + cbn [Py.startswith]. rewrite andb_true_iff, N.eqb_eq, IH. split.
      * intros [-> [rest ->]]. now exists rest.
      * intros [rest [= -> ->]]. eauto.
Qed.

Section Props.

Variable cfg : Config.
Variable w : World.
Variable libs : Parsers.Libs.
Variable env : Translator.Env.

(** *** The bearer token *)

Lemma ensure_auth_bearer (rest : str) :
  ensure_auth cfg (Some (Py.lit "Bearer " ++ rest))
  = if Py.str_eqb rest (API_KEY cfg) then ([], Returned tt)
    else ([], Raised (HTTPException 403 (Py.lit "Invalid token"))).
Proof.
  unfold ensure_auth.
  replace (Py.startswith (Py.lit "Bearer " ++ rest) (Py.lit "Bearer "))
    with true by (symmetry; apply startswith_prefix; eauto).
  change (Py.split1 (Py.lit "Bearer " ++ rest) Py.space)
    with [Py.lit "Bearer"; rest].
  cbn. now destruct (Py.str_eqb rest (API_KEY cfg)).
Qed.

Lemma ensure_auth_other (h : option str) :
  (forall rest, h <> Some (Py.lit "Bearer " ++ rest)) ->
  ensure_auth cfg h
  = ([], Raised (HTTPException 401 (Py.lit "Missing bearer token"))).
Proof.
  intros Hno. unfold ensure_auth. destruct h as [h|]; [|reflexivity].
  destruct (Py.startswith h (Py.lit "Bearer ")) eqn:Hs.
  - apply startswith_prefix in Hs as [rest ->]. now contradiction (Hno rest).
  - now rewrite andb_false_r.
Qed.

(** X7: [ensure_auth] lets through exactly the header made of [Bearer],
    one space and the configured key; a header that begins with [Bearer]
    and a space and goes on with anything else is answered 403, and every
    other header, or none, is answered 401. It raises nothing else. *)
Theorem ensure_auth_decides (h : option str) :
  (ensure_auth cfg h = ([], Returned tt)
   <-> h = Some (Py.lit "Bearer " ++ API_KEY cfg))
  /\ (ensure_auth cfg h
      = ([], Raised (HTTPException 403 (Py.lit "Invalid token")))
      <-> exists rest, h = Some (Py.lit "Bearer " ++ rest) /\ rest <> API_KEY cfg)
  /\ (ensure_auth cfg h
      = ([], Raised (HTTPException 401 (Py.lit "Missing bearer token")))
      <-> forall rest, h <> Some (Py.lit "Bearer " ++ rest)).
Proof.
  assert (Hcases : (exists rest, h = Some (Py.lit "Bearer " ++ rest))
                   \/ forall rest, h <> Some (Py.lit "Bearer " ++ rest)).
  { destruct h as [h|]; [|right; discriminate].
    destruct (Py.startswith h (Py.lit "Bearer ")) eqn:Hs.
    - apply startswith_prefix in Hs as [rest ->]. left. eauto.
    - right. intros rest Heq.
      assert (E : h = Py.lit "Bearer " ++ rest) by congruence.
      assert (Py.startswith h (Py.lit "Bearer ") = true)
        by (apply startswith_prefix; eauto).
      congruence. }
  destruct Hcases as [[rest ->]|Hno].
  - rewrite ensure_auth_bearer.
    destruct (Py.str_eqb rest (API_KEY cfg)) eqn:He.
    + apply PyFacts.str_eqb_eq in He as ->.
      split; [|split]; split; try discriminate; try reflexivity.
      * intros (rest & [= H] & Hne). congruence.
      * intros H. now contradiction (H (API_KEY cfg)).
    + apply PyFacts.str_eqb_neq in He.
      split; [|split]; split; try discriminate; try reflexivity.
      * intros [= H]. congruence.
      * intros _. eauto.
      * intros H. now contradiction (H rest).
  - rewrite (ensure_auth_other h Hno).
    split; [|split]; split; try discriminate; try reflexivity.
    + intros ->. now contradiction (Hno (API_KEY cfg)).
    + intros (rest & -> & _). now contradiction (Hno rest).
    + intros _. exact Hno.
Qed.

(** *** Validation comes before any I/O *)

Lemma validate_stops (req : Request) (e : exn) :
  result (validate cfg w req) = Raised e ->
  translate_file cfg w libs env req = ([], Raised e).
Proof.
  intros Hv.
  pose proof (translate_file_trace cfg w libs env req) as Ht.
  assert (Hr : result (translate_file cfg w libs env req) = Raised e).
  { unfold translate_file. now rewrite result_bind, sourced_result, Hv. }
  rewrite sourced_trace, sourced_result, Hv in Ht. cbn in Ht.
  unfold trace, result in *. destruct (translate_file cfg w libs env req).
  cbn in *. now subst.
Qed.

(** X8: a request that fails the bearer check is rejected with what
    [ensure_auth] raises and causes no event at all: no probe, no fetch,
    no read of the upload, no task, whatever its other fields are. *)
Theorem unauthorized_rejected_first (req : Request) (e : exn) :
  result (ensure_auth cfg (authorization req)) = Raised e ->
  translate_file cfg w libs env req = ([], Raised e).
Proof.
  intros Ha. apply validate_stops. now rewrite validate_result, Ha.
Qed.

(** X9: an authorized request with a source whose document name has an
    extension that is not empty and not in the allow-list is rejected
    with 415 and causes no event at all; when the name is ASCII, the
    message names the part of the name from its last dot on, in lower
    case. *)
Theorem unsupported_extension_rejected (req : Request) :
  result (ensure_auth cfg (authorization req)) = Returned tt ->
  Py.truthy (file_url req) = true \/ file req <> None ->
  ext_from_name (resolve_filename w (file req) (file_url req)) <> [] ->
  Py.str_in (ext_from_name (resolve_filename w (file req) (file_url req)))
    ALLOWED_EXTS = false ->
  exists detail,
    translate_file cfg w libs env req
    = ([], Raised (HTTPException 415 detail))
    /\ (Py.isascii (resolve_filename w (file req) (file_url req)) = true ->
        exists stem suffix,
          resolve_filename w (file req) (file_url req)
          = stem ++ Py.dot :: suffix
          /\ ~ In Py.dot suffix
          /\ detail
             = Py.lit "Unsupported file type: " ++ Py.dot :: Py.lower suffix).
Proof.
  intros Ha Hsrc Hext Hin.
  exists (Py.lit "Unsupported file type: "
          ++ ext_from_name (resolve_filename w (file req) (file_url req))).
  split.
  - apply validate_stops. rewrite validate_result, Ha.
    replace (negb (Py.truthy (file_url req)) && negb (Py.not_none (file req)))
      with false
      by (destruct Hsrc as [->|Hf]; [reflexivity|];
          destruct (file req); [now rewrite andb_false_r | contradiction]).
    cbv zeta. rewrite Hin.
    destruct (ext_from_name _); [contradiction | reflexivity].
  - intros _.
    assert (Hdot : In Py.dot (resolve_filename w (file req) (file_url req))).
    { destruct (in_dec N.eq_dec Py.dot
                  (resolve_filename w (file req) (file_url req)))
        as [H|H]; [exact H|].
      now apply ext_from_name_empty in H. }
    destruct (UtilProps.split_at_last Py.dot _ Hdot)
      as (stem & suffix & Hname & Hno).
    exists stem, suffix. split; [exact Hname|]. split; [exact Hno|].
    now rewrite Hname, UtilProps.ext_after_last_dot.
Qed.

(** *** The gateway *)

(** A fetch whose body stays within the ceiling reads every chunk and
    keeps them all, in order. *)
Lemma read_chunks_all (max_bytes : Z) (stream : list bytes) :
  forall read chunks,
    (read + Py.len (concat stream) <= max_bytes)%Z ->
    read_chunks max_bytes read chunks stream
    = (map ReadChunk stream, Returned (chunks ++ stream)).
Proof.
  induction stream as [|chunk stream IH]; intros read chunks Hle.
  - cbn. now rewrite app_nil_r.
  - rewrite len_concat_cons in Hle. pose proof (len_nonneg (concat stream)).
    cbn [read_chunks map].
    destruct (Z.gtb_spec (read + Py.len chunk) max_bytes) as [Hc|Hc]; [lia|].
    rewrite IH by lia. cbn. now rewrite <- app_assoc.
Qed.

(** X10: on an allowed host, [fetch_bytes] returns the whole body, having
    read every chunk in order, when the answer is 200 and the body stays
    within the ceiling; on any other status it reads the whole body of
    the answer at once, whatever its length and the ceiling, and raises
    400 with the status and the text of that body, or the error of
    decoding that text. *)
Theorem fetch_bytes_whole_or_refused (url : str) (max_bytes : Z) :
  host_allowed cfg w url = true ->
  (get_status (get w url) = 200%Z ->
   (Py.len (concat (get_chunks (get w url))) <= max_bytes)%Z ->
   fetch_bytes cfg w url max_bytes
   = (Get url :: map ReadChunk (get_chunks (get w url)),
      Returned (concat (get_chunks (get w url)))))
  /\ (get_status (get w url) <> 200%Z ->
      fetch_bytes cfg w url max_bytes
      = ([Get url; ReadBody (concat (get_chunks (get w url)))],
         match get_text (get w url) with
         | inr text =>
             Raised (HTTPException 400
                       (Py.lit "Failed to fetch file: "
                        ++ Py.str_of_Z (get_status (get w url))
                        ++ Py.lit " " ++ text))
         | inl e => Raised (UnicodeError e)
         end)).
Proof.
  intros Hhost. unfold fetch_bytes. rewrite Hhost. cbn [negb]. split.
  - intros -> Hle. cbn [Z.eqb Pos.eqb negb].
    rewrite read_chunks_all by lia. cbn [bind perform ret app].
    now rewrite app_nil_r.
  - intros Hne. rewrite (proj2 (Z.eqb_neq _ _) Hne). cbn [negb].
    now destruct (get_text (get w url)).
Qed.

(** X11: for a request with a URL, [check_url] lets the request through
    exactly when the host is allowed and the probe is answered with an
    error status, or without a length, or with the length 0, or with a
    length within the ceiling: a probe that fails never rejects. *)
Theorem probe_lets_through (req : Request) (url : str) :
  file_url req = Some url -> url <> [] ->
  (result (check_url cfg w req) = Returned tt
   <-> host_allowed cfg w url = true
       /\ ((400 <= head_status (head w url))%Z
           \/ head_content_length (head w url) = NoLength
           \/ exists z, head_content_length (head w url) = Length z
                        /\ (z = 0 \/ z <= MAX_BYTES cfg)%Z)).
Proof.
  intros Hurl Hne.
  destruct (host_allowed cfg w url) eqn:Hhost.
  - destruct (check_url_probe cfg w req url Hurl Hne Hhost) as [_ ->].
    unfold head_info. rewrite result_bind. cbn [perform result snd].
    destruct (Z.geb_spec (head_status (head w url)) 400) as [Hs|Hs];
      cbn [ret result snd fst Py.truthy_int andb].
    + split; [intros _; split; [reflexivity | left; lia] | reflexivity].
    + destruct (head_content_length (head w url)) as [|z|];
        cbn [ret raise result snd fst Py.truthy_int andb from_option id].
      * split; [intros _; split; [reflexivity | right; now left] | reflexivity].
      * destruct (Z.eqb_spec z 0) as [->|Hz]; cbn [negb andb].
        -- split; [|reflexivity]. intros _. split; [reflexivity|].
           right. right. exists 0%Z. split; [reflexivity | now left].
        -- destruct (Z.gtb_spec z (MAX_BYTES cfg)) as [Hgt|Hle].
           ++ split; [discriminate|].
              intros [_ [H|[H|(z' & [= <-] & [H|H])]]]; try discriminate; lia.
           ++ split; [|reflexivity]. intros _. split; [reflexivity|].
              right. right. exists z. split; [reflexivity | now right].
      * split; [discriminate|].
        intros [_ [H|[H|(z' & H & _)]]]; try discriminate; lia.
  - rewrite (check_url_host_rejected cfg w req url Hurl Hne Hhost).
    split; [discriminate | intros [H _]; discriminate].
Qed.

(** *** No URL outside the allow-list is requested *)

Local Abbreviation allowed :=
  (fun ev => forall u, In u (requested ev) -> host_allowed cfg w u = true).

Lemma allowed_bind {A B} (m : M A) (k : A -> M B) :
  Forall allowed (trace m) ->
  (forall a, result m = Returned a -> Forall allowed (trace (k a))) ->
  Forall allowed (trace (bind m k)).
Proof.
  intros Hm Hk. rewrite trace_bind. apply Forall_app_2; [exact Hm|].
  destruct (result m) as [a|e|]; [now apply Hk | constructor..].
Qed.

Lemma fetch_bytes_allowed (url : str) (max_bytes : Z) :
  Forall allowed (trace (fetch_bytes cfg w url max_bytes)).
Proof.
  pose proof (fetch_bytes_events cfg w url max_bytes) as Hev.
  unfold fetch_bytes in *. destruct (host_allowed cfg w url) eqn:Hhost;
    cbn [negb] in *; [|constructor].
  eapply Forall_impl; [exact Hev|].
  intros ev [->|[[c ->]|[b ->]]] u; cbn;
    [intros [<-|[]]; exact Hhost | contradiction..].
Qed.

Lemma put_bytes_allowed (url : str) (data : bytes) (ctype : str) :
  Forall allowed (trace (put_bytes cfg w url data ctype)).
Proof.
  unfold put_bytes. destruct (host_allowed cfg w url) eqn:Hhost;
    cbn [negb]; [|constructor].
  rewrite trace_bind. cbn [perform trace result fst snd app].
  constructor; [intros u [<-|[]]; exact Hhost|].
  destruct (_ || _); [constructor|].
  rewrite read_text_trace by reflexivity.
  constructor; [intros u [] | constructor].
Qed.

Lemma do_work_allowed (req : Request) (t : Translator.TranslatorBase)
    (name : str) (raw : bytes) :
  Forall allowed (trace (do_work cfg w libs req t name raw)).
Proof.
  unfold do_work. cbv zeta.
  apply allowed_bind; [rewrite of_sum_trace; constructor|]. intros extracted _.
  destruct (Parsers.choose_output_ext_and_mime _) as [out_ext out_mime].
  apply allowed_bind; [constructor|]. intros translated _.
  apply allowed_bind; [rewrite of_sum_trace; constructor|]. intros out_bytes _.
  apply allowed_bind; [|intros; constructor].
  destruct (Py.truthy (output_url req)); [apply put_bytes_allowed | constructor].
Qed.

(** X12: whatever the request, every URL that the handler hands to the
    HTTP client, for a HEAD, a GET or a PUT, in the request itself or in
    the task it leaves behind, has passed the host allow-list. Where the
    client goes from there is not covered: the GET and the PUT follow the
    redirects of the host they are sent to. *)
Theorem only_allowed_urls_requested (req : Request) (u : str) :
  In u (flat_map requested (trace (translate_file cfg w libs env req))) ->
  host_allowed cfg w u = true.
Proof.
  assert (Hall : Forall allowed (trace (translate_file cfg w libs env req))).
  { unfold translate_file. apply allowed_bind.
    - unfold sourced.
      apply allowed_bind; [rewrite validate_pure; constructor|].
      intros name _. apply allowed_bind.
      + apply List.Forall_forall. intros ev Hev v Hv.
        apply check_url_events in Hev as (url & -> & _ & _ & Hhost).
        destruct Hv as [<-|[]]. exact Hhost.
      + intros _ _. apply allowed_bind.
        * unfold read_source. destruct (file req) as [f|];
            [|apply fetch_bytes_allowed].
          rewrite trace_bind. cbn [perform trace result fst snd app].
          constructor; [intros v []|]. destruct (_ >? _)%Z; constructor.
        * intros raw _. destruct (_ && _); constructor.
    - intros [name raw] _. unfold respond. cbv zeta.
      destruct (Py.str_eqb _ _).
      + rewrite trace_bind. cbn [perform trace result fst snd app ret].
        constructor; [|constructor]. intros v Hv. cbn [requested] in Hv.
        pose proof (do_work_allowed req (Translator.get_translator env)
                      name raw) as Hw.
        destruct (do_work cfg w libs req (Translator.get_translator env)
                    name raw) as [events r].
        apply in_flat_map in Hv as (ev & Hev & Hv).
        cbn [trace fst] in Hw. rewrite List.Forall_forall in Hw.
        exact (Hw ev Hev v Hv).
      + apply allowed_bind; [apply do_work_allowed|].
        intros [[out_bytes out_mime] out_name] _.
        destruct (Py.truthy (output_url req));
          [constructor | rewrite streaming_response_trace; constructor]. }
  intros Hin. apply in_flat_map in Hin as (ev & Hev & Hu).
  rewrite List.Forall_forall in Hall. exact (Hall ev Hev u Hu).
Qed.

(** *** What a response guarantees about its source *)

(** X13: with a ceiling that is not negative, the bytes that [sourced]
    hands on, from the upload or from the URL, never exceed the ceiling. *)
Theorem sourced_within_ceiling (req : Request) (name : str) (raw : bytes) :
  (0 <= MAX_BYTES cfg)%Z ->
  result (sourced cfg w req) = Returned (name, raw) ->
  (Py.len raw <= MAX_BYTES cfg)%Z.
Proof.
  intros Hmax. rewrite sourced_result.
  destruct (result (validate cfg w req)); try discriminate.
  destruct (result (check_url cfg w req)); try discriminate.
  destruct (result (read_source cfg w req)) as [raw'|e|] eqn:Hr;
    try discriminate.
  destruct (_ && _); [discriminate|]. intros [= _ <-].
  unfold read_source in Hr. destruct (file req) as [f|].
  - rewrite result_bind in Hr. cbn [perform result snd] in Hr.
    destruct (Z.gtb_spec (Py.len (content f)) (MAX_BYTES cfg)) as [Hgt|Hle];
      [discriminate|].
    now injection Hr as <-.
  - now apply (fetch_bytes_returned cfg w _ _ _ Hmax Hr).
Qed.

(** X14: a request that declares a digest is answered, with a job or
    with a translation, only if the digest of the sourced bytes equals the
    declared digest in lower case. *)
Theorem answered_only_with_matching_digest
    (req : Request) (declared : str) (resp : Response) :
  integrity_sha256 req = Some declared -> declared <> [] ->
  result (translate_file cfg w libs env req) = Returned resp ->
  exists name raw,
    result (sourced cfg w req) = Returned (name, raw)
    /\ sha256_hexdigest w raw = Py.lower declared.
Proof.
  intros Hd Hne. unfold translate_file. rewrite result_bind.
  destruct (result (sourced cfg w req)) as [[name raw]|e|] eqn:Hs;
    try discriminate.
  intros _. exists name, raw. split; [reflexivity|].
  rewrite sourced_result in Hs.
  destruct (result (validate cfg w req)); try discriminate.
  destruct (result (check_url cfg w req)); try discriminate.
  destruct (result (read_source cfg w req)) as [raw'|e|]; try discriminate.
  rewrite Hd in Hs. destruct declared as [|c declared]; [contradiction|].
  cbn [Py.truthy andb from_option id] in Hs.
  destruct (Py.str_eqb (sha256_hexdigest w raw') _) eqn:He;
    [|discriminate].
  injection Hs as _ <-. now apply PyFacts.str_eqb_eq.
Qed.

(** *** The two return modes *)

(** X15: in the [async] mode, which is the default, a request whose
    source is accepted is answered at once with the job identifier made
    of the clock and the status [queued]; the work on the document is
    left to one created task, and nothing that this task does or raises
    changes the response. *)
Theorem async_answers_queued (req : Request) (name : str) (raw : bytes) :
  return_mode req = None \/ return_mode req = Some (Py.lit "async") ->
  result (sourced cfg w req) = Returned (name, raw) ->
  translate_file cfg w libs env req
  = (trace (sourced cfg w req)
     ++ [CreateTask (do_work cfg w libs req (Translator.get_translator env)
                       name raw)],
     Returned (JSONResponse [(Py.lit "job_id", Py.str_of_Z (time_ms w));
                             (Py.lit "status", Py.lit "queued")])).
Proof.
  intros Hmode Hs. unfold translate_file.
  destruct (sourced cfg w req) as [t r] eqn:Hsrc. cbn [result snd] in Hs.
  subst r. cbn [bind fst snd trace]. unfold respond. cbv zeta.
  replace (Py.str_eqb (field (return_mode req) "async") (Py.lit "async"))
    with true by (destruct Hmode as [->| ->]; reflexivity).
  reflexivity.
Qed.

Lemma put_bytes_returned (url : str) (data : bytes) (ctype : str) :
  result (put_bytes cfg w url data ctype) = Returned tt ->
  put_bytes cfg w url data ctype = ([Put url data ctype], Returned tt)
  /\ host_allowed cfg w url = true
  /\ (put_status (put w url data ctype) = 200
      \/ put_status (put w url data ctype) = 201
      \/ put_status (put w url data ctype) = 204)%Z.
Proof.
  unfold put_bytes. destruct (host_allowed cfg w url); cbn [negb];
    [|discriminate].
  rewrite result_bind. cbn [perform result snd]. cbv zeta.
  destruct (_ || _) eqn:Hs;
    [| rewrite result_bind; cbn [perform result snd]; rewrite result_bind;
       destruct (put_text _); discriminate].
  intros _. split; [reflexivity|]. split; [reflexivity|].
  apply orb_true_iff in Hs as [Hs|Hs]; [apply orb_true_iff in Hs as [Hs|Hs]|];
    apply Z.eqb_eq in Hs; auto.
Qed.

(** The outcome of [do_work] when it returns: the bytes encode the text
    that the backend returned for the extracted text, and they have been
    put to [output_url] if there is one. *)
Lemma do_work_returned (req : Request) (t : Translator.TranslatorBase)
    (name : str) (raw out : bytes) (mime out_name : str) :
  result (do_work cfg w libs req t name raw) = Returned (out, mime, out_name) ->
  (mime, out_name)
  = (snd (Parsers.choose_output_ext_and_mime
            (field (preserve_format req) "markdown")),
     name ++ Py.lit ".translated"
     ++ fst (Parsers.choose_output_ext_and_mime
               (field (preserve_format req) "markdown")))
  /\ (exists extracted translated,
        Parsers.extract_text_from_bytes libs raw name = inr extracted
        /\ Translator.translate t (completion_order w) (fst extracted)
             (target_lang req) (source_lang req)
             (field (preserve_format req) "markdown") = Returned translated
        /\ Utf8.encode translated = inr out)
  /\ trace (do_work cfg w libs req t name raw)
     = (if Py.truthy (output_url req)
        then [Put (default [] (output_url req)) out mime] else [])
  /\ (Py.truthy (output_url req) = true ->
      host_allowed cfg w (default [] (output_url req)) = true
      /\ (put_status (put w (default [] (output_url req)) out mime) = 200
          \/ put_status (put w (default [] (output_url req)) out mime) = 201
          \/ put_status (put w (default [] (output_url req)) out mime) = 204)%Z).
Proof.
  intros Hr. unfold do_work in *. cbv zeta in *.
  rewrite result_bind in Hr. rewrite trace_bind, of_sum_trace.
  destruct (Parsers.extract_text_from_bytes libs raw name)
    as [e|extracted] eqn:Hx; cbn [of_sum raise ret result snd] in *;
    [discriminate|].
  destruct (Parsers.choose_output_ext_and_mime _) as [out_ext out_mime].
  rewrite result_bind in Hr. rewrite trace_bind.
  cbn [await trace result fst snd] in *.
  destruct (Translator.translate t _ _ _ _ _) as [translated|e|] eqn:Ht;
    [|discriminate..].
  rewrite result_bind in Hr. rewrite trace_bind, of_sum_trace.
  destruct (Utf8.encode translated) as [e|out_bytes] eqn:He;
    cbn [of_sum raise ret result snd] in *; [discriminate|].
  rewrite result_bind in Hr. rewrite trace_bind. cbn [app].
  destruct (Py.truthy (output_url req)) eqn:Hu.
  - destruct (result (put_bytes _ _ _ _ _)) as [[]|e|] eqn:Hp;
      [|discriminate..].
    cbn [ret result snd] in Hr. injection Hr as <- <- <-.
    destruct (put_bytes_returned _ _ _ Hp) as (Hput & Hhost & Hstatus).
    rewrite Hput. cbn [trace ret fst app].
    split; [reflexivity|]. split; [eauto|].
    split; [reflexivity | auto].
  - cbn [ret result trace fst snd app] in *. injection Hr as <- <- <-.
    split; [reflexivity|]. split; [eauto|]. split; [reflexivity | discriminate].
Qed.



(** X17: with the pass-through backend and no [output_url], the work on
    a document whose name indicates neither PDF nor DOCX returns bytes
    that are a subsequence of the bytes of the document, and the very
    bytes of the document when these are well-formed UTF-8; it causes no
    event. *)
Theorem passthrough_returns_document (req : Request) (name : str) (raw : bytes) :
  ext_from_name name <> Parsers.pdf ->
  ext_from_name name <> Parsers.docx_ext ->
  Py.truthy (output_url req) = false ->
  exists out,
    do_work cfg w libs req Translator.PassThroughTranslator name raw
    = ([], Returned
             (out,
              snd (Parsers.choose_output_ext_and_mime
                     (field (preserve_format req) "markdown")),
              name ++ Py.lit ".translated"
              ++ fst (Parsers.choose_output_ext_and_mime
                        (field (preserve_format req) "markdown"))))
    /\ sublist out raw
    /\ (forall text, Utf8.decode Utf8.Strict raw = inr text -> out = raw).
Proof.
  intros Hp Hd Hu.
  apply (proj2 (PyFacts.str_eqb_neq _ _)) in Hp.
  apply (proj2 (PyFacts.str_eqb_neq _ _)) in Hd.
  destruct (ParsersFacts.extract_falls_through libs raw name)
    as (text & Hx & Ht); [now rewrite Hp | now rewrite Hd |].
  destruct (ParsersFacts.decode_text_kept raw text Ht)
    as (Hstrict & _ & kept & Hk & Hsub).
  exists kept. split; [|split; [exact Hsub|]].
  - unfold do_work. cbv zeta. rewrite Hx.
    destruct (Parsers.choose_output_ext_and_mime _) as [out_ext out_mime].
    cbn [of_sum ret bind fst snd Translator.translate
           Translator.passthrough_translate await app].
    rewrite Hk, Hu. reflexivity.
  - intros s Hs. specialize (Hstrict s Hs). subst s.
    apply Utf8Facts.decode_strict_encode in Hs. congruence.
Qed.

(** *** The form of the result *)

(** X22: the upload of the scenario is answered as [text/plain] under the
    name [hello.txt.translated.txt] when the [preserve_format] field is
    sent with a value that is not empty and is not [markdown]; sent empty,
    the field takes its default and the answer is the one in
    [text/markdown]. *)
Theorem hello_upload_plain (fmt : str) :
  API_KEY cfg = Py.lit "devkey" ->
  (11 <= MAX_BYTES cfg)%Z ->
  Translator.get_translator env = Translator.PassThroughTranslator ->
  (fmt <> [] -> fmt <> Py.lit "markdown" ->
   translate_file cfg w libs env (hello_request (Some fmt))
   = ([ReadUpload],
      Returned
        (StreamingResponse (Py.blit "Hello world") (Py.lit "text/plain")
           [content_disposition "hello.txt.translated.txt"])))
  /\ translate_file cfg w libs env (hello_request (Some []))
     = ([ReadUpload],
        Returned
          (StreamingResponse (Py.blit "Hello world") (Py.lit "text/markdown")
             [content_disposition "hello.txt.translated.md"])).
Proof.
  intros Hkey Hmax Htr.
  assert (Hlen : (Py.len (Py.blit "Hello world") >? MAX_BYTES cfg)%Z = false).
  { change (Py.len (Py.blit "Hello world")) with 11%Z.
    rewrite Z.gtb_ltb. apply Z.ltb_ge. exact Hmax. }
  split.
  - intros Hne Hfmt. destruct fmt as [|c fmt]; [contradiction|].
    apply PyFacts.str_eqb_neq in Hfmt.
    unfold translate_file, sourced, validate, ensure_auth, check_url,
      read_source, respond, do_work.
    cbn [hello_request authorization file_url file content
           return_mode output_url preserve_format field].
    rewrite Hkey, Htr, Hlen.
    unfold Parsers.choose_output_ext_and_mime. rewrite Hfmt.
    vm_compute. reflexivity.
  - unfold translate_file, sourced, validate, ensure_auth, check_url,
      read_source, respond, do_work.
    cbn [hello_request authorization file_url file content
           return_mode output_url preserve_format field].
    rewrite Hkey, Htr, Hlen.
    vm_compute. reflexivity.
Qed.

Lemma latin1_app (a b : str) : latin1 (a ++ b) = latin1 a && latin1 b.
Proof. unfold latin1. apply forallb_app. Qed.

(** X23: outside the [async] mode and without an [output_url], the
    handler returns no response to a request whose document name holds a
    character beyond latin-1: once the work on the document has returned,
    building the response with that name in its [Content-Disposition]
    header raises [UnicodeEncodeError]. *)
Theorem name_beyond_latin1_unanswered (req : Request) (name : str) (raw : bytes) :
  Py.str_eqb (field (return_mode req) "async") (Py.lit "async") = false ->
  Py.truthy (output_url req) = false ->
  result (sourced cfg w req) = Returned (name, raw) ->
  latin1 name = false ->
  (forall resp, result (translate_file cfg w libs env req) <> Returned resp)
  /\ (forall work,
        result (do_work cfg w libs req (Translator.get_translator env) name raw)
        = Returned work ->
        result (translate_file cfg w libs env req)
        = Raised (UnicodeError Utf8.UnicodeEncodeError)).
Proof.
  intros Hm Hu Hs Hname.
  rewrite (translate_file_sourced cfg w libs env req name raw Hs).
  cbn [result snd].
  destruct (respond_sync cfg w libs env req name raw Hm) as [_ ->].
  destruct (result (do_work _ _ _ _ _ _ _)) as [[[out mime] out_name]|e|] eqn:Hw.
  - destruct (do_work_returned _ _ _ _ _ _ _ Hw) as ([= _ ->] & _).
    rewrite Hu. unfold streaming_response.
    replace (latin1 mime && _) with false.
    + split; [discriminate | reflexivity].
    + cbn [forallb]. rewrite !latin1_app, Hname.
      now rewrite !andb_false_r.
  - split; discriminate.
  - split; discriminate.
Qed.

(** *** The statuses of the rejections *)

(** X19: whatever the request, when the handler rejects it over HTTP the
    status is 400, 401, 403, 413 or 415. *)
Theorem rejection_statuses (req : Request) (c : Z) :
  status_of (result (translate_file cfg w libs env req)) = Some c ->
  (c = 400 \/ c = 401 \/ c = 403 \/ c = 413 \/ c = 415)%Z.
Proof.
  destruct (result (translate_file cfg w libs env req)) as [r|[c' d| | |]|]
    eqn:Hr; try discriminate.
  cbn [status_of]. intros [= ->].
  apply translate_file_raised in Hr as [Hr|[[->| ->] _]]; auto.
  rewrite validate_result in Hr.
  destruct (result (ensure_auth cfg (authorization req))) as [[]|e|] eqn:Ha;
    try discriminate.
  - destruct (_ && _); [injection Hr as <- _; auto|]. cbv zeta in Hr.
    destruct (_ && _); [injection Hr as <- _; auto 6 | discriminate].
  - injection Hr as ->.
    apply ensure_auth_status in Ha as [[-> _]|[-> _]]; auto.
Qed.

End Props.

End HandlerProps.

(** ** [parsers.py] and the name of the document *)
Module SourceProps.
Import Parsers Main.

(** X20: the extraction either returns a text together with the
    extension of the name, or fails with an exception raised inside a
    parsing library; the latter happens only for a [.pdf] name with
    PyMuPDF at hand or a [.docx] name with python-docx at hand. *)
Theorem extract_outcome (libs : Libs) (data : bytes) (name : str) :
  (exists text,
      extract_text_from_bytes libs data name = inr (text, ext_from_name name))
  \/ (exists msg,
        extract_text_from_bytes libs data name = inl (ForeignError msg)
        /\ ((ext_from_name name = pdf /\ fitz libs <> None)
            \/ (ext_from_name name = docx_ext /\ docx libs <> None))).
Proof.
  unfold extract_text_from_bytes. cbv zeta.
  destruct (Py.str_eqb (ext_from_name name) pdf) eqn:Hp.
  - apply PyFacts.str_eqb_eq in Hp. destruct (fitz libs) as [open_pdf|] eqn:Hf.
    + unfold foreign. destruct (open_pdf data) as [msg|pages]; [|eauto].
      right. exists msg. split; [reflexivity|]. left. now split.
    + destruct (if Py.str_eqb _ docx_ext then _ else _) as [open_docx|] eqn:Hd.
      * exfalso. rewrite Hp in Hd. discriminate Hd.
      * destruct (ParsersFacts.decode_text_total data) as [text ->]. eauto.
  - destruct (Py.str_eqb (ext_from_name name) docx_ext) eqn:Hd.
    + apply PyFacts.str_eqb_eq in Hd.
      destruct (docx libs) as [open_docx|] eqn:Hl.
      * unfold foreign. destruct (open_docx data) as [msg|paragraphs]; [|eauto].
        right. exists msg. split; [reflexivity|]. right. now split.
      * destruct (ParsersFacts.decode_text_total data) as [text ->]. eauto.
    + destruct (ParsersFacts.decode_text_total data) as [text ->]. eauto.
Qed.

Lemma split_acc_join (sep : N) (s : str) : forall cur,
  Py.split_acc sep s cur <> []
  /\ Py.join [sep] (Py.split_acc sep s cur) = rev cur ++ s.
Proof.
  induction s as [|x s IH]; intros cur; cbn [Py.split_acc].
  - split; [discriminate | cbn; now rewrite app_nil_r].
  - destruct (N.eqb_spec x sep) as [->|Hne].
    + split; [discriminate|]. destruct (IH []) as [Hne Hj].
      destruct (Py.split_acc sep s []) as [|p ps] eqn:E; [contradiction|].
      cbn [Py.join]. cbn [Py.join] in Hj. rewrite Hj. reflexivity.
    + destruct (IH (x :: cur)) as [Hne' Hj]. split; [exact Hne'|].
      rewrite Hj. cbn [rev]. now rewrite <- app_assoc.
Qed.

Lemma split_acc_segments (sep : N) (s : str) : forall cur,
  ~ In sep cur ->
  Forall (fun seg => ~ In sep seg) (Py.split_acc sep s cur).
Proof.
  induction s as [|x s IH]; intros cur Hcur; cbn [Py.split_acc].
  - constructor; [|constructor]. now rewrite <- in_rev.
  - destruct (N.eqb_spec x sep) as [->|Hne].
    + constructor; [now rewrite <- in_rev | apply IH; intros []].
    + apply IH. intros [->|H]; [now contradiction Hne | contradiction].
Qed.

Lemma join_ends_with_last (sep : N) (segs : list str) :
  segs <> [] ->
  exists prefix,
    Py.join [sep] segs = prefix ++ List.last segs []
    /\ (prefix = [] \/ exists p, prefix = p ++ [sep]).
Proof.
  induction segs as [|seg segs IH]; [contradiction|]. intros _.
  destruct segs as [|seg' segs].
  - exists []. split; [reflexivity | now left].
  - destruct IH as (prefix & Hj & Hp); [discriminate|].
    exists (seg ++ [sep] ++ prefix). split.
    + change (Py.join [sep] (seg :: seg' :: segs))
        with (seg ++ [sep] ++ Py.join [sep] (seg' :: segs)).
      rewrite Hj. change (List.last (seg :: seg' :: segs) [])
        with (List.last (seg' :: segs) []).
      now rewrite <- !app_assoc.
    + right. destruct Hp as [->|[p ->]].
      * exists seg. now rewrite app_nil_r.
      * exists (seg ++ [sep] ++ p). now rewrite <- !app_assoc.
Qed.

(** X21: splitting at a one-character separator and joining with it are
    inverse to each other, and no part holds the separator; hence a
    request without a named upload is named after what follows the last
    slash of the path of its URL, a name that holds no slash. *)
Theorem url_names_document (w : World) (s : str) (sep : N) :
  Py.join [sep] (Py.split s sep) = s
  /\ Forall (fun seg => ~ In sep seg) (Py.split s sep)
  /\ forall (f : option UploadFile) (url : str),
      url <> [] ->
      (forall u, f = Some u -> Py.truthy (filename u) = false) ->
      exists prefix,
        url_path w url = prefix ++ resolve_filename w f (Some url)
        /\ (prefix = [] \/ exists p, prefix = p ++ [Py.slash])
        /\ ~ In Py.slash (resolve_filename w f (Some url)).
Proof.
  split; [|split].
  - unfold Py.split. now destruct (split_acc_join sep s []) as [_ ->].
  - unfold Py.split. apply split_acc_segments. intros [].
  - intros f url Hne Hf.
    assert (Hname : resolve_filename w f (Some url)
                    = List.last (Py.split (url_path w url) Py.slash) []).
    { unfold resolve_filename. destruct url as [|c url]; [contradiction|].
      destruct f as [u|]; [|reflexivity]. now rewrite (Hf u eq_refl). }
    rewrite Hname. unfold Py.split.
    destruct (split_acc_join Py.slash (url_path w url) []) as [Hne' Hj].
    destruct (join_ends_with_last Py.slash _ Hne') as (prefix & Hl & Hp).
    exists prefix. rewrite <- Hl, Hj. split; [reflexivity|]. split; [exact Hp|].
    pose proof (split_acc_segments Py.slash (url_path w url) [] ltac:(intros []))
      as Hsegs.
    rewrite List.Forall_forall in Hsegs. apply Hsegs.
    destruct (exists_last Hne') as (l & a & ->). rewrite last_last.
    apply in_or_app. right. now left.
Qed.

End SourceProps.

(** ** The further properties at sample inputs *)
Module PropsAtSamples.
Import Main Samples.

Lemma chunks_reassemble_witness :
  (0 < 40 < Py.len (seq 0 77))%Z
  /\ Translator._chunks 40 (seq 0 77) = Some [seq 0 40; seq 38 39; seq 76 1]
  /\ concat (map (take (Z.to_nat (Translator.stride 40)))
               [seq 0 40; seq 38 39; seq 76 1])
     = seq 0 77.
Proof.
  assert (Hn : (0 < 40 < Py.len (seq 0 77))%Z) by (vm_compute; split; reflexivity).
  assert (Hc : Translator._chunks 40 (seq 0 77)
               = Some [seq 0 40; seq 38 39; seq 76 1]) by reflexivity.
  split; [exact Hn|]. split; [exact Hc|].
  exact (TranslatorProps.chunks_reassemble (seq 0 77) 40 _ Hn Hc).
Defined.

Lemma chunks_never_end_witness :
  (0 <= 0)%Z
  /\ seq 0 3 <> []
  /\ (forall fuel,
        Translator.chunks_loop fuel 0 (Translator.overlap_of 0) (seq 0 3) 0 []
        = None)
  /\ Translator._chunks 0 (seq 0 3) = None.
Proof.
  assert (Hn : (0 <= 0)%Z) by lia.
  assert (Ht : seq 0 3 <> []) by discriminate.
  split; [exact Hn|]. split; [exact Ht|].
  exact (TranslatorProps.chunks_never_end (seq 0 3) 0 Hn Ht).
Defined.

Lemma unauthorized_rejected_first_witness :
  result (ensure_auth default_config (authorization anonymous_request))
  = Raised (HTTPException 401 (Py.lit "Missing bearer token"))
  /\ translate_file default_config small_world no_libs dev_env anonymous_request
     = ([], Raised (HTTPException 401 (Py.lit "Missing bearer token"))).
Proof.
  assert (H : result (ensure_auth default_config
                        (authorization anonymous_request))
              = Raised (HTTPException 401 (Py.lit "Missing bearer token")))
    by reflexivity.
  split; [exact H|].
  exact (HandlerProps.unauthorized_rejected_first default_config small_world
           no_libs dev_env anonymous_request _ H).
Defined.

Lemma unsupported_extension_rejected_witness :
  result (ensure_auth default_config (authorization exe_request)) = Returned tt
  /\ (Py.truthy (file_url exe_request) = true \/ file exe_request <> None)
  /\ ext_from_name (resolve_filename quiet_world (file exe_request)
                      (file_url exe_request)) <> []
  /\ Py.str_in (ext_from_name (resolve_filename quiet_world (file exe_request)
                                 (file_url exe_request)))
       ALLOWED_EXTS = false
  /\ Py.isascii (resolve_filename quiet_world (file exe_request)
                   (file_url exe_request)) = true
  /\ translate_file default_config quiet_world no_libs dev_env exe_request
     = ([], Raised (HTTPException 415 (Py.lit "Unsupported file type: .exe")))
  /\ exists detail,
      translate_file default_config quiet_world no_libs dev_env exe_request
      = ([], Raised (HTTPException 415 detail))
      /\ exists stem suffix,
          resolve_filename quiet_world (file exe_request) (file_url exe_request)
          = stem ++ Py.dot :: suffix
          /\ ~ In Py.dot suffix
          /\ detail
             = Py.lit "Unsupported file type: " ++ Py.dot :: Py.lower suffix.
Proof.
  assert (Ha : result (ensure_auth default_config (authorization exe_request))
               = Returned tt) by reflexivity.
  assert (Hs : Py.truthy (file_url exe_request) = true
               \/ file exe_request <> None) by (right; discriminate).
  assert (He : ext_from_name (resolve_filename quiet_world (file exe_request)
                                (file_url exe_request)) <> [])
    by (vm_compute; discriminate).
  assert (Hi : Py.str_in (ext_from_name
                            (resolve_filename quiet_world (file exe_request)
                               (file_url exe_request)))
                 ALLOWED_EXTS = false) by reflexivity.
  assert (Hascii : Py.isascii (resolve_filename quiet_world (file exe_request)
                                 (file_url exe_request)) = true)
    by reflexivity.
  split; [exact Ha|]. split; [exact Hs|]. split; [exact He|].
  split; [exact Hi|]. split; [exact Hascii|]. split; [reflexivity|].
  destruct (HandlerProps.unsupported_extension_rejected default_config
              quiet_world no_libs dev_env exe_request Ha Hs He Hi)
    as (detail & Heq & Hd).
  exists detail. split; [exact Heq | exact (Hd Hascii)].
Defined.

Lemma fetch_bytes_whole_or_refused_witness :
  (host_allowed default_config small_world doc_url = true
   /\ get_status (get small_world doc_url) = 200%Z
   /\ (Py.len (concat (get_chunks (get small_world doc_url))) <= 100)%Z
   /\ fetch_bytes default_config small_world doc_url 100
      = (Get doc_url :: map ReadChunk (get_chunks (get small_world doc_url)),
         Returned (concat (get_chunks (get small_world doc_url)))))
  /\ (host_allowed default_config gone_world doc_url = true
      /\ get_status (get gone_world doc_url) <> 200%Z
      /\ get_text (get gone_world doc_url) = inr (Py.lit "Not Found")
      /\ fetch_bytes default_config gone_world doc_url 4
         = ([Get doc_url; ReadBody (Py.blit "Not Found")],
            Raised (HTTPException 400
                      (Py.lit "Failed to fetch file: 404 Not Found")))).
Proof.
  assert (Hh : host_allowed default_config small_world doc_url = true)
    by reflexivity.
  assert (Hs : get_status (get small_world doc_url) = 200%Z) by reflexivity.
  assert (Hl : (Py.len (concat (get_chunks (get small_world doc_url))) <= 100)%Z)
    by (vm_compute; discriminate).
  assert (Hh' : host_allowed default_config gone_world doc_url = true)
    by reflexivity.
  assert (Hs' : get_status (get gone_world doc_url) <> 200%Z)
    by (vm_compute; discriminate).
  split.
  - split; [exact Hh|]. split; [exact Hs|]. split; [exact Hl|].
    exact (proj1 (HandlerProps.fetch_bytes_whole_or_refused default_config
                    small_world doc_url 100 Hh) Hs Hl).
  - split; [exact Hh'|]. split; [exact Hs'|]. split; [reflexivity|].
    exact (proj2 (HandlerProps.fetch_bytes_whole_or_refused default_config
                    gone_world doc_url 4 Hh') Hs').
Defined.

Lemma probe_lets_through_witness :
  file_url url_request = Some doc_url
  /\ doc_url <> []
  /\ (result (check_url default_config small_world url_request) = Returned tt
      <-> host_allowed default_config small_world doc_url = true
          /\ ((400 <= head_status (head small_world doc_url))%Z
              \/ head_content_length (head small_world doc_url) = NoLength
              \/ exists z,
                  head_content_length (head small_world doc_url) = Length z
                  /\ (z = 0 \/ z <= MAX_BYTES default_config)%Z)).
Proof.
  assert (Hu : file_url url_request = Some doc_url) by reflexivity.
  assert (Hne : doc_url <> []) by (vm_compute; discriminate).
  split; [exact Hu|]. split; [exact Hne|].
  exact (HandlerProps.probe_lets_through default_config small_world
           url_request doc_url Hu Hne).
Defined.

Lemma only_allowed_urls_requested_witness :
  In doc_url
    (flat_map requested
       (trace (translate_file default_config small_world no_libs dev_env
                 url_request)))
  /\ host_allowed default_config small_world doc_url = true.
Proof.
  assert (H : In doc_url
                (flat_map requested
                   (trace (translate_file default_config small_world no_libs
                             dev_env url_request))))
    by (vm_compute; left; reflexivity).
  split; [exact H|].
  exact (HandlerProps.only_allowed_urls_requested default_config small_world
           no_libs dev_env url_request doc_url H).
Defined.

Lemma sourced_within_ceiling_witness :
  (0 <= MAX_BYTES default_config)%Z
  /\ result (sourced default_config small_world url_request)
     = Returned (Py.lit "doc.txt", Py.blit "abcdefghi")
  /\ (Py.len (Py.blit "abcdefghi") <= MAX_BYTES default_config)%Z.
Proof.
  assert (Hm : (0 <= MAX_BYTES default_config)%Z) by (vm_compute; discriminate).
  assert (Hs : result (sourced default_config small_world url_request)
               = Returned (Py.lit "doc.txt", Py.blit "abcdefghi"))
    by reflexivity.
  split; [exact Hm|]. split; [exact Hs|].
  exact (HandlerProps.sourced_within_ceiling default_config small_world
           url_request _ _ Hm Hs).
Defined.

Lemma answered_only_with_matching_digest_witness :
  integrity_sha256 digest_request = Some (Py.lit "AB12")
  /\ Py.lit "AB12" <> []
  /\ result (translate_file default_config digest_world no_libs dev_env
               digest_request)
     = Returned
         (StreamingResponse (Py.blit "Hello world") (Py.lit "text/markdown")
            [content_disposition "hello.txt.translated.md"])
  /\ exists name raw,
      result (sourced default_config digest_world digest_request)
      = Returned (name, raw)
      /\ sha256_hexdigest digest_world raw = Py.lower (Py.lit "AB12").
Proof.
  assert (Hd : integrity_sha256 digest_request = Some (Py.lit "AB12"))
    by reflexivity.
  assert (Hne : Py.lit "AB12" <> []) by (vm_compute; discriminate).
  assert (Hr : result (translate_file default_config digest_world no_libs
                         dev_env digest_request)
               = Returned
                   (StreamingResponse (Py.blit "Hello world")
                      (Py.lit "text/markdown")
                      [content_disposition "hello.txt.translated.md"]))
    by reflexivity.
  split; [exact Hd|]. split; [exact Hne|]. split; [exact Hr|].
  exact (HandlerProps.answered_only_with_matching_digest default_config
           digest_world no_libs dev_env digest_request _ _ Hd Hne Hr).
Defined.

Lemma async_answers_queued_witness :
  (return_mode queued_request = None
   \/ return_mode queued_request = Some (Py.lit "async"))
  /\ result (sourced default_config small_world queued_request)
     = Returned (Py.lit "hello.txt", Py.blit "Hello world")
  /\ translate_file default_config small_world no_libs dev_env queued_request
     = (trace (sourced default_config small_world queued_request)
        ++ [CreateTask
              (do_work default_config small_world no_libs queued_request
                 (Translator.get_translator dev_env) (Py.lit "hello.txt")
                 (Py.blit "Hello world"))],
        Returned
          (JSONResponse [(Py.lit "job_id", Py.str_of_Z (time_ms small_world));
                         (Py.lit "status", Py.lit "queued")])).
Proof.
  assert (Hm : return_mode queued_request = None
               \/ return_mode queued_request = Some (Py.lit "async"))
    by (left; reflexivity).
  assert (Hs : result (sourced default_config small_world queued_request)
               = Returned (Py.lit "hello.txt", Py.blit "Hello world"))
    by reflexivity.
  split; [exact Hm|]. split; [exact Hs|].
  exact (HandlerProps.async_answers_queued default_config small_world no_libs
           dev_env queued_request _ _ Hm Hs).
Defined.


Lemma passthrough_returns_document_witness :
  ext_from_name (Py.lit "hello.txt") <> Parsers.pdf
  /\ ext_from_name (Py.lit "hello.txt") <> Parsers.docx_ext
  /\ Py.truthy (output_url (hello_request None)) = false
  /\ exists out,
      do_work default_config quiet_world no_libs (hello_request None)
        Translator.PassThroughTranslator (Py.lit "hello.txt")
        (Py.blit "Hello world")
      = ([], Returned
               (out,
                snd (Parsers.choose_output_ext_and_mime
                       (field (preserve_format (hello_request None)) "markdown")),
                Py.lit "hello.txt" ++ Py.lit ".translated"
                ++ fst (Parsers.choose_output_ext_and_mime
                          (field (preserve_format (hello_request None))
                             "markdown"))))
      /\ sublist out (Py.blit "Hello world")
      /\ (forall text,
            Utf8.decode Utf8.Strict (Py.blit "Hello world") = inr text ->
            out = Py.blit "Hello world").
Proof.
  assert (Hp : ext_from_name (Py.lit "hello.txt") <> Parsers.pdf)
    by (vm_compute; discriminate).
  assert (Hd : ext_from_name (Py.lit "hello.txt") <> Parsers.docx_ext)
    by (vm_compute; discriminate).
  assert (Hu : Py.truthy (output_url (hello_request None)) = false)
    by reflexivity.
  split; [exact Hp|]. split; [exact Hd|]. split; [exact Hu|].
  exact (HandlerProps.passthrough_returns_document default_config quiet_world
           no_libs (hello_request None) (Py.lit "hello.txt")
           (Py.blit "Hello world") Hp Hd Hu).
Defined.

Lemma hello_upload_plain_witness :
  API_KEY default_config = Py.lit "devkey"
  /\ (11 <= MAX_BYTES default_config)%Z
  /\ Translator.get_translator dev_env = Translator.PassThroughTranslator
  /\ Py.lit "plain" <> []
  /\ Py.lit "plain" <> Py.lit "markdown"
  /\ translate_file default_config quiet_world no_libs dev_env
       (hello_request (Some (Py.lit "plain")))
     = ([ReadUpload],
        Returned
          (StreamingResponse (Py.blit "Hello world") (Py.lit "text/plain")
             [content_disposition "hello.txt.translated.txt"])).
Proof.
  assert (Hkey : API_KEY default_config = Py.lit "devkey") by reflexivity.
  assert (Hmax : (11 <= MAX_BYTES default_config)%Z) by (vm_compute; discriminate).
  assert (Htr : Translator.get_translator dev_env
                = Translator.PassThroughTranslator) by reflexivity.
  assert (Hne : Py.lit "plain" <> []) by (vm_compute; discriminate).
  assert (Hfmt : Py.lit "plain" <> Py.lit "markdown") by (vm_compute; discriminate).
  split; [exact Hkey|]. split; [exact Hmax|]. split; [exact Htr|].
  split; [exact Hne|]. split; [exact Hfmt|].
  exact (proj1 (HandlerProps.hello_upload_plain default_config quiet_world
                  no_libs dev_env (Py.lit "plain") Hkey Hmax Htr) Hne Hfmt).
Defined.

Lemma name_beyond_latin1_unanswered_witness :
  Py.str_eqb (field (return_mode thu_request) "async") (Py.lit "async") = false
  /\ Py.truthy (output_url thu_request) = false
  /\ result (sourced default_config quiet_world thu_request)
     = Returned (thu_name, Py.blit "Hello world")
  /\ latin1 thu_name = false
  /\ result (do_work default_config quiet_world no_libs thu_request
               (Translator.get_translator dev_env) thu_name
               (Py.blit "Hello world"))
     = Returned (Py.blit "Hello world", Py.lit "text/markdown",
                 thu_name ++ Py.lit ".translated.md")
  /\ result (translate_file default_config quiet_world no_libs dev_env
               thu_request)
     = Raised (UnicodeError Utf8.UnicodeEncodeError).
Proof.
  assert (Hm : Py.str_eqb (field (return_mode thu_request) "async")
                 (Py.lit "async") = false) by reflexivity.
  assert (Hu : Py.truthy (output_url thu_request) = false) by reflexivity.
  assert (Hs : result (sourced default_config quiet_world thu_request)
               = Returned (thu_name, Py.blit "Hello world")) by reflexivity.
  assert (Hn : latin1 thu_name = false) by reflexivity.
  assert (Hw : result (do_work default_config quiet_world no_libs thu_request
                         (Translator.get_translator dev_env) thu_name
                         (Py.blit "Hello world"))
               = Returned (Py.blit "Hello world", Py.lit "text/markdown",
                           thu_name ++ Py.lit ".translated.md"))
    by reflexivity.
  split; [exact Hm|]. split; [exact Hu|]. split; [exact Hs|].
  split; [exact Hn|]. split; [exact Hw|].
  exact (proj2 (HandlerProps.name_beyond_latin1_unanswered default_config
                  quiet_world no_libs dev_env thu_request _ _ Hm Hu Hs Hn)
           _ Hw).
Defined.

Lemma rejection_statuses_witness :
  status_of (result (translate_file default_config quiet_world no_libs dev_env
                       exe_request)) = Some 415%Z
  /\ (415 = 400 \/ 415 = 401 \/ 415 = 403 \/ 415 = 413 \/ 415 = 415)%Z.
Proof.
  assert (H : status_of (result (translate_file default_config quiet_world
                                   no_libs dev_env exe_request))
              = Some 415%Z) by reflexivity.
  split; [exact H|].
  exact (HandlerProps.rejection_statuses default_config quiet_world no_libs
           dev_env exe_request 415%Z H).
Defined.

Lemma url_names_document_witness :
  doc_url <> []
  /\ exists prefix,
      url_path small_world doc_url
      = prefix ++ resolve_filename small_world None (Some doc_url)
      /\ (prefix = [] \/ exists p, prefix = p ++ [Py.slash])
      /\ ~ In Py.slash (resolve_filename small_world None (Some doc_url)).
Proof.
  assert (Hne : doc_url <> []) by (vm_compute; discriminate).
  split; [exact Hne|].
  exact (proj2 (proj2 (SourceProps.url_names_document small_world doc_url
                         Py.slash))
           None doc_url Hne ltac:(discriminate)).
Defined.

End PropsAtSamples.
